(** * DeadClickCrawler: discovery de-duplication, batching and click verification

    A shallow embedding of the parts of [backend/utils/element_utils.py] and
    [backend/core/click_tester.py] that decide how discovered elements are
    described, fingerprinted, de-duplicated, partitioned into batches,
    located again, clicked, classified and reported, together with the
    properties the design document states about them and further
    properties of the code itself.

    Conventions of the embedding.
    - A Python [str] is a Rocq [string]; the model is exact on ASCII text
      ([lower] and [strip] act on ASCII letters and ASCII white space).
    - An element descriptor is a Python dict with string keys.  It is
      modelled as a record with one optional field per key the code reads:
      [None] is an absent key, and a present key holds a value of the type
      the extraction functions store there.
    - The browser driver is a capability interface over an abstract world;
      every call may raise, and every call is recorded in a call log.
      Whatever the page does on its own (timers, lazy content) is part of
      the world and happens in the driver calls and in the pauses.
    - Calls to the logger are left out: they neither return a value the
      code uses nor change the driver.
    - Where a function only questions one element in a fixed order (the
      extraction functions, the header and footer test), the answers of
      the element are the input of the model, one per call.
    - Code comes first and statements after: the second half of the file
      states and proves what the design document says about the code, and
      then what else the code guarantees. *)

From Stdlib Require Import ZArith Ascii String List Lia Bool Arith DecimalString.
From Stdlib Require Import Sorting.Sorted Sorting.Permutation.
From stdpp Require Import base decidable option list sets gmap strings.

Local Open Scope string_scope.
Local Open Scope list_scope.

(** ** Python string operations *)

Module PyStr.

(** [s.startswith(p)] *)
Definition startswith (s p : string) : bool := String.prefix p s.

(** [s.count(c)] for a one-character pattern [c]. *)
Fixpoint count (s : string) (c : ascii) : nat :=
  match s with
  | EmptyString => 0
  | String a s' => (if Ascii.eqb a c then 1 else 0) + count s' c
  end.

(** [sub in s] *)
Fixpoint contains (sub s : string) : bool :=
  String.prefix sub s ||
  match s with
  | EmptyString => false
  | String _ s' => contains sub s'
  end.

(** [s.replace(' ', '')] *)
Fixpoint remove_spaces (s : string) : string :=
  match s with
  | EmptyString => EmptyString
  | String a s' =>
      if Ascii.eqb a " "%char then remove_spaces s'
      else String a (remove_spaces s')
  end.

(** [s.replace(' ', '.')] *)
Fixpoint spaces_to_dots (s : string) : string :=
  match s with
  | EmptyString => EmptyString
  | String a s' =>
      String (if Ascii.eqb a " "%char then "."%char else a) (spaces_to_dots s')
  end.

Definition lower_ascii (a : ascii) : ascii :=
  let n := nat_of_ascii a in
  if (65 <=? n)%nat && (n <=? 90)%nat then ascii_of_nat (n + 32) else a.

(** [s.lower()] *)
Fixpoint lower (s : string) : string :=
  match s with
  | EmptyString => EmptyString
  | String a s' => String (lower_ascii a) (lower s')
  end.

(** The characters [str.isspace] accepts below 128. *)
Definition is_space (a : ascii) : bool :=
  let n := nat_of_ascii a in
  ((9 <=? n)%nat && (n <=? 13)%nat) || ((28 <=? n)%nat && (n <=? 32)%nat).

Fixpoint lstrip (s : string) : string :=
  match s with
  | EmptyString => EmptyString
  | String a s' => if is_space a then lstrip s' else s
  end.

(** [rstrip] keeps a character when it is not a space or when something
    that survives follows it. *)
Fixpoint rstrip (s : string) : string :=
  match s with
  | EmptyString => EmptyString
  | String a s' =>
      match rstrip s' with
      | EmptyString => if is_space a then EmptyString else String a EmptyString
      | r => String a r
      end
  end.

(** [s.strip()] *)
Definition strip (s : string) : string := rstrip (lstrip s).

(** [s[:n]] *)
Definition take (n : nat) (s : string) : string := String.substring 0 n s.

(** [sep.join(parts)] *)
Fixpoint join (sep : string) (parts : list string) : string :=
  match parts with
  | [] => ""
  | [p] => p
  | p :: rest => p ++ sep ++ join sep rest
  end.

(** Truth value of a string: non-empty. *)
Definition truthy (s : string) : bool :=
  match s with EmptyString => false | _ => true end.

End PyStr.

(** ** Element descriptors *)

(** The dict built by [extract_element_info] and
    [extract_element_info_for_hidden].  [d.get(k)] is the field itself,
    [d.get(k, dflt)] is [default dflt (field d)], and [d[k]] raises
    [KeyError] on [None]. *)
Record Descriptor := mkDescriptor {
  tag_name : option string;
  text : option string;
  class_names : option string;
  el_id : option string;               (* key 'id' *)
  href : option string;
  onclick : option string;
  xpath : option string;
  css_selector : option string;
  data_testid : option string;
  aria_label : option string;
  is_carousel_element : option bool;
  unique_id : option Z
}.

Global Instance Descriptor_eq_dec : EqDecision Descriptor.
Proof. solve_decision. Defined.

(** [d.get(k, '')] *)
Definition get_str (f : option string) : string := default "" f.

(** ** Fingerprints: [create_unique_id] *)

Section Fingerprint.

(** Python's built-in [hash] on strings: some function of the string,
    fixed for the life of the process. *)
Variable py_hash : string -> Z.

Definition fingerprint_components (element_info : Descriptor) : list string :=
  [ get_str (tag_name element_info);
    get_str (el_id element_info);
    get_str (class_names element_info);
    PyStr.take 50 (get_str (text element_info)) ].

Definition create_unique_id (element_info : Descriptor) : Z :=
  py_hash (PyStr.join "|" (fingerprint_components element_info)).

End Fingerprint.

(** ** The dead-pattern check: [is_dead_click_by_href] *)

Definition dead_patterns : list string :=
  [ ""; "#"; "javascript:void(0)"; "javascript:void(0);"; "javascript:";
    "javascript::void(0)"; "void(0)"; "undefined"; "null"; "about:blank" ].

Definition str_in (s : string) (l : list string) : bool :=
  existsb (String.eqb s) l.

(** [(element_info.get(k) or '').replace(' ', '').lower()] *)
Definition normalized (f : option string) : string :=
  PyStr.lower (PyStr.remove_spaces (get_str f)).

Definition is_dead_click_by_href (element_info : Descriptor) : bool :=
  let href := normalized (href element_info) in
  let onclick := normalized (onclick element_info) in
  if str_in href dead_patterns then true
  else if PyStr.startswith href "javascript:" || PyStr.startswith href "void(0)" then true
  else if str_in onclick ["void(0)"; "javascript:void(0)"; ""] then true
  else if PyStr.startswith onclick "javascript:" then true
  else false.

(** ** Nested-duplicate removal: [advanced_deduplication] *)

(** [len(x.get('xpath', ''))], the sort key. *)
Definition xpath_len (x : Descriptor) : nat := String.length (get_str (xpath x)).

(** [sorted(elements, key=...)] is a stable sort: equal keys keep their
    input order.  A stable insertion sort computes the same list. *)
Fixpoint insert_by_key {A} (key : A -> nat) (x : A) (l : list A) : list A :=
  match l with
  | [] => [x]
  | y :: l' => if (key x <=? key y)%nat then x :: y :: l'
               else y :: insert_by_key key x l'
  end.

Fixpoint sorted_by_key {A} (key : A -> nat) (l : list A) : list A :=
  match l with
  | [] => []
  | x :: l' => insert_by_key key x (sorted_by_key key l')
  end.

Definition special_container_class : string := "variant-tabs__variant-list__item".

(** [a.get(k) and a.get(k) == b.get(k)] for a string-valued key. *)
Definition same_nonempty (a b : option string) : bool :=
  match a with
  | Some s => PyStr.truthy s && bool_decide (a = b)
  | None => false
  end.

(** The body of the inner loop, for one ordered pair of the sorted list. *)
Definition dedup_pair (parent_candidate child_candidate : Descriptor)
    (elements_to_discard : gset (option Z)) : gset (option Z) :=
  let parent_id := unique_id parent_candidate in
  let child_id := unique_id child_candidate in
  if bool_decide (parent_id ∈ elements_to_discard)
     || bool_decide (child_id ∈ elements_to_discard)
  then elements_to_discard
  else
    let parent_xpath := get_str (xpath parent_candidate) in
    let child_xpath := get_str (xpath child_candidate) in
    if negb (PyStr.truthy parent_xpath) || negb (PyStr.truthy child_xpath)
    then elements_to_discard
    else
      let parent_classes := get_str (class_names parent_candidate) in
      let is_special_container := PyStr.contains special_container_class parent_classes in
      if is_special_container && PyStr.startswith child_xpath parent_xpath
         && negb (String.eqb child_xpath parent_xpath)
      then {[ child_id ]} ∪ elements_to_discard
      else if PyStr.startswith child_xpath parent_xpath
              && (PyStr.count child_xpath "/" =? PyStr.count parent_xpath "/" + 1)%nat
      then
        let has_same_text := same_nonempty (text parent_candidate) (text child_candidate) in
        let has_same_class :=
          same_nonempty (class_names parent_candidate) (class_names child_candidate) in
        if has_same_text || has_same_class
        then {[ child_id ]} ∪ elements_to_discard
        else elements_to_discard
      else elements_to_discard.

(** [for j in range(i + 1, n)]: the candidates after position [i]. *)
Definition dedup_inner (parent_candidate : Descriptor) (later : list Descriptor)
    (elements_to_discard : gset (option Z)) : gset (option Z) :=
  fold_left (fun disc child => dedup_pair parent_candidate child disc)
            later elements_to_discard.

(** [for i in range(n)] *)
Fixpoint dedup_outer (sorted_elements : list Descriptor)
    (elements_to_discard : gset (option Z)) : gset (option Z) :=
  match sorted_elements with
  | [] => elements_to_discard
  | parent_candidate :: later =>
      dedup_outer later (dedup_inner parent_candidate later elements_to_discard)
  end.

Definition sorted_elements (elements : list Descriptor) : list Descriptor :=
  sorted_by_key xpath_len elements.

Definition elements_to_discard (elements : list Descriptor) : gset (option Z) :=
  dedup_outer (sorted_elements elements) ∅.

Definition advanced_deduplication (elements : list Descriptor) : list Descriptor :=
  let discard := elements_to_discard elements in
  List.filter (fun elem => negb (bool_decide (unique_id elem ∈ discard))) elements.

(** The condition under which the loop body adds the child's fingerprint,
    once the pair is not skipped. *)
Definition nested_duplicate (parent child : Descriptor) : bool :=
  let parent_xpath := get_str (xpath parent) in
  let child_xpath := get_str (xpath child) in
  PyStr.truthy parent_xpath && PyStr.truthy child_xpath &&
  ((PyStr.contains special_container_class (get_str (class_names parent))
      && PyStr.startswith child_xpath parent_xpath
      && negb (String.eqb child_xpath parent_xpath))
   || (PyStr.startswith child_xpath parent_xpath
         && (PyStr.count child_xpath "/" =? PyStr.count parent_xpath "/" + 1)%nat
         && (same_nonempty (text parent) (text child)
             || same_nonempty (class_names parent) (class_names child)))).


(** ** The fingerprint-collapse filter of [find_clickable_elements] *)

(** Truth value of [element_info.get('unique_id')]: present and non-zero.
    (The test [element_info and ...] before it adds nothing: an empty dict
    has no 'unique_id' either.) *)
Definition truthy_id (u : option Z) : bool :=
  match u with
  | Some z => negb (z =? 0)%Z
  | None => false
  end.

Fixpoint collapse_loop (deduplicated_elements : list Descriptor)
    (unique_ids : gset (option Z)) : list Descriptor :=
  match deduplicated_elements with
  | [] => []
  | element_info :: rest =>
      if truthy_id (unique_id element_info)
         && negb (bool_decide (unique_id element_info ∈ unique_ids))
      then element_info :: collapse_loop rest ({[ unique_id element_info ]} ∪ unique_ids)
      else collapse_loop rest unique_ids
  end.

Definition final_elements (clickable_elements : list Descriptor) : list Descriptor :=
  collapse_loop (advanced_deduplication clickable_elements) ∅.

(** ** Batch partitioning: [_divide_elements_into_batches] *)

(** [l[start:stop]] for non-negative indices. *)
Definition slice {A} (start stop : nat) (l : list A) : list A :=
  firstn (stop - start) (skipn start l).

Section Batches.
Context {A : Type}.

(** One iteration of [for i in range(num_batches)]; the loop state is
    [(start_idx, batches)]. *)
Definition batch_step (elements : list A) (batch_size remainder : nat)
    (st : nat * list (list A)) (i : nat) : nat * list (list A) :=
  let '(start_idx, batches) := st in
  let current_batch_size := batch_size + (if (i <? remainder)%nat then 1 else 0) in
  let end_idx := start_idx + current_batch_size in
  let batch := slice start_idx end_idx elements in
  (end_idx, match batch with [] => batches | _ => batches ++ [batch] end).

(** [None] is the [ZeroDivisionError] of [len(elements) // 0]. *)
Definition _divide_elements_into_batches (elements : list A) (num_batches : nat)
    : option (list (list A)) :=
  match num_batches with
  | O => None
  | _ =>
      let batch_size := (length elements / num_batches)%nat in
      let remainder := (length elements mod num_batches)%nat in
      Some (snd (fold_left (batch_step elements batch_size remainder)
                           (seq 0 num_batches) (0%nat, [])))
  end.

End Batches.

(** ** The browser driver as a capability interface *)

(** Exceptions.  The code distinguishes one class by name
    ([ElementClickInterceptedException]); the wait helper of the driver
    library ignores [NoSuchElementException]; everything else is only ever
    caught by [except Exception].  [exn_str] is [str(e)]. *)
Inductive ExnClass :=
  | ElementClickInterceptedException
  | NoSuchElementException
  | TimeoutException
  | KeyError
  | AttributeError
  | OtherException.

Global Instance ExnClass_eq_dec : EqDecision ExnClass.
Proof. solve_decision. Defined.

Record Exn := mkExn { exn_class : ExnClass; exn_str : string }.

(** Locator strategies used by the code. *)
Inductive By := XPATH | CSS_SELECTOR | ID.

(** What [execute_script] hands back: a string, or a value of some other
    Python type (NoneType, int, list, ...), which has no [encode]. *)
Inductive JsValue := JsStr (s : string) | JsOther (type_name : string).

(** The calls made on a driver or on an element handle, as logged. *)
Inductive Call (H : Type) :=
  | CallCurrentUrl
  | CallTitle
  | CallGet (url : string)
  | CallExecuteScript (script : string) (args : list H)
  | CallFindElement (by_ : By) (value : string)
  | CallFindElements (by_ : By) (value : string)
  | CallIsDisplayed (h : H)
  | CallIsEnabled (h : H)
  | CallTagName (h : H)
  | CallText (h : H)
  | CallMoveAndClick (h : H)
  | CallSleep (ms : nat).

Arguments CallCurrentUrl {H}.
Arguments CallTitle {H}.
Arguments CallGet {H}.
Arguments CallExecuteScript {H}.
Arguments CallFindElement {H}.
Arguments CallFindElements {H}.
Arguments CallIsDisplayed {H}.
Arguments CallIsEnabled {H}.
Arguments CallTagName {H}.
Arguments CallText {H}.
Arguments CallMoveAndClick {H}.
Arguments CallSleep {H}.

(** The driver over a world [W] with element handles [H].  Every call takes
    the world to a new world and returns a value or raises.  [sleep] lets
    the page evolve; [now_isoformat] reads the clock; [extra_polls] says how
    many further polls a bounded wait of the given number of seconds fits
    after its first one. *)
Record Driver (W H : Type) := mkDriver {
  drv_current_url : W -> (Exn + string) * W;
  drv_title : W -> (Exn + string) * W;
  drv_get : string -> W -> (Exn + unit) * W;
  drv_execute_script : string -> list H -> W -> (Exn + JsValue) * W;
  drv_find_element : By -> string -> W -> (Exn + H) * W;
  drv_find_elements : By -> string -> W -> (Exn + list H) * W;
  drv_is_displayed : H -> W -> (Exn + bool) * W;
  drv_is_enabled : H -> W -> (Exn + bool) * W;
  drv_tag_name : H -> W -> (Exn + string) * W;
  drv_text : H -> W -> (Exn + string) * W;
  drv_move_and_click : H -> W -> (Exn + unit) * W;
  drv_sleep : nat -> W -> W;
  now_isoformat : W -> string;
  extra_polls : nat -> W -> nat
}.

Arguments drv_current_url {W H}.
Arguments drv_title {W H}.
Arguments drv_get {W H}.
Arguments drv_execute_script {W H}.
Arguments drv_find_element {W H}.
Arguments drv_find_elements {W H}.
Arguments drv_is_displayed {W H}.
Arguments drv_is_enabled {W H}.
Arguments drv_tag_name {W H}.
Arguments drv_text {W H}.
Arguments drv_move_and_click {W H}.
Arguments drv_sleep {W H}.
Arguments now_isoformat {W H}.
Arguments extra_polls {W H}.

(** The session: the world and the log of calls made so far. *)
Record Session (W H : Type) := mkSession {
  world : W;
  calls : list (Call H)
}.

Arguments mkSession {W H}.
Arguments world {W H}.
Arguments calls {W H}.

(** Scripts passed to [execute_script]. *)
Definition inner_html_script : string := "return document.body.innerHTML;".
Definition scroll_into_view_script : string :=
  "arguments[0].scrollIntoView({behavior: 'smooth', block: 'center'});".
Definition js_click_script : string := "arguments[0].click();".
Definition force_visible_script : string :=
"
                var element = arguments[0];
                var current = element;
                while (current && current !== document.body) {
                    current.style.display = 'block';
                    current.style.visibility = 'visible';
                    current.style.opacity = '1';
                    current.style.position = 'relative';
                    current.style.zIndex = 'auto';
                    current.style.transform = current.style.webkitTransform = 'none';
                    current = current.parentElement;
                }
            ".

(** The calls that click: the simulated pointer click and the script
    click. *)
Definition is_click_call {H} (c : Call H) : bool :=
  match c with
  | CallMoveAndClick _ => true
  | CallExecuteScript script _ => String.eqb script js_click_script
  | _ => false
  end.

Definition no_click_in {H} (log : list (Call H)) : Prop :=
  List.Forall (fun c => is_click_call c = false) log.

(** ** The per-element outcome record *)

Record TestResult := mkTestResult {
  element_info : Descriptor;
  click_status : string;
  error_message : string;
  page_changed : bool;
  url_before : string;
  url_after : string;
  new_elements_appeared : bool;
  timestamp : string;
  dom_hash_before : option string;
  dom_hash_after : option string
}.

Definition set_click_status (s : string) (r : TestResult) : TestResult :=
  mkTestResult (element_info r) s (error_message r) (page_changed r) (url_before r)
    (url_after r) (new_elements_appeared r) (timestamp r) (dom_hash_before r) (dom_hash_after r).
Definition set_error_message (s : string) (r : TestResult) : TestResult :=
  mkTestResult (element_info r) (click_status r) s (page_changed r) (url_before r)
    (url_after r) (new_elements_appeared r) (timestamp r) (dom_hash_before r) (dom_hash_after r).
Definition set_page_changed (b : bool) (r : TestResult) : TestResult :=
  mkTestResult (element_info r) (click_status r) (error_message r) b (url_before r)
    (url_after r) (new_elements_appeared r) (timestamp r) (dom_hash_before r) (dom_hash_after r).
Definition set_url_before (s : string) (r : TestResult) : TestResult :=
  mkTestResult (element_info r) (click_status r) (error_message r) (page_changed r) s
    (url_after r) (new_elements_appeared r) (timestamp r) (dom_hash_before r) (dom_hash_after r).
Definition set_url_after (s : string) (r : TestResult) : TestResult :=
  mkTestResult (element_info r) (click_status r) (error_message r) (page_changed r)
    (url_before r) s (new_elements_appeared r) (timestamp r) (dom_hash_before r) (dom_hash_after r).
Definition set_new_elements_appeared (b : bool) (r : TestResult) : TestResult :=
  mkTestResult (element_info r) (click_status r) (error_message r) (page_changed r)
    (url_before r) (url_after r) b (timestamp r) (dom_hash_before r) (dom_hash_after r).
Definition set_dom_hash_before (s : string) (r : TestResult) : TestResult :=
  mkTestResult (element_info r) (click_status r) (error_message r) (page_changed r)
    (url_before r) (url_after r) (new_elements_appeared r) (timestamp r) (Some s) (dom_hash_after r).
Definition set_dom_hash_after (s : string) (r : TestResult) : TestResult :=
  mkTestResult (element_info r) (click_status r) (error_message r) (page_changed r)
    (url_before r) (url_after r) (new_elements_appeared r) (timestamp r) (dom_hash_before r) (Some s).

(** ** A monad for code that talks to the driver

    [M L A]: a computation over a local mutable object of type [L] (the
    [result] dict of one click test, the [batch_results] list of one batch)
    and the session, that returns an [A] or raises. *)
Module Py.
Section Monad.
Context {W H : Type}.

Definition M (L A : Type) : Type :=
L -> Session W H -> (Exn + A) * L * Session W H.

Definition ret {L A} (a : A) : M L A := fun l s => (inr a, l, s).

Definition raise {L A} (e : Exn) : M L A := fun l s => (inl e, l, s).

Definition bind {L A B} (m : M L A) (k : A -> M L B) : M L B :=
fun l s =>
  match m l s with
  | (inr a, l', s') => k a l' s'
  | (inl e, l', s') => (inl e, l', s')
  end.

(** [try: m except Exception as e: handler e] *)
Definition try_except {L A} (m : M L A) (handler : Exn -> M L A) : M L A :=
fun l s =>
  match m l s with
  | (inr a, l', s') => (inr a, l', s')
  | (inl e, l', s') => handler e l' s'
  end.

(** Mutate the local object. *)
Definition update {L} (f : L -> L) : M L unit := fun l s => (inr tt, f l, s).

(** A driver call: performed on the world and appended to the log. *)
Definition call {L A} (c : Call H) (op : W -> (Exn + A) * W) : M L A :=
fun l s =>
  let '(r, w') := op (world s) in
  (r, l, mkSession w' (calls s ++ [c])).

(** The session after a [time.sleep]: the world has moved on. *)
Definition slept (drv : Driver W H) (ms : nat) (s : Session W H) : Session W H :=
mkSession (drv_sleep drv ms (world s)) (calls s ++ [CallSleep ms]).

(** [time.sleep] *)
Definition sleep {L} (drv : Driver W H) (ms : nat) : M L unit :=
fun l s => (inr tt, l, slept drv ms s).

(** Read the session without touching it. *)
Definition peek {L A} (f : W -> A) : M L A := fun l s => (inr (f (world s)), l, s).

(** Run a computation on a local object of its own and hand back that
  object: a method call that builds and returns its own dict. *)
Definition with_local {L L' A} (init : L') (m : M L' A) : M L ((Exn + A) * L') :=
fun l s =>
  let '(r, l', s') := m init s in
  (inr (r, l'), l, s').

End Monad.
End Py.

Declare Scope py_scope.
Delimit Scope py_scope with py.
Notation "'let!' x ':=' m 'in' k" := (Py.bind m (fun x => k))
  (at level 10, x name, m at level 100, k at level 200) : py_scope.
Notation "'do!' m 'in' k" := (Py.bind m (fun _ => k))
  (at level 10, m at level 100, k at level 200) : py_scope.

(** ** The click verifier of [ClickableElementTester] *)

(** The double-quote character, for the XPath text predicate. *)
Definition dquote : string := String (ascii_of_nat 34) EmptyString.

Section ClickTester.
Context {W H : Type}.
Variable driver : Driver W H.

(** [hashlib.md5(s.encode('utf-8')).hexdigest()] *)
Variable md5_hexdigest : string -> string.

Local Open Scope py_scope.

Local Abbreviation M := (@Py.M W H).

(** *** Driver calls, logged *)

Definition current_url {L} : M L string :=
  Py.call CallCurrentUrl (drv_current_url driver).
Definition title {L} : M L string :=
  Py.call CallTitle (drv_title driver).
Definition get {L} (url : string) : M L unit :=
  Py.call (CallGet url) (drv_get driver url).
Definition execute_script {L} (script : string) (args : list H) : M L JsValue :=
  Py.call (CallExecuteScript script args) (drv_execute_script driver script args).
Definition find_element {L} (by_ : By) (value : string) : M L H :=
  Py.call (CallFindElement by_ value) (drv_find_element driver by_ value).
Definition find_elements {L} (by_ : By) (value : string) : M L (list H) :=
  Py.call (CallFindElements by_ value) (drv_find_elements driver by_ value).
Definition is_displayed {L} (h : H) : M L bool :=
  Py.call (CallIsDisplayed h) (drv_is_displayed driver h).
Definition is_enabled {L} (h : H) : M L bool :=
  Py.call (CallIsEnabled h) (drv_is_enabled driver h).
Definition handle_tag_name {L} (h : H) : M L string :=
  Py.call (CallTagName h) (drv_tag_name driver h).
Definition handle_text {L} (h : H) : M L string :=
  Py.call (CallText h) (drv_text driver h).
(** [ActionChains(driver).move_to_element(h).pause(0.5).click(h).perform()] *)
Definition move_and_click {L} (h : H) : M L unit :=
  Py.call (CallMoveAndClick h) (drv_move_and_click driver h).
Definition sleep {L} (ms : nat) : M L unit := Py.sleep driver ms.

(** [d[k]]: [KeyError] when the key is absent. *)
Definition getitem {L} (key : string) (f : option string) : M L string :=
  match f with
  | Some v => Py.ret v
  | None => Py.raise (mkExn KeyError key)
  end.

(** [x.encode('utf-8')] then md5: [AttributeError] unless [x] is a string. *)
Definition md5_of {L} (v : JsValue) : M L string :=
  match v with
  | JsStr s => Py.ret (md5_hexdigest s)
  | JsOther ty =>
      Py.raise (mkExn AttributeError
                  ("'" ++ ty ++ "' object has no attribute 'encode'")%string)
  end.

(** [a and b] on driver calls: [b] is not evaluated when [a] is false. *)
Definition and_then {L} (a b : M L bool) : M L bool :=
  let! x := a in if x then b else Py.ret false.

(** [element.is_displayed() and element.is_enabled()] *)
Definition displayed_and_enabled {L} (element : H) : M L bool :=
  and_then (is_displayed element) (is_enabled element).

(** [for el in elements: if cond(el): return el] *)
Fixpoint first_such {L} (cond : H -> M L bool) (elements : list H) : M L (option H) :=
  match elements with
  | [] => Py.ret None
  | el :: rest =>
      let! ok := cond el in
      if ok then Py.ret (Some el) else first_such cond rest
  end.

(** One strategy of the chain, inside its [try]/[except Exception]: a
    failure of the strategy is logged and the chain goes on. *)
Definition strategy {L} (m : M L (option H)) : M L (option H) :=
  Py.try_except m (fun _ => Py.ret None).

(** Go on with [k] unless [m] has returned an element. *)
Definition or_else {L} (m k : M L (option H)) : M L (option H) :=
  let! r := m in
  match r with
  | Some el => Py.ret (Some el)
  | None => k
  end.

(** [element = find_element(by, value); if element.is_displayed(): return element] *)
Definition single_displayed {L} (by_ : By) (value : string) : M L (option H) :=
  let! element := find_element by_ value in
  let! shown := is_displayed element in
  Py.ret (if shown then Some element else None).

(** *** [_find_element_by_info_with_driver] *)

Definition _find_element_by_info_with_driver {L} (element_info : Descriptor)
    : M L (option H) :=
  Py.try_except
    ((* 1. XPath *)
     or_else
       (match xpath element_info with
        | Some xp =>
            if PyStr.truthy xp && negb (String.eqb xp "xpath_unavailable")
            then strategy (single_displayed XPATH xp)
            else Py.ret None
        | None => Py.ret None
        end)
    ((* 2. CSS selector *)
     or_else
       (match css_selector element_info with
        | Some css =>
            if PyStr.truthy css && negb (String.eqb css "css_selector_unavailable")
            then strategy
                   (let! elements := find_elements CSS_SELECTOR css in
                    first_such
                      (fun element =>
                         and_then (is_displayed element)
                           (let! tn := handle_tag_name element in
                            let! wanted := getitem "tag_name" (tag_name element_info) in
                            Py.ret (String.eqb tn wanted)))
                      elements)
            else Py.ret None
        | None => Py.ret None
        end)
    ((* 3. tag, class and text *)
     let! tag := getitem "tag_name" (tag_name element_info) in
     let! raw_classes := getitem "class_names" (class_names element_info) in
     let classes := PyStr.spaces_to_dots (PyStr.strip raw_classes) in
     let txt := PyStr.strip (get_str (text element_info)) in
     or_else
       (if PyStr.truthy tag && PyStr.truthy classes
        then strategy
               (let selector := (tag ++ "." ++ classes)%string in
                let! elements := find_elements CSS_SELECTOR selector in
                first_such
                  (fun el =>
                     and_then (is_displayed el)
                       (if negb (PyStr.truthy txt) then Py.ret true
                        else let! t := handle_text el in
                             Py.ret (String.eqb (PyStr.strip t) txt)))
                  elements)
        else Py.ret None)
    ((* 4. id *)
     or_else
       (match el_id element_info with
        | Some i =>
            if PyStr.truthy i then strategy (single_displayed ID i) else Py.ret None
        | None => Py.ret None
        end)
    ((* 5. partial text *)
     or_else
       (if PyStr.truthy tag && PyStr.truthy txt
        then strategy
               (let text_xpath :=
                  ("//" ++ tag ++ "[contains(normalize-space(), " ++ dquote ++ txt
                     ++ dquote ++ ")]")%string in
                let! elements := find_elements XPATH text_xpath in
                first_such is_displayed elements)
        else Py.ret None)
    ((* 6. class only *)
     or_else
       (if PyStr.truthy classes
        then strategy
               (let! elements := find_elements CSS_SELECTOR ("." ++ classes)%string in
                first_such is_displayed elements)
        else Py.ret None)
    ((* 7. data-testid *)
     or_else
       (let data_testid := get_str (data_testid element_info) in
        if PyStr.truthy data_testid
        then strategy
               (single_displayed CSS_SELECTOR
                  ("[data-testid='" ++ data_testid ++ "']")%string)
        else Py.ret None)
    ((* 8. aria-label *)
     or_else
       (let aria_label := get_str (aria_label element_info) in
        if PyStr.truthy aria_label
        then strategy
               (single_displayed CSS_SELECTOR
                  ("[aria-label='" ++ aria_label ++ "']")%string)
        else Py.ret None)
       (Py.ret None)))))))))
    (fun _ => Py.ret None).

(** *** [_make_carousel_element_clickable_with_driver] *)

Definition _make_carousel_element_clickable_with_driver {L} (element : H) : M L unit :=
  Py.try_except
    (do! execute_script force_visible_script [element] in
     sleep 500)
    (fun _ => Py.ret tt).

(** *** [WebDriverWait(driver, timeout).until(method)]

    The wait helper belongs to the driver library, not to this
    repository; it is modelled by what it does: it calls [method] at
    least once, ignores [NoSuchElementException] raised by it, sleeps
    half a second between polls, and raises [TimeoutException] when the
    time is up.  How many further polls fit in the time is the world's
    business. *)
Fixpoint wait_until_loop {L} (method : M L bool) (further : nat) : M L bool :=
  let! value :=
    Py.try_except method
      (fun e => if bool_decide (exn_class e = NoSuchElementException)
                then Py.ret false else Py.raise e) in
  if value then Py.ret true
  else match further with
       | O => Py.raise (mkExn TimeoutException "Message: ")
       | S n => do! sleep 500 in wait_until_loop method n
       end.

Definition wait_until {L} (timeout_s : nat) (method : M L bool) : M L bool :=
  let! further := Py.peek (extra_polls driver timeout_s) in
  wait_until_loop method further.

(** *** The stages of [_test_element_click_with_driver] *)

(** Lines 142-151: the fresh [result] dict. *)
Definition fresh_result (element_info : Descriptor) (now : string) : TestResult :=
  mkTestResult element_info "unknown" "" false "" "" false now None None.

(** Lines 160-165: [for attempt in range(3)].  [element] is what the last
    attempt assigned; the loop is left early on an element that is
    displayed and enabled. *)
Fixpoint relocate {L} (element_info : Descriptor) (attempts : nat) (element : option H)
    : M L (option H) :=
  match attempts with
  | O => Py.ret element
  | S remaining =>
      let! element := _find_element_by_info_with_driver element_info in
      let! usable :=
        match element with
        | Some el => displayed_and_enabled el
        | None => Py.ret false
        end in
      if usable then Py.ret element
      else do! sleep 700 in relocate element_info remaining element
  end.

(** What the click stage ends in: the click went through, or the test
    has filled in [result] and returns. *)
Inductive ClickOutcome := Clicked | Returned.

(** Lines 181-197: the simulated click with its script fallback. *)
Definition perform_click (element : H) : M TestResult ClickOutcome :=
  Py.try_except
    (do! move_and_click element in Py.ret Clicked)
    (fun e =>
       if bool_decide (exn_class e = ElementClickInterceptedException)
       then
         Py.try_except
           (do! execute_script js_click_script [element] in Py.ret Clicked)
           (fun js_error =>
              do! Py.update (set_click_status "click_intercepted") in
              do! Py.update (set_error_message
                               ("Click intercepted: " ++ exn_str js_error)%string) in
              Py.ret Returned)
       else
         do! Py.update (set_click_status "error") in
         do! Py.update (set_error_message ("Error during click: " ++ exn_str e)%string) in
         Py.ret Returned).

(** What the test has seen of the page before and after the click. *)
Record Observation := mkObservation {
  initial_url : string;
  initial_title : string;
  hash_before : string;
  dom_changed : bool;
  final_url : string;              (* [current_url] *)
  final_title : string;            (* [current_title] *)
  hash_after : string;
  modals : list H;
  dropdowns : list H
}.

Definition modal_selector : string :=
  ".modal, .popup, .overlay, .dialog, [role=" ++ dquote ++ "dialog" ++ dquote
    ++ "], [role=" ++ dquote ++ "alertdialog" ++ dquote ++ "]".
Definition dropdown_selector : string :=
  ".dropdown-menu, .menu-open, [aria-expanded=" ++ dquote ++ "true" ++ dquote ++ "]".

(** Lines 214-222: both lists start empty; a failure keeps what was
    assigned so far. *)
Definition find_modals_and_dropdowns {L} : M L (list H * list H) :=
  Py.try_except
    (let! modals := find_elements CSS_SELECTOR modal_selector in
     Py.try_except
       (let! dropdowns := find_elements CSS_SELECTOR dropdown_selector in
        Py.ret (modals, dropdowns))
       (fun _ => Py.ret (modals, [])))
    (fun _ => Py.ret ([], [])).

(** Lines 153-157: the page before the click. *)
Record Snapshot := mkSnapshot {
  snap_url : string;
  snap_title : string;
  snap_hash : string
}.

Definition snapshot : M TestResult Snapshot :=
  let! initial_url := current_url in
  let! initial_title := title in
  do! Py.update (set_url_before initial_url) in
  let! dom_before := execute_script inner_html_script [] in
  let! dom_hash_before := md5_of dom_before in
  Py.ret (mkSnapshot initial_url initial_title dom_hash_before).

(** Lines 171-174: carousel elements are forced visible, then the
    element is scrolled into view. *)
Definition prepare_click {L} (element_info : Descriptor) (element : H) : M L unit :=
  do! (if default false (is_carousel_element element_info)
       then _make_carousel_element_clickable_with_driver element
       else Py.ret tt) in
  do! execute_script scroll_into_view_script [element] in
  sleep 1000.

(** Lines 199-222: what is read off the page after the click. *)
Definition observe (before : Snapshot) : M TestResult Observation :=
  let! dom_changed :=
    Py.try_except
      (wait_until 6
         (let! dom := execute_script inner_html_script [] in
          let! h := md5_of dom in
          Py.ret (negb (String.eqb h (snap_hash before)))))
      (fun _ => Py.ret false) in
  do! sleep 2000 in
  let! current_url := current_url in
  let! current_title := title in
  do! Py.update (set_url_after current_url) in
  let! dom_after := execute_script inner_html_script [] in
  let! dom_hash_after := md5_of dom_after in
  let! found := find_modals_and_dropdowns in
  Py.ret (mkObservation (snap_url before) (snap_title before) (snap_hash before)
            dom_changed current_url current_title dom_hash_after
            (fst found) (snd found)).

(** Lines 166-222, once the retries are over.  [None] when the test has
    filled in [result] and returns before observing. *)
Definition after_relocation (element_info : Descriptor) (before : Snapshot)
    (element : option H) : M TestResult (option Observation) :=
  match element with
  | None =>
      do! Py.update (set_click_status "element_not_found") in
      do! Py.update (set_error_message
                       "Element could not be located for clicking (after retries)") in
      Py.ret None
  | Some element =>
      do! prepare_click element_info element in
      let! clickable := displayed_and_enabled element in
      if negb clickable then
        do! Py.update (set_click_status "not_clickable") in
        do! Py.update (set_error_message "Element is not displayed or enabled") in
        Py.ret None
      else
        let! outcome := perform_click element in
        match outcome with
        | Returned => Py.ret None
        | Clicked => let! o := observe before in Py.ret (Some o)
        end
  end.

(** Lines 153-222: everything up to the classification. *)
Definition click_and_observe (element_info : Descriptor)
    : M TestResult (option Observation) :=
  let! before := snapshot in
  let! element := relocate element_info 3 None in
  after_relocation element_info before element.

Definition nonempty {X} (l : list X) : bool :=
  match l with [] => false | _ => true end.

(** Lines 223-248: the classification. *)
Definition classify (element_info : Descriptor) (o : Observation) : M TestResult unit :=
  let is_suspicious := is_dead_click_by_href element_info in
  do! (if negb (String.eqb (final_url o) (initial_url o)) then
         do! Py.update (set_click_status "active_navigation") in
         Py.update (set_page_changed true)
       else if negb (String.eqb (final_title o) (initial_title o)) then
         do! Py.update (set_click_status "active_title_change") in
         Py.update (set_page_changed true)
       else if dom_changed o then
         Py.update (set_click_status "active_dom_change")
       else if nonempty (modals o) || nonempty (dropdowns o) then
         do! Py.update (set_click_status "active_ui_change") in
         Py.update (set_new_elements_appeared true)
       else if is_suspicious then
         do! Py.update (set_click_status "dead_click") in
         Py.update (set_error_message
                      "Dead click: suspicious href or onclick and no visible effect")
       else
         do! Py.update (set_click_status "dead_click") in
         Py.update (set_error_message "Dead click: no visible effect after click")) in
  do! Py.update (set_dom_hash_before (hash_before o)) in
  Py.update (set_dom_hash_after (hash_after o)).

(** Lines 152-248: the body of the [try]. *)
Definition click_test_body (element_info : Descriptor) : M TestResult unit :=
  let! seen := click_and_observe element_info in
  match seen with
  | None => Py.ret tt
  | Some o => classify element_info o
  end.

(** Lines 249-252: the [except Exception] of the whole test. *)
Definition click_test_handler (e : Exn) : M TestResult unit :=
  do! Py.update (set_click_status "error") in
  Py.update (set_error_message (exn_str e)).

(** *** [_test_element_click_with_driver]

    The method builds its own [result], runs the guarded body on it and
    returns it. *)
Definition _test_element_click_with_driver {L} (element_info : Descriptor)
    (original_url : string) : M L TestResult :=
  let! now := Py.peek (now_isoformat driver) in
  let! done := Py.with_local (fresh_result element_info now)
                 (Py.try_except (click_test_body element_info) click_test_handler) in
  match fst done with
  | inl e => Py.raise e
  | inr _ => Py.ret (snd done)
  end.

(** *** [_test_element_batch] *)

Definition batch_error_result (element_info : Descriptor) (e : Exn) (url now : string)
    : TestResult :=
  mkTestResult element_info "batch_error" (exn_str e) false url url false now None None.

(** Lines 110-121: the guarded part of one iteration of the loop over
    the batch; the local object is [batch_results].  [tester] is the
    method the loop calls on [self] for the element. *)
Definition batch_guarded
    (tester : Descriptor -> string -> M (list TestResult) TestResult)
    (url : string) (element_info : Descriptor) : M (list TestResult) unit :=
  let! here := current_url in
  do! (if negb (String.eqb here url)
       then do! get url in sleep 2000
       else Py.ret tt) in
  let! result := tester element_info url in
  Py.update (fun batch_results => batch_results ++ [result]).

(** Lines 122-134: the [except Exception] of the iteration. *)
Definition batch_recover (url : string) (element_info : Descriptor) (e : Exn)
    : M (list TestResult) unit :=
  let! now := Py.peek (now_isoformat driver) in
  Py.update (fun batch_results =>
               batch_results ++ [batch_error_result element_info e url now]).

Definition batch_iteration
    (tester : Descriptor -> string -> M (list TestResult) TestResult)
    (url : string) (element_info : Descriptor) : M (list TestResult) unit :=
  Py.try_except (batch_guarded tester url element_info)
                (batch_recover url element_info).

Fixpoint batch_loop
    (tester : Descriptor -> string -> M (list TestResult) TestResult)
    (url : string) (batch : list Descriptor) : M (list TestResult) unit :=
  match batch with
  | [] => Py.ret tt
  | element_info :: rest =>
      do! batch_iteration tester url element_info in
      batch_loop tester url rest
  end.

Definition _test_element_batch {L} (batch : list Descriptor) (batch_id : nat)
    (url : string) : M L (list TestResult) :=
  let! done := Py.with_local []
                 (batch_loop _test_element_click_with_driver url batch) in
  match fst done with
  | inl e => Py.raise e
  | inr _ => Py.ret (snd done)
  end.

End ClickTester.

(** ** Aggregation in [run_comprehensive_test_concurrent] *)

Record TestReport := mkTestReport {
  report_url : string;
  total_elements_found : nat;
  elements_tested : nat;
  active_clicks : nat;
  dead_clicks : nat;
  errors : nat;
  results : list TestResult;
  batches_created : nat;
  batch_sizes : list nat
}.

(** Lines 1066-1082: the report before any batch has completed. *)
Definition empty_report (url : string) (clickable_elements : list Descriptor)
    (batches : list (list Descriptor)) : TestReport :=
  mkTestReport url (length clickable_elements) 0 0 0 0 [] (length batches)
    (List.map (fun b => length b) batches).

(** Lines 1089-1097: one completed future.  [future.result()] hands back
    the batch's results or re-raises what the batch raised; a failed batch
    is logged and adds nothing. *)
Definition collect_batch (report : TestReport) (outcome : Exn + list TestResult)
    : TestReport :=
  match outcome with
  | inr batch_results =>
      mkTestReport (report_url report) (total_elements_found report)
        (elements_tested report + length batch_results)
        (active_clicks report) (dead_clicks report) (errors report)
        (results report ++ batch_results)
        (batches_created report) (batch_sizes report)
  | inl _ => report
  end.

(** Lines 1100-1106: one step of the tally. *)
Definition tally_result (report : TestReport) (result : TestResult) : TestReport :=
  if PyStr.startswith (click_status result) "active" then
    mkTestReport (report_url report) (total_elements_found report) (elements_tested report)
      (active_clicks report + 1) (dead_clicks report) (errors report)
      (results report) (batches_created report) (batch_sizes report)
  else if String.eqb (click_status result) "dead_click" then
    mkTestReport (report_url report) (total_elements_found report) (elements_tested report)
      (active_clicks report) (dead_clicks report + 1) (errors report)
      (results report) (batches_created report) (batch_sizes report)
  else
    mkTestReport (report_url report) (total_elements_found report) (elements_tested report)
      (active_clicks report) (dead_clicks report) (errors report + 1)
      (results report) (batches_created report) (batch_sizes report).

(** The report after all futures, given in completion order, have been
    collected and the results tallied. *)
Definition aggregate (url : string) (clickable_elements : list Descriptor)
    (batches : list (list Descriptor)) (completed : list (Exn + list TestResult))
    : TestReport :=
  let collected := fold_left collect_batch completed
                     (empty_report url clickable_elements batches) in
  fold_left tally_result (results collected) collected.

(** The three tallies as counts over a list of results. *)
Definition is_active (r : TestResult) : bool := PyStr.startswith (click_status r) "active".
Definition is_dead (r : TestResult) : bool := String.eqb (click_status r) "dead_click".
Definition is_error (r : TestResult) : bool := negb (is_active r) && negb (is_dead r).

Definition count_where {X} (p : X -> bool) (l : list X) : nat :=
  length (List.filter p l).

(** ** A scripted driver

    A small fake of the driver interface for closed examples: a page with
    at most one element (handle [0]), found by the locator values listed in
    [fw_matches], and a click that either does nothing or replaces the
    page. *)

Record FakeWorld := mkFakeWorld {
  fw_url : string;
  fw_title : string;
  fw_html : string;
  fw_matches : list string;
  fw_displayed : bool;
  fw_enabled : bool;
  fw_after_click : option (string * string * string);  (* url, title, html *)
  fw_blocked : bool                     (* an overlay sits on the element *)
}.

Definition fake_click (w : FakeWorld) : FakeWorld :=
  match fw_after_click w with
  | Some (u, t, h) =>
      mkFakeWorld u t h (fw_matches w) (fw_displayed w) (fw_enabled w) (fw_after_click w)
        (fw_blocked w)
  | None => w
  end.

Definition intercepted : Exn :=
  mkExn ElementClickInterceptedException "Message: element click intercepted".
Definition script_failed : Exn :=
  mkExn OtherException "Message: javascript error".

Definition fake_driver : Driver FakeWorld nat :=
  mkDriver FakeWorld nat
    (fun w => (inr (fw_url w), w))
    (fun w => (inr (fw_title w), w))
    (fun url w => (inr tt,
       mkFakeWorld url (fw_title w) (fw_html w) (fw_matches w) (fw_displayed w)
         (fw_enabled w) (fw_after_click w) (fw_blocked w)))
    (fun script args w =>
       if String.eqb script inner_html_script then (inr (JsStr (fw_html w)), w)
       else if String.eqb script js_click_script then
         if fw_blocked w then (inl script_failed, w)
         else (inr (JsOther "NoneType"), fake_click w)
       else (inr (JsOther "NoneType"), w))
    (fun by_ value w =>
       if str_in value (fw_matches w) then (inr 0%nat, w)
       else (inl (mkExn NoSuchElementException "Message: no such element"), w))
    (fun by_ value w =>
       (inr (if str_in value (fw_matches w) then [0%nat] else []), w))
    (fun h w => (inr (fw_displayed w), w))
    (fun h w => (inr (fw_enabled w), w))
    (fun h w => (inr "a", w))
    (fun h w => (inr "About", w))
    (fun h w => if fw_blocked w then (inl intercepted, w) else (inr tt, fake_click w))
    (fun ms w => w)
    (fun w => "2024-01-01T00:00:00")
    (fun timeout_s w => 0%nat).

(** A stand-in for md5 in examples; only equality of digests matters. *)
Definition fake_md5 (s : string) : string := s.

(** A stand-in for Python's string hash in examples. *)
Fixpoint fake_hash_from (acc : Z) (s : string) : Z :=
  match s with
  | EmptyString => acc
  | String a s' => fake_hash_from ((acc * 31 + Z.of_nat (nat_of_ascii a)) mod 1000003)%Z s'
  end.
Definition fake_hash (s : string) : Z := fake_hash_from 7%Z s.

Definition start_session (w : FakeWorld) : Session FakeWorld nat := mkSession w [].

(** ceil(n / w) for positive [w]. *)
Definition ceil_div (n w : nat) : nat := ((n + w - 1) / w)%nat.

(** ** Vocabulary of the statements *)

(** *** Batches *)

(** Where batch [i] starts: [i] whole shares of [q], plus one for each of
    the first [r] batches already served. *)
Definition batch_start (q r i : nat) : nat := (i * q + Nat.min i r)%nat.

Definition nth_batch {A} (l : list A) (q r i : nat) : list A :=
  slice (batch_start q r i) (batch_start q r (S i)) l.

(** The number of batches that come out non-empty. *)
Definition kept_batches (q r w : nat) : nat := if (q =? 0)%nat then r else w.

(** *** De-duplication *)

Definition key_le {A} (key : A -> nat) (a b : A) : Prop := (key a <= key b)%nat.



(** *** Aggregation *)

(** The results of the batches that completed without raising, in
    completion order. *)
Definition collected_results (completed : list (Exn + list TestResult)) : list TestResult :=
  flat_map (fun o => match o with inr rs => rs | inl _ => [] end) completed.

(** *** Sessions and stages *)

(** [s'] continues [s] by calls none of which clicks. *)
Definition extends_quietly {W H} (s s' : Session W H) : Prop :=
  exists new, calls s' = calls s ++ new /\ no_click_in new.

(** [m] takes every state to one related to it by [R]. *)
Definition follows {W H L A} (R : L * Session W H -> L * Session W H -> Prop)
    (m : @Py.M W H L A) : Prop :=
  forall l s, R (l, s) ((m l s).1.2, (m l s).2).

(** The log grows by calls that do not click. *)
Definition quietly {W H L} : L * Session W H -> L * Session W H -> Prop :=
  fun a b => extends_quietly a.2 b.2.

(** A property of the local object is kept. *)
Definition keeping {W H L} (P : L -> Prop) : L * Session W H -> L * Session W H -> Prop :=
  fun a b => P a.1 -> P b.1.

Definition never_raises {W H L A} (m : @Py.M W H L A) : Prop :=
  forall l s, exists a l' s', m l s = (inr a, l', s').

(** *** The priority order of the design document *)

Section Priority.
Context {H : Type}.

Definition url_changed (o : @Observation H) : bool :=
negb (String.eqb (final_url o) (initial_url o)).
Definition title_changed (o : @Observation H) : bool :=
negb (String.eqb (final_title o) (initial_title o)).
Definition ui_artifact_present (o : @Observation H) : bool :=
nonempty (modals o) || nonempty (dropdowns o).

(** Condition, status, and the reason written to [error_message] if any. *)
Definition priority_table (element_info : Descriptor)
  : list ((@Observation H -> bool) * (string * option string)) :=
[ (url_changed, ("active_navigation", None));
  (title_changed, ("active_title_change", None));
  (dom_changed, ("active_dom_change", None));
  (ui_artifact_present, ("active_ui_change", None));
  (fun _ => is_dead_click_by_href element_info,
    ("dead_click", Some "Dead click: suspicious href or onclick and no visible effect"));
  (fun _ => true,
    ("dead_click", Some "Dead click: no visible effect after click")) ].

(** First match wins. *)
Fixpoint first_match {X Y} (table : list ((X -> bool) * Y)) (x : X) : option Y :=
match table with
| [] => None
| (cond, y) :: rest => if cond x then Some y else first_match rest x
end.

Definition classified_status (info : Descriptor) (o : @Observation H) : string :=
match first_match (priority_table info) o with
| Some (status, _) => status
| None => "unknown"
end.

Definition classified_reason (info : Descriptor) (o : @Observation H) : option string :=
match first_match (priority_table info) o with
| Some (_, reason) => reason
| None => None
end.

End Priority.

(** *** Pages and elements for the examples *)

Definition about_link : Descriptor :=
  mkDescriptor (Some "a") (Some "About") (Some "nav-link") (Some "") (Some "/about") None
    (Some "/html/body/a[1]") (Some "html > body > a") None None None (Some 42%Z).

(** A link whose href only differs from the dead pattern by case and spaces. *)
Definition void_link : Descriptor :=
  mkDescriptor (Some "a") (Some "More") (Some "cta") (Some "")
    (Some "JavaScript: void(0)") (Some "track()")
    (Some "/html/body/a[1]") (Some "html > body > a") None None None (Some 43%Z).

(** Clicking the link loads another page. *)
Definition home_page : FakeWorld :=
  mkFakeWorld "http://site.test/" "Home" "<a>About</a>" ["/html/body/a[1]"] true true
    (Some ("http://site.test/about", "Home", "<h1>About</h1>")) false.

(** Clicking changes nothing. *)
Definition inert_page : FakeWorld :=
  mkFakeWorld "http://site.test/" "Home" "<a>More</a>" ["/html/body/a[1]"] true true None false.

(** No locator finds anything. *)
Definition empty_page : FakeWorld :=
  mkFakeWorld "http://site.test/" "Home" "" [] true true None false.

(** The element is there and shown, but disabled. *)
Definition disabled_page : FakeWorld :=
  mkFakeWorld "http://site.test/" "Home" "<a>About</a>" ["/html/body/a[1]"] true false None false.


(** Two descriptors whose texts share their first 50 characters. *)
Definition fifty : string := "01234567890123456789012345678901234567890123456789".
Definition long_text_a : Descriptor :=
  mkDescriptor (Some "p") (Some (fifty ++ " first ending")%string) (Some "lead") (Some "")
    None None (Some "/html/body/p[1]") None None None None None.
Definition long_text_b : Descriptor :=
  mkDescriptor (Some "p") (Some (fifty ++ " second ending")%string) (Some "lead") (Some "")
    None None (Some "/html/body/p[2]") None None None None None.

(** The nested pair of the design document: a card and the link inside it,
    same class and same text; one of the two is kept. *)
Definition card : Descriptor :=
  mkDescriptor (Some "div") (Some "Same Text") (Some "card") (Some "") None None
    (Some "/html/body/div[1]") None None None None (Some 10%Z).
Definition card_link : Descriptor :=
  mkDescriptor (Some "a") (Some "Same Text") (Some "card") (Some "") None None
    (Some "/html/body/div[1]/a[1]") None None None None (Some 11%Z).

(** * More of the code: extraction, xpaths, reports and statistics *)

(** *** [str.replace] and [str.split] *)

Module PyStr2.

(** [s.replace(old, new)] for a non-empty [old]: occurrences are taken
    from the left and do not overlap.  [skip] counts the characters of the
    occurrence just replaced that are still to be dropped. *)
Fixpoint replace_from (old new : string) (skip : nat) (s : string) : string :=
  match s with
  | EmptyString => EmptyString
  | String c s' =>
      match skip with
      | S k => replace_from old new k s'
      | O =>
          if String.prefix old s
          then new ++ replace_from old new (String.length old - 1) s'
          else String c (replace_from old new 0 s')
      end
  end.

Definition replace (old new s : string) : string := replace_from old new 0 s.

(** [s.split()]: the maximal runs of non-space characters. *)
Fixpoint split (s : string) : list string :=
  match s with
  | EmptyString => []
  | String c s' =>
      if PyStr.is_space c then split s'
      else
        match s' with
        | EmptyString => [String c EmptyString]
        | String c' _ =>
            if PyStr.is_space c' then String c EmptyString :: split s'
            else match split s' with
                 | w :: ws => String c w :: ws
                 | [] => [String c EmptyString]
                 end
        end
  end.

End PyStr2.

(** *** The report file name of [save_results_to_file] *)

(** Lines 1041-1045: the URL kept on the tester after the call, and the
    file the report goes to.  [filename] is the optional argument. *)
Definition url_for_report (url : string) : string :=
  if PyStr.truthy url then url else "unknown_url".

Definition report_filename (url : string) (filename : option string) : string :=
  let url := url_for_report url in
  if PyStr.truthy (default "" filename) then default "" filename
  else
    let safe_url :=
      PyStr2.replace "/" "_" (PyStr2.replace "http://" "" (PyStr2.replace "https://" "" url)) in
    "clickability_test_" ++ safe_url ++ "_4.json".

(** *** Counting dicts

    A Python dict keeps its keys in the order they were first inserted;
    [items()] and the JSON dump follow that order. *)
Definition Counts := list (string * nat).

(** [d.get(k, 0)] *)
Fixpoint counts_get (d : Counts) (k : string) : nat :=
  match d with
  | [] => 0
  | (k', n) :: d' => if String.eqb k' k then n else counts_get d' k
  end.

(** [d[k] = v]: in place for a key that is there, at the end otherwise. *)
Fixpoint counts_set (d : Counts) (k : string) (v : nat) : Counts :=
  match d with
  | [] => [(k, v)]
  | (k', n) :: d' =>
      if String.eqb k' k then (k', v) :: d' else (k', n) :: counts_set d' k v
  end.

(** [d[k] = d.get(k, 0) + 1] *)
Definition counts_incr (d : Counts) (k : string) : Counts :=
  counts_set d k (counts_get d k + 1).

(** *** [_get_click_status_breakdown] *)
Definition _get_click_status_breakdown (results : list TestResult) : Counts :=
  fold_left (fun status_counts result => counts_incr status_counts (click_status result))
            results [].

(** *** [_get_most_common_classes] *)

(** [sorted(items, key=lambda x: x[1], reverse=True)]: by descending count;
    the sort is stable also when reversed, so equal counts keep their
    order. *)
Fixpoint insert_by_count (x : string * nat) (l : list (string * nat)) : list (string * nat) :=
  match l with
  | [] => [x]
  | y :: l' => if (snd y <=? snd x)%nat then x :: y :: l'
               else y :: insert_by_count x l'
  end.

Fixpoint sorted_by_count (l : list (string * nat)) : list (string * nat) :=
  match l with
  | [] => []
  | x :: l' => insert_by_count x (sorted_by_count l')
  end.

(** The loop over the results, lines 1198-1203.  [result['element_info']
    ['class_names']] raises [KeyError] on a descriptor without that key. *)
Fixpoint count_classes (results : list TestResult) (class_counts : Counts) : Exn + Counts :=
  match results with
  | [] => inr class_counts
  | result :: rest =>
      match class_names (element_info result) with
      | None => inl (mkExn KeyError "'class_names'")
      | Some classes =>
          count_classes rest
            (if PyStr.truthy classes
             then fold_left counts_incr (PyStr2.split classes) class_counts
             else class_counts)
      end
  end.

Definition _get_most_common_classes (results : list TestResult) : Exn + list (string * nat) :=
  match count_classes results [] with
  | inl e => inl e
  | inr class_counts => inr (firstn 10 (sorted_by_count class_counts))
  end.

(** All class tokens of the results, in order. *)
Definition class_tokens (results : list TestResult) : list string :=
  flat_map (fun r => PyStr2.split (get_str (class_names (element_info r)))) results.

Definition occurrences (k : string) (l : list string) : nat :=
  length (List.filter (String.eqb k) l).

(** *** [is_duplicate_element] *)

(** [d[k]] in an expression: the value or [KeyError]. *)
Definition item {A} (key : string) (f : option A) : Exn + A :=
  match f with
  | Some v => inr v
  | None => inl (mkExn KeyError ("'" ++ key ++ "'"))
  end.

(** The condition of the loop body, with Python's order of evaluation and
    short-circuit. *)
Definition same_element (existing element_info : Descriptor) : Exn + bool :=
  match item "xpath" (xpath existing) with
  | inl e => inl e
  | inr x1 =>
  match item "xpath" (xpath element_info) with
  | inl e => inl e
  | inr x2 =>
  if String.eqb x1 x2 then inr true else
  match item "unique_id" (unique_id existing) with
  | inl e => inl e
  | inr u1 =>
  match item "unique_id" (unique_id element_info) with
  | inl e => inl e
  | inr u2 =>
  if negb (u1 =? u2)%Z then inr false else
  match item "tag_name" (tag_name existing) with
  | inl e => inl e
  | inr t1 =>
  match item "tag_name" (tag_name element_info) with
  | inl e => inl e
  | inr t2 =>
  if negb (String.eqb t1 t2) then inr false else
  match item "text" (text existing) with
  | inl e => inl e
  | inr s1 =>
  match item "text" (text element_info) with
  | inl e => inl e
  | inr s2 => inr (String.eqb s1 s2)
  end end end end end end end end.

Fixpoint is_duplicate_element (element_info : Descriptor) (existing_elements : list Descriptor)
    : Exn + bool :=
  match existing_elements with
  | [] => inr false
  | existing :: rest =>
      match same_element existing element_info with
      | inl e => inl e
      | inr true => inr true
      | inr false => is_duplicate_element element_info rest
      end
  end.

(** *** [get_status_code] *)

Section StatusProbe.

(** [urllib.parse.urljoin] and [requests.head(..., allow_redirects=True,
    timeout=5)]: the latter gives the status codes of the redirects
    followed and the final status code, or raises. *)
Variable urljoin : string -> string -> Exn + string.
Variable requests_head : string -> Exn + (list Z * Z).

Definition get_status_code (href : string) (base_url : option string) : option (list Z) :=
  if negb (PyStr.truthy href)
     || PyStr.startswith href "#" || PyStr.startswith href "javascript:"
  then None
  else
    let target :=
      if PyStr.startswith href "/" && PyStr.truthy (default "" base_url)
      then urljoin (default "" base_url) href
      else inr href in
    match target with
    | inl _ => None
    | inr href' =>
        match requests_head href' with
        | inl _ => None
        | inr (history, status_code) => Some (history ++ [status_code])
        end
    end.

End StatusProbe.

(** *** [extract_element_info] and [extract_element_info_for_hidden]

    Both functions question one element in a fixed order and build a dict
    from the answers.  The answers are the input of the model: one field
    per call, a value or the exception the call raised. *)

(** [x = e; k x] in code that may raise. *)
Definition and_next {A B} (e : Exn + A) (k : A -> Exn + B) : Exn + B :=
  match e with
  | inl err => inl err
  | inr a => k a
  end.

Notation "'get!' x ':=' e 'in' k" := (and_next e (fun x => k))
  (at level 10, x name, e at level 100, k at level 200).

Record ElementReadings := mkElementReadings {
  rd_tag_name : Exn + string;              (* element.tag_name *)
  rd_text : Exn + string;                  (* element.text, for the test *)
  rd_text_again : Exn + string;            (* element.text, for the value *)
  rd_class : Exn + option string;          (* get_attribute('class') *)
  rd_href : Exn + option string;
  rd_id : Exn + option string;
  rd_role : Exn + option string;
  rd_tabindex : Exn + option string;
  rd_onclick : Exn + option string;
  rd_cursor : Exn + option string;         (* the computed cursor, if a string *)
  rd_data_testid : Exn + option string;
  rd_aria_label : Exn + option string;
  rd_alt : Exn + option string;
  rd_type : Exn + option string;
  rd_xpath_script : Exn + string;          (* the getXPath script *)
  rd_css_script : Exn + string;            (* the getCssSelector script *)
  rd_is_displayed : Exn + bool;
  rd_is_enabled : Exn + bool;
  rd_size : Exn + (nat * nat);             (* element.size: height, width *)
  rd_save_style : Exn + unit;              (* the script that forces visibility *)
  rd_restore_style : Exn + unit            (* the script that undoes it *)
}.

(** The dict of an extracted element: the keys the click tester reads, as
    a [Descriptor], and the other keys. *)
Record ExtractedInfo := mkExtractedInfo {
  info_descriptor : Descriptor;
  info_status_code : option (list Z);
  info_role : string;
  info_alt : option string;
  info_type : option string;
  info_size : option (nat * nat);
  info_is_displayed : bool;
  info_is_enabled : bool
}.

(** [get_element_xpath] and [get_element_css_selector]: the script's
    answer, or a fixed string when the script raises. *)
Definition get_element_xpath (script : Exn + string) : string :=
  match script with inr s => s | inl _ => "xpath_unavailable" end.
Definition get_element_css_selector (script : Exn + string) : string :=
  match script with inr s => s | inl _ => "css_selector_unavailable" end.

(** [element.text.strip()[:100] if element.text else ''] *)
Definition read_text (rd : ElementReadings) : Exn + string :=
  get! t := rd_text rd in
  if PyStr.truthy t
  then get! t' := rd_text_again rd in inr (PyStr.take 100 (PyStr.strip t'))
  else inr "".

(** [element.get_attribute(name) or ''] *)
Definition attr_or_empty (r : Exn + option string) : Exn + string :=
  get! v := r in inr (default "" v).

(** [element_info['unique_id'] = v] *)
Definition set_unique_id (v : Z) (d : Descriptor) : Descriptor :=
  mkDescriptor (tag_name d) (text d) (class_names d) (el_id d) (href d) (onclick d)
    (xpath d) (css_selector d) (data_testid d) (aria_label d) (is_carousel_element d)
    (Some v).

Section Extraction.

Variable py_hash : string -> Z.
Variable urljoin : string -> string -> Exn + string.
Variable requests_head : string -> Exn + (list Z * Z).

(** Lines 24-30. *)
Definition is_clickable (tag_name onclick role : string) (tabindex style_cursor : option string)
    : bool :=
  str_in tag_name ["a"; "button"; "input"]
  || PyStr.truthy onclick
  || String.eqb role "button"
  || match tabindex with
     | Some t => negb (String.eqb t "") && negb (String.eqb t "-1")
     | None => false
     end
  || match style_cursor with
     | Some c => String.eqb c "pointer"
     | None => false
     end.

(** Lines 13-48: the body of the [try] up to the fingerprint.  [None]
    when the element is not clickable. *)
Definition describe_element (rd : ElementReadings) (url : string)
    : Exn + option ExtractedInfo :=
  get! tag := rd_tag_name rd in
  let tag_name := PyStr.lower tag in
  get! text := read_text rd in
  get! class_names := attr_or_empty (rd_class rd) in
  get! href := attr_or_empty (rd_href rd) in
  get! element_id := attr_or_empty (rd_id rd) in
  get! role := attr_or_empty (rd_role rd) in
  get! tabindex := rd_tabindex rd in
  get! onclick := attr_or_empty (rd_onclick rd) in
  get! style_cursor := rd_cursor rd in
  get! data_testid := attr_or_empty (rd_data_testid rd) in
  if negb (is_clickable tag_name onclick role tabindex style_cursor) then inr None
  else
    let status_code := get_status_code urljoin requests_head href (Some url) in
    get! aria_label := attr_or_empty (rd_aria_label rd) in
    get! alt := attr_or_empty (rd_alt rd) in
    let xpath := get_element_xpath (rd_xpath_script rd) in
    let css_selector := get_element_css_selector (rd_css_script rd) in
    get! is_displayed := rd_is_displayed rd in
    get! is_enabled := rd_is_enabled rd in
    let d := mkDescriptor (Some tag_name) (Some text) (Some class_names) (Some element_id)
               None None (Some xpath) (Some css_selector) (Some data_testid)
               (Some aria_label) None None in
    let d := set_unique_id (create_unique_id py_hash d) d in
    inr (Some (mkExtractedInfo d status_code role (Some alt) None None is_displayed is_enabled)).

(** [extract_element_info]: the dict, or [None], and the set of seen
    fingerprints after the call. *)
Definition extract_element_info (rd : ElementReadings) (url : string) (seen_elements : gset Z)
    : option ExtractedInfo * gset Z :=
  match describe_element rd url with
  | inl _ => (None, seen_elements)
  | inr None => (None, seen_elements)
  | inr (Some element_info) =>
      match unique_id (info_descriptor element_info) with
      | Some uid =>
          if bool_decide (uid ∈ seen_elements) then (None, seen_elements)
          else (Some element_info, {[ uid ]} ∪ seen_elements)
      | None => (None, seen_elements)
      end
  end.

(** [extract_element_info_for_hidden] (lines 57-101). *)
Definition extract_element_info_for_hidden (rd : ElementReadings) (url : string)
    : option ExtractedInfo :=
  let built :=
    get! _ := rd_save_style rd in
    get! href := attr_or_empty (rd_href rd) in
    get! tag_name := rd_tag_name rd in
    get! text := read_text rd in
    get! class_names := attr_or_empty (rd_class rd) in
    get! element_id := attr_or_empty (rd_id rd) in
    let status_code := get_status_code urljoin requests_head href (Some url) in
    get! onclick := attr_or_empty (rd_onclick rd) in
    get! role := attr_or_empty (rd_role rd) in
    get! type := attr_or_empty (rd_type rd) in
    get! data_testid := attr_or_empty (rd_data_testid rd) in
    get! aria_label := attr_or_empty (rd_aria_label rd) in
    let xpath := get_element_xpath (rd_xpath_script rd) in
    get! size := rd_size rd in
    get! is_enabled := rd_is_enabled rd in
    get! _ := rd_restore_style rd in
    let d := mkDescriptor (Some tag_name) (Some text) (Some class_names) (Some element_id)
               (Some href) (Some onclick) (Some xpath) None (Some data_testid)
               (Some aria_label) (Some true) None in
    let d := set_unique_id (create_unique_id py_hash d) d in
    inr (mkExtractedInfo d status_code role None (Some type) (Some size) true is_enabled) in
  match built with
  | inl _ => None
  | inr element_info => Some element_info
  end.

(** The regular scan over a list of elements sharing one set of seen
    fingerprints: the loop bodies of [_find_regular_clickables] once an
    element has passed the display and region tests. *)
Fixpoint extract_all (rds : list ElementReadings) (url : string) (seen_elements : gset Z)
    : list ExtractedInfo * gset Z :=
  match rds with
  | [] => ([], seen_elements)
  | rd :: rest =>
      let '(element_info, seen') := extract_element_info rd url seen_elements in
      let '(more, seen'') := extract_all rest url seen' in
      (match element_info with Some i => i :: more | None => more end, seen'')
  end.

End Extraction.

(** *** The xpath script of [get_element_xpath]

    The script walks from the element to its ancestors.  What it reads of
    the document is, for each node on the way, the id, the tag name and the
    siblings before it; the walk ends at the body. *)

(** A node of [childNodes]: an element, or a text or comment node. *)
Inductive Sibling :=
  | SiblingElement (tagName : string)
  | SiblingOther.

(** An element of the body's subtree, as the script sees it. *)
Inductive Located :=
  | Body (id : string)
  | Child (tagName id : string) (before : list Sibling) (parentNode : Located).

(** [ix] when the loop reaches the element: the siblings before it that
    are elements of the same tag name. *)
Fixpoint same_tag_before (tagName : string) (before : list Sibling) : nat :=
  match before with
  | [] => 0
  | SiblingElement t :: rest =>
      (if String.eqb t tagName then 1 else 0) + same_tag_before tagName rest
  | SiblingOther :: rest => same_tag_before tagName rest
  end.

(** A number in a string concatenation. *)
Definition decimal (n : nat) : string := NilZero.string_of_uint (Nat.to_uint n).

Definition xpath_by_id (id : string) : string := "//*[@id=" ++ dquote ++ id ++ dquote ++ "]".

Fixpoint getXPath (element : Located) : string :=
  match element with
  | Body id => if negb (String.eqb id "") then xpath_by_id id else "/html/body"
  | Child tagName id before parentNode =>
      if negb (String.eqb id "") then xpath_by_id id
      else getXPath parentNode ++ "/" ++ PyStr.lower tagName
             ++ "[" ++ decimal (same_tag_before tagName before + 1) ++ "]"
  end.

(** *** Running the batches of [run_comprehensive_test_concurrent] *)

Record Summary := mkSummary {
  total_tested : nat;
  most_common_classes : list (string * nat);
  click_status_breakdown : Counts
}.

Section Orchestrator.
Context {W H : Type}.
Variable driver : Driver W H.
Variable md5_hexdigest : string -> string.

(** Lines 1084-1088: batch [i] goes to [driver_pool[i]]; the drivers are
    sessions of their own, so what one batch does is not seen by another.
    [None] is the [IndexError] of [driver_pool[i]]. *)
Fixpoint submit_batches (url : string) (batches : list (list Descriptor))
    (driver_pool : list (Session W H)) (i : nat)
    : option (list (Exn + list TestResult)) :=
  match batches with
  | [] => Some []
  | batch :: rest =>
      match driver_pool !! i with
      | None => None
      | Some s =>
          match submit_batches url rest driver_pool (S i) with
          | None => None
          | Some futures =>
              Some ((_test_element_batch driver md5_hexdigest batch (i + 1) url tt s).1.1
                      :: futures)
          end
      end
  end.

(** [_generate_summary] (lines 1000-1009).  The three percentages are
    floating-point numbers rounded to two places and are not part of this
    record; computing them raises nothing, the division being guarded by
    [total > 0]. *)
Definition generate_summary (test_results : TestReport) : Exn + Summary :=
  match _get_most_common_classes (results test_results) with
  | inl e => inl e
  | inr classes =>
      inr (mkSummary (elements_tested test_results) classes
             (_get_click_status_breakdown (results test_results)))
  end.

(** Lines 1055-1117, from the discovered elements and the driver pool to
    the tallied report and its summary.  [completion_order] is the order
    in which [as_completed] hands out the futures.  An exception anywhere
    in the body is caught by the outer handler, and the caller gets
    [{'error': str(e)}]: the left case. *)
Definition concurrent_test_report (url : string) (clickable_elements : list Descriptor)
    (driver_pool : list (Session W H)) (completion_order : list nat)
    : string + TestReport * Summary :=
  match driver_pool with
  | [] => inl "Failed to initialize driver pool"
  | _ =>
      match _divide_elements_into_batches clickable_elements (length driver_pool) with
      | None => inl "integer division or modulo by zero"
      | Some batches =>
          match submit_batches url batches driver_pool 0 with
          | None => inl "list index out of range"
          | Some futures =>
              let completed := omap (fun i => futures !! i) completion_order in
              let test_results := aggregate url clickable_elements batches completed in
              match generate_summary test_results with
              | inl e => inl (exn_str e)
              | inr summary => inr (test_results, summary)
              end
          end
      end
  end.

End Orchestrator.

(** *** Kinds of driver calls *)

(** Looking an element up, asking whether it is displayed, or reading its
    tag name or text. *)
Definition is_lookup_call {H} (c : Call H) : bool :=
  match c with
  | CallFindElement _ _ | CallFindElements _ _ | CallIsDisplayed _
  | CallTagName _ | CallText _ => true
  | _ => false
  end.

Definition only_looks {H} (new : list (Call H)) : Prop :=
  List.Forall (fun c => is_lookup_call c = true) new.

(** The driver has, in some state, answered that [h] is displayed. *)
Definition can_be_displayed {W H} (driver : Driver W H) (h : H) : Prop :=
  exists w, (drv_is_displayed driver h w).1 = inr true.

(** Among the calls [new] is the question whether [h] is displayed, and
    the driver can answer it with yes. *)
Definition seen_displayed {W H} (driver : Driver W H) (h : H) (new : list (Call H)) : Prop :=
  In (CallIsDisplayed h) new /\ can_be_displayed driver h.

(** [m] leaves the local object alone, and what it returns or raises and
    the calls it adds to the log satisfy [Q]. *)
Definition reports {W H L A} (m : @Py.M W H L A)
    (Q : Exn + A -> list (Call H) -> Prop) : Prop :=
  forall l s, exists new,
    (m l s).1.2 = l /\ calls (m l s).2 = calls s ++ new /\ Q (m l s).1.1 new.

(** Three things to say of a computation: it only looks; it only looks
    and answers yes only for an element seen displayed; it only looks and
    returns only an element seen displayed. *)
Definition looks {H A} : Exn + A -> list (Call H) -> Prop :=
  fun _ new => only_looks new.

Definition shows {W H} (driver : Driver W H) (h : H) : Exn + bool -> list (Call H) -> Prop :=
  fun r new => only_looks new /\ (r = inr true -> seen_displayed driver h new).

Definition finds {W H} (driver : Driver W H) : Exn + option H -> list (Call H) -> Prop :=
  fun r new => only_looks new /\ forall h, r = inr (Some h) -> seen_displayed driver h new.

(** *** [_is_in_header_or_footer]

    As for the extraction functions, the answers of the element and of the
    script are the input. *)
Record RegionReadings := mkRegionReadings {
  rg_tag_name : Exn + string;
  rg_class : Exn + option string;
  rg_id : Exn + option string;
  rg_role : Exn + option string;
  rg_ancestor_script : Exn + bool         (* the walk over the ancestors *)
}.

Definition header_footer_keywords : list string :=
  [ "header"; "nav"; "navigation"; "navbar"; "nav-bar"; "footer";
    "site-header"; "site-footer"; "page-header"; "page-footer";
    "main-header"; "main-footer"; "top-nav"; "bottom-nav";
    "primary-nav"; "secondary-nav"; "breadcrumb" ].

Definition _is_in_header_or_footer (rd : RegionReadings) : bool :=
  let answer :=
    get! tag := rg_tag_name rd in
    let element_tag := PyStr.lower tag in
    if str_in element_tag ["header"; "nav"; "footer"] then inr true
    else
      get! element_class := attr_or_empty (rg_class rd) in
      get! element_id := attr_or_empty (rg_id rd) in
      get! element_role := attr_or_empty (rg_role rd) in
      let element_attributes := PyStr.lower (element_class ++ " " ++ element_id) in
      if existsb (fun keyword => PyStr.contains keyword element_attributes)
           header_footer_keywords
      then inr true
      else if str_in element_role ["banner"; "navigation"; "contentinfo"] then inr true
      else rg_ancestor_script rd in
  match answer with
  | inl _ => false
  | inr b => b
  end.

(** *** Vocabulary of the further statements *)

(** A descriptor with the keys [is_duplicate_element] subscripts. *)
Definition fully_keyed (d : Descriptor) : Prop :=
  is_Some (xpath d) /\ is_Some (unique_id d) /\ is_Some (tag_name d) /\ is_Some (text d).

(** The condition of [is_duplicate_element], as a proposition. *)
Definition same_by_keys (existing element_info : Descriptor) : Prop :=
  xpath existing = xpath element_info
  \/ (unique_id existing = unique_id element_info
      /\ tag_name existing = tag_name element_info
      /\ text existing = text element_info).


(** The sum of the counts of the keys that satisfy [p]. *)
Fixpoint counts_weight (p : string -> bool) (d : Counts) : nat :=
  match d with
  | [] => 0
  | (k, n) :: d' => (if p k then n else 0) + counts_weight p d'
  end.

Definition counts_total (d : Counts) : nat := counts_weight (fun _ => true) d.

(** By descending count. *)
Definition count_ge (a b : string * nat) : Prop := (snd b <= snd a)%nat.

(** No node from [element] up to the body carries an id. *)
Fixpoint located_by_path (element : Located) : bool :=
  match element with
  | Body id => String.eqb id ""
  | Child _ id _ parentNode => String.eqb id "" && located_by_path parentNode
  end.

(** *** Outcomes of a click test *)

(** The statuses set before the page is observed. *)
Definition early_statuses : list string :=
  ["element_not_found"; "not_clickable"; "click_intercepted"; "error"].

(** The statuses the classification sets. *)
Definition classified_statuses : list string :=
  ["active_navigation"; "active_title_change"; "active_dom_change"; "active_ui_change";
   "dead_click"].

(** A [result] whose flags and hashes are as in the fresh dict. *)
Definition unflagged (r : TestResult) : Prop :=
  page_changed r = false /\ new_elements_appeared r = false
  /\ dom_hash_before r = None /\ dom_hash_after r = None.

(** *** Readings, nodes and drivers for the further examples *)

(** A link with a handler of its own. *)
Definition tracked_link : Descriptor :=
  mkDescriptor (Some "a") (Some "About") (Some "nav-link") (Some "") (Some "/about")
    (Some "go()") (Some "/html/body/a[1]") (Some "html > body > a") None None None
    (Some 44%Z).

(** A badge nested in a badge: same tag, class and text, hence the same
    fingerprint. *)
Definition badge : Descriptor :=
  mkDescriptor (Some "span") (Some "New") (Some "badge") (Some "") None None
    (Some "/html/body/span[1]") None None None None (Some 30%Z).
Definition inner_badge : Descriptor :=
  mkDescriptor (Some "span") (Some "New") (Some "badge") (Some "") None None
    (Some "/html/body/span[1]/span[1]") None None None None (Some 30%Z).

(** A link as a page with upper-case tag names reports it. *)
Definition anchor_readings : ElementReadings :=
  mkElementReadings (inr "A") (inr "  About us ") (inr "  About us ")
    (inr (Some "nav-link")) (inr (Some "/about")) (inr None) (inr None) (inr None)
    (inr None) (inr (Some "auto")) (inr None) (inr None) (inr None) (inr None)
    (inr "/html/body/a[1]") (inr "html > body > a") (inr true) (inr true)
    (inr (10, 40)%nat) (inr tt) (inr tt).

(** No network: every request fails. *)
Definition no_network (url : string) : Exn + (list Z * Z) :=
  inl (mkExn OtherException "Connection refused").
Definition fake_urljoin (base href : string) : Exn + string := inr (base ++ href)%string.

(** A list under the body, an item without an id and one with an id. *)
Definition list_node : Located :=
  Child "UL" "" [SiblingElement "DIV"; SiblingOther] (Body "").
Definition list_descriptor : Descriptor :=
  mkDescriptor (Some "ul") (Some "Offers") (Some "offers") (Some "") None None
    (Some "/html/body/ul[1]") None None None None (Some 20%Z).
Definition named_item_descriptor : Descriptor :=
  mkDescriptor (Some "li") (Some "Offers") (Some "offers") (Some "promo") None None
    (Some ("//*[@id=" ++ dquote ++ "promo" ++ dquote ++ "]")%string) None None None None
    (Some 21%Z).

(** A driver whose pointer click fails for another reason than an
    overlay. *)
Definition stale : Exn := mkExn OtherException "Message: stale element reference".
Definition stale_driver : Driver FakeWorld nat :=
  mkDriver FakeWorld nat
    (drv_current_url fake_driver) (drv_title fake_driver) (drv_get fake_driver)
    (drv_execute_script fake_driver) (drv_find_element fake_driver)
    (drv_find_elements fake_driver) (drv_is_displayed fake_driver)
    (drv_is_enabled fake_driver) (drv_tag_name fake_driver) (drv_text fake_driver)
    (fun h w => (inl stale, w))
    (drv_sleep fake_driver) (now_isoformat fake_driver) (extra_polls fake_driver).

(** * Properties *)

(** ** Sorting *)
Section SortFacts.
Context {A : Type} (key : A -> nat).

Lemma insert_by_key_perm x l : Permutation (insert_by_key key x l) (x :: l).
Proof.
  induction l as [|y l IH]; simpl.
  - reflexivity.
  - destruct (key x <=? key y)%nat.
    + reflexivity.
    + rewrite IH. apply perm_swap.
Qed.

Lemma sorted_by_key_perm l : Permutation (sorted_by_key key l) l.
Proof.
  induction l as [|x l IH]; simpl.
  - reflexivity.
  - rewrite insert_by_key_perm. now constructor.
Qed.

Lemma insert_by_key_sorted x l :
  StronglySorted (key_le key) l -> StronglySorted (key_le key) (insert_by_key key x l).
Proof.
  induction 1 as [|y l Hs IH Hall]; simpl.
  - repeat constructor.
  - destruct (Nat.leb_spec (key x) (key y)) as [Hle|Hgt].
    + constructor; [now constructor|].
      constructor; [exact Hle|].
      eapply List.Forall_impl; [|exact Hall].
      unfold key_le. intros; lia.
    + constructor; [exact IH|].
      eapply Permutation_Forall; [symmetry; apply insert_by_key_perm|].
      constructor; [unfold key_le; lia | exact Hall].
Qed.

Lemma sorted_by_key_sorted l : StronglySorted (key_le key) (sorted_by_key key l).
Proof.
  induction l as [|x l IH]; simpl.
  - constructor.
  - now apply insert_by_key_sorted.
Qed.


End SortFacts.

(** ** The pair rule *)

Lemma dedup_pair_spec (parent child : Descriptor) (disc : gset (option Z)) :
  dedup_pair parent child disc =
  if bool_decide (unique_id parent ∈ disc) || bool_decide (unique_id child ∈ disc)
  then disc
  else if nested_duplicate parent child then {[ unique_id child ]} ∪ disc else disc.
Proof.
  unfold dedup_pair, nested_duplicate.
  destruct (bool_decide (unique_id parent ∈ disc) || bool_decide (unique_id child ∈ disc));
    [reflexivity|].
  destruct (PyStr.truthy (get_str (xpath parent))),
           (PyStr.truthy (get_str (xpath child))); simpl; try reflexivity.
  destruct (PyStr.contains _ _), (PyStr.startswith _ _), (String.eqb _ _),
           (Nat.eqb _ _), (same_nonempty (text parent) (text child)),
           (same_nonempty (class_names parent) (class_names child)); reflexivity.
Qed.

Lemma dedup_pair_mono (parent child : Descriptor) (disc : gset (option Z)) :
  disc ⊆ dedup_pair parent child disc.
Proof.
  rewrite dedup_pair_spec.
  destruct (_ || _); [reflexivity|].
  destruct (nested_duplicate parent child); set_solver.
Qed.

Lemma dedup_pair_sound (parent child : Descriptor) (disc : gset (option Z)) x :
  x ∈ dedup_pair parent child disc ->
  x ∈ disc \/ (x = unique_id child /\ nested_duplicate parent child = true).
Proof.
  rewrite dedup_pair_spec.
  destruct (_ || _); [now left|].
  destruct (nested_duplicate parent child); [|now left].
  rewrite elem_of_union, elem_of_singleton. intros [->|Hx]; auto.
Qed.

Lemma dedup_pair_complete (parent child : Descriptor) (disc : gset (option Z)) :
  nested_duplicate parent child = true ->
  unique_id parent ∈ disc \/ unique_id child ∈ dedup_pair parent child disc.
Proof.
  intros Hdup. rewrite dedup_pair_spec, Hdup.
  destruct (bool_decide (unique_id parent ∈ disc)) eqn:Hp.
  - left. now apply bool_decide_eq_true in Hp.
  - right. simpl. destruct (bool_decide (unique_id child ∈ disc)) eqn:Hc.
    + now apply bool_decide_eq_true in Hc.
    + set_solver.
Qed.

(** ** The inner loop *)

Lemma dedup_inner_mono (parent : Descriptor) (later : list Descriptor) (disc : gset (option Z)) :
  disc ⊆ dedup_inner parent later disc.
Proof.
  unfold dedup_inner. revert disc.
  induction later as [|c later IH]; intros disc; simpl.
  - reflexivity.
  - etransitivity; [apply (dedup_pair_mono parent c)|apply IH].
Qed.

Lemma dedup_inner_sound (parent : Descriptor) (later : list Descriptor) (disc : gset (option Z)) x :
  x ∈ dedup_inner parent later disc ->
  x ∈ disc \/
  exists k child, later !! k = Some child /\ x = unique_id child
                  /\ nested_duplicate parent child = true.
Proof.
  unfold dedup_inner. revert disc.
  induction later as [|c later IH]; intros disc; simpl; intros Hx.
  - now left.
  - apply IH in Hx as [Hx|(k & child & Hk & Hid & Hdup)].
    + apply dedup_pair_sound in Hx as [Hx|[-> Hdup]]; [now left|].
      right. exists 0%nat, c. auto.
    + right. exists (S k), child. auto.
Qed.

Lemma dedup_inner_complete (parent : Descriptor) (later : list Descriptor) (disc : gset (option Z)) k child :
  later !! k = Some child ->
  nested_duplicate parent child = true ->
  unique_id parent ∈ dedup_inner parent later disc
  \/ unique_id child ∈ dedup_inner parent later disc.
Proof.
  revert disc k.
  induction later as [|c later IH]; intros disc k Hk Hdup.
  - discriminate.
  - destruct k as [|k]; simpl in Hk.
    + injection Hk as ->.
      destruct (dedup_pair_complete parent child disc Hdup) as [Hp|Hc].
      * left. now apply dedup_inner_mono.
      * right. change (dedup_inner parent (child :: later) disc)
          with (dedup_inner parent later (dedup_pair parent child disc)).
        now apply dedup_inner_mono.
    + change (dedup_inner parent (c :: later) disc)
        with (dedup_inner parent later (dedup_pair parent c disc)).
      eapply IH; eauto.
Qed.

(** ** The outer loop *)

Lemma dedup_outer_mono (sorted : list Descriptor) (disc : gset (option Z)) :
  disc ⊆ dedup_outer sorted disc.
Proof.
  revert disc. induction sorted as [|p later IH]; intros disc; simpl.
  - reflexivity.
  - etransitivity; [apply (dedup_inner_mono p later)|apply IH].
Qed.

Lemma dedup_outer_sound (sorted : list Descriptor) (disc : gset (option Z)) x :
  x ∈ dedup_outer sorted disc ->
  x ∈ disc \/
  exists i j parent child,
    (i < j)%nat /\ sorted !! i = Some parent /\ sorted !! j = Some child
    /\ x = unique_id child /\ nested_duplicate parent child = true.
Proof.
  revert disc. induction sorted as [|p later IH]; intros disc; simpl; intros Hx.
  - now left.
  - apply IH in Hx as [Hx|(i & j & a & b & Hij & Hi & Hj & Hid & Hdup)].
    + apply dedup_inner_sound in Hx as [Hx|(k & child & Hk & Hid & Hdup)]; [now left|].
      right. exists 0%nat, (S k), p, child. split; [lia|]. auto.
    + right. exists (S i), (S j), a, b. split; [lia|]. auto.
Qed.

Lemma dedup_outer_complete (sorted : list Descriptor) (disc : gset (option Z)) i j parent child :
  (i < j)%nat -> sorted !! i = Some parent -> sorted !! j = Some child ->
  nested_duplicate parent child = true ->
  unique_id parent ∈ dedup_outer sorted disc \/ unique_id child ∈ dedup_outer sorted disc.
Proof.
  revert disc i j.
  induction sorted as [|p later IH]; intros disc i j Hij Hi Hj Hdup.
  - discriminate.
  - destruct j as [|j]; [lia|]. simpl in Hj.
    destruct i as [|i]; simpl in Hi.
    + injection Hi as ->. simpl.
      destruct (dedup_inner_complete parent later disc j child Hj Hdup) as [H|H];
        [left|right]; now apply dedup_outer_mono.
    + simpl. apply (IH _ i j); auto. lia.
Qed.



(** ** The collapse filter *)

Lemma collapse_loop_sublist (l : list Descriptor) (seen : gset (option Z)) :
  sublist (collapse_loop l seen) l.
Proof.
  revert seen. induction l as [|e l IH]; intros seen; simpl.
  - constructor.
  - destruct (_ && _); constructor; apply IH.
Qed.

Lemma collapse_loop_ids (l : list Descriptor) (seen : gset (option Z)) e :
  In e (collapse_loop l seen) ->
  (unique_id e ∉ seen) /\ truthy_id (unique_id e) = true.
Proof.
  revert seen. induction l as [|x l IH]; intros seen; simpl.
  - intros [].
  - destruct (truthy_id (unique_id x)) eqn:Ht; simpl.
    + destruct (bool_decide (unique_id x ∈ seen)) eqn:Hs; simpl.
      * apply IH.
      * apply bool_decide_eq_false in Hs.
        intros [Heq|Hin]; [subst x; auto|].
        apply IH in Hin as [Hn Htr]. split; [|exact Htr].
        intros Hs'. apply Hn, elem_of_union. now right.
    + apply IH.
Qed.

Lemma collapse_loop_nodup (l : list Descriptor) (seen : gset (option Z)) :
  List.NoDup (List.map unique_id (collapse_loop l seen)).
Proof.
  revert seen. induction l as [|x l IH]; intros seen; simpl.
  - constructor.
  - destruct (_ && _); [|apply IH].
    simpl. constructor; [|apply IH].
    intros Hin. apply List.in_map_iff in Hin as (e & He & Hin).
    apply collapse_loop_ids in Hin as [Hn _]. set_solver.
Qed.

(** A kept entry is the first of its fingerprint in the list scanned. *)
Lemma collapse_loop_first (l : list Descriptor) (seen : gset (option Z)) e :
  In e (collapse_loop l seen) ->
  exists l1 l2, l = l1 ++ e :: l2 /\ forall x, In x l1 -> unique_id x <> unique_id e.
Proof.
  revert seen. induction l as [|y l IH]; intros seen; simpl.
  - intros [].
  - destruct (truthy_id (unique_id y) && negb (bool_decide (unique_id y ∈ seen))) eqn:Hk.
    + intros [<-|Hin].
      * exists [], l. split; [reflexivity|]. intros x [].
      * pose proof (collapse_loop_ids _ _ _ Hin) as [Hn _].
        apply IH in Hin as (l1 & l2 & -> & Hfirst).
        exists (y :: l1), l2. split; [reflexivity|].
        intros x [Hxy|Hx]; [subst x; set_solver|auto].
    + intros Hin.
      pose proof (collapse_loop_ids _ _ _ Hin) as [Hn Ht].
      apply IH in Hin as (l1 & l2 & -> & Hfirst).
      exists (y :: l1), l2. split; [reflexivity|].
      intros x [Hxy|Hx]; [subst x|auto].
      intros Heq. apply andb_false_iff in Hk as [Hk|Hk].
      * congruence.
      * apply negb_false_iff, bool_decide_eq_true in Hk. apply Hn. congruence.
Qed.

(** Every fingerprint that is truthy and not yet seen has an entry. *)
Lemma collapse_loop_covers (l : list Descriptor) (seen : gset (option Z)) e :
  In e l -> truthy_id (unique_id e) = true -> unique_id e ∉ seen ->
  exists e', In e' (collapse_loop l seen) /\ unique_id e' = unique_id e.
Proof.
  revert seen. induction l as [|y l IH]; intros seen; simpl.
  - intros [].
  - intros Hin Ht Hn.
    destruct (decide (unique_id y = unique_id e)) as [Heq|Hne].
    + rewrite Heq, Ht. rewrite bool_decide_eq_false_2 by exact Hn. simpl.
      exists y. auto.
    + destruct Hin as [->|Hin]; [contradiction|].
      destruct (_ && _).
      * destruct (IH ({[unique_id y]} ∪ seen) Hin Ht) as (e' & He' & Hid).
        { intros Hu. apply elem_of_union in Hu as [Hu|Hu]; [|contradiction].
          apply elem_of_singleton in Hu. congruence. }
        exists e'. split; [now right|exact Hid].
      * apply IH; auto.
Qed.

(** Splitting a filtered list at one of its entries splits the input. *)
Lemma filter_split {A} (p : A -> bool) (l d1 d2 : list A) e :
  List.filter p l = d1 ++ e :: d2 ->
  exists l1 l2, l = l1 ++ e :: l2 /\ List.filter p l1 = d1.
Proof.
  revert d1. induction l as [|x l IH]; intros d1; simpl.
  - destruct d1; discriminate.
  - destruct (p x) eqn:Hp.
    + destruct d1 as [|y d1]; simpl; intros Heq; injection Heq as -> Hrest.
      * exists [], l. auto.
      * apply IH in Hrest as (l1 & l2 & -> & <-).
        exists (y :: l1), l2. simpl. rewrite Hp. auto.
    + intros Heq. apply IH in Heq as (l1 & l2 & -> & <-).
      exists (x :: l1), l2. simpl. rewrite Hp. auto.
Qed.

(** C4.  The output of nested-duplicate removal followed by the
    fingerprint collapse is a sub-list of the input (nothing invented, order
    kept), holds no two entries of one fingerprint, and each entry is the
    first of its fingerprint in the input; a fingerprint that is truthy and
    was not discarded does have an entry. *)
Theorem final_elements_deduplicated (clickable_elements : list Descriptor) :
  sublist (final_elements clickable_elements) clickable_elements
  /\ List.NoDup (List.map unique_id (final_elements clickable_elements))
  /\ (forall e, In e (final_elements clickable_elements) ->
        exists l1 l2, clickable_elements = l1 ++ e :: l2
                      /\ forall x, In x l1 -> unique_id x <> unique_id e)
  /\ (forall e, In e clickable_elements ->
        truthy_id (unique_id e) = true ->
        unique_id e ∉ elements_to_discard clickable_elements ->
        exists e', In e' (final_elements clickable_elements)
                   /\ unique_id e' = unique_id e).
Proof.
  unfold final_elements.
  assert (Hsub : sublist (advanced_deduplication clickable_elements) clickable_elements).
  { unfold advanced_deduplication.
    generalize (elements_to_discard clickable_elements) as D. intros D.
    induction clickable_elements as [|e l IH]; simpl.
    - constructor.
    - destruct (negb _); now constructor. }
  split; [|split; [|split]].
  - etransitivity; [apply collapse_loop_sublist|exact Hsub].
  - apply collapse_loop_nodup.
  - intros e Hin.
    apply collapse_loop_first in Hin as (d1 & d2 & Hd & Hfirst).
    unfold advanced_deduplication in Hd.
    pose proof Hd as Hd'.
    apply filter_split in Hd as (l1 & l2 & Hl & Hd1).
    exists l1, l2. split; [exact Hl|].
    intros x Hx Heq. apply (Hfirst x); [|exact Heq].
    rewrite <- Hd1. apply List.filter_In. split; [exact Hx|].
    rewrite Heq.
    assert (Hine : In e (List.filter
              (fun elem => negb (bool_decide
                 (unique_id elem ∈ elements_to_discard clickable_elements)))
              clickable_elements)).
    { rewrite Hd'. apply List.in_elt. }
    apply List.filter_In in Hine. apply Hine.
  - intros e Hin Ht Hn.
    apply collapse_loop_covers; [|exact Ht|set_solver].
    unfold advanced_deduplication. apply List.filter_In. split; [exact Hin|].
    now rewrite negb_true_iff, bool_decide_eq_false.
Qed.

(** ** Aggregation *)

Lemma collect_fold (completed : list (Exn + list TestResult)) (rep : TestReport) :
  let rep' := fold_left collect_batch completed rep in
  results rep' = results rep ++ collected_results completed
  /\ elements_tested rep' = (elements_tested rep + length (collected_results completed))%nat
  /\ active_clicks rep' = active_clicks rep
  /\ dead_clicks rep' = dead_clicks rep
  /\ errors rep' = errors rep.
Proof.
  revert rep. induction completed as [|o completed IH]; intros rep; simpl.
  - rewrite List.app_nil_r. repeat split; lia.
  - destruct (IH (collect_batch rep o)) as (Hr & Ht & Ha & Hd & He).
    rewrite Hr, Ht, Ha, Hd, He.
    destruct o as [e|rs]; simpl.
    + auto.
    + rewrite <- List.app_assoc, List.length_app. repeat split; lia.
Qed.

Lemma dead_is_not_active (r : TestResult) :
  String.eqb (click_status r) "dead_click" = true -> is_active r = false.
Proof.
  unfold is_active. intros H. apply String.eqb_eq in H. now rewrite H.
Qed.

Lemma tally_fold (l : list TestResult) (rep : TestReport) :
  let rep' := fold_left tally_result l rep in
  active_clicks rep' = (active_clicks rep + count_where is_active l)%nat
  /\ dead_clicks rep' = (dead_clicks rep + count_where is_dead l)%nat
  /\ errors rep' = (errors rep + count_where is_error l)%nat
  /\ results rep' = results rep
  /\ elements_tested rep' = elements_tested rep.
Proof.
  revert rep. induction l as [|r l IH]; intros rep; simpl.
  - unfold count_where. simpl. repeat split; lia.
  - destruct (IH (tally_result rep r)) as (Ha & Hd & He & Hr & Ht).
    rewrite Ha, Hd, He, Hr, Ht.
    unfold tally_result, count_where, is_error, is_dead. simpl.
    fold (is_active r).
    destruct (is_active r) eqn:Hact; simpl.
    + destruct (String.eqb (click_status r) "dead_click") eqn:Hdead.
      * apply dead_is_not_active in Hdead. congruence.
      * simpl. repeat split; lia.
    + destruct (String.eqb (click_status r) "dead_click"); simpl; repeat split; lia.
Qed.

Lemma count_partition (l : list TestResult) :
  (count_where is_active l + count_where is_dead l + count_where is_error l)%nat = length l.
Proof.
  unfold count_where, is_error, is_dead.
  induction l as [|r l IH]; simpl; [reflexivity|].
  destruct (is_active r) eqn:Hact; simpl.
  - destruct (String.eqb (click_status r) "dead_click") eqn:Hdead.
    + apply dead_is_not_active in Hdead. congruence.
    + simpl. lia.
  - destruct (String.eqb (click_status r) "dead_click"); simpl; lia.
Qed.

(** C7.  After aggregation, [active_clicks] counts the results whose status
    starts with "active", [dead_clicks] those whose status is exactly
    "dead_click", [errors] all the others (among them element_not_found,
    not_clickable, click_intercepted, error and batch_error); the three add
    up to [elements_tested], which is the number of results. *)
Theorem aggregate_tallies (url : string) (clickable_elements : list Descriptor)
    (batches : list (list Descriptor)) (completed : list (Exn + list TestResult)) :
  let report := aggregate url clickable_elements batches completed in
  results report = collected_results completed
  /\ active_clicks report = count_where is_active (results report)
  /\ dead_clicks report = count_where is_dead (results report)
  /\ errors report = count_where is_error (results report)
  /\ (active_clicks report + dead_clicks report + errors report)%nat = elements_tested report
  /\ elements_tested report = length (results report)
  /\ (forall r, In (click_status r)
                  ["element_not_found"; "not_clickable"; "click_intercepted";
                   "error"; "batch_error"] -> is_error r = true).
Proof.
  unfold aggregate. cbv zeta.
  set (rep0 := empty_report url clickable_elements batches).
  destruct (collect_fold completed rep0) as (Hr & Ht & Ha & Hd & He).
  set (rep1 := fold_left collect_batch completed rep0) in *.
  destruct (tally_fold (results rep1) rep1) as (Ha' & Hd' & He' & Hr' & Ht').
  set (rep2 := fold_left tally_result (results rep1) rep1) in *.
  simpl in Hr, Ht, Ha, Hd, He.
  pose proof (count_partition (results rep1)) as Hsum.
  rewrite Hr', Ha', Hd', He', Ht', Ha, Hd, He, Ht.
  split; [exact Hr|]. split; [reflexivity|]. split; [reflexivity|].
  split; [reflexivity|]. split; [rewrite <- Hr; lia|].
  split; [now rewrite Hr|].
  intros r Hin. unfold is_error, is_dead, is_active.
    simpl in Hin.
    destruct Hin as [<-|[<-|[<-|[<-|[<-|[]]]]]]; reflexivity.
Qed.

(** ** Fingerprints *)

(** C9.  Two descriptors with the same tag name, id, class-name string and
    first 50 characters of text get the same fingerprint, whatever the
    texts are beyond the 50th character. *)
Theorem create_unique_id_same_components (py_hash : string -> Z) (d1 d2 : Descriptor) :
  get_str (tag_name d1) = get_str (tag_name d2) ->
  get_str (el_id d1) = get_str (el_id d2) ->
  get_str (class_names d1) = get_str (class_names d2) ->
  PyStr.take 50 (get_str (text d1)) = PyStr.take 50 (get_str (text d2)) ->
  create_unique_id py_hash d1 = create_unique_id py_hash d2.
Proof.
  intros Htag Hid Hcls Htxt.
  unfold create_unique_id, fingerprint_components.
  now rewrite Htag, Hid, Hcls, Htxt.
Qed.

(** ** Batches *)

Section BatchFacts.
Context {A : Type}.
Implicit Types (l : list A).

Lemma slice_length l a b :
  (a <= b)%nat -> (b <= length l)%nat -> length (slice a b l) = (b - a)%nat.
Proof.
  intros Hab Hb. unfold slice.
  rewrite List.length_firstn, List.length_skipn. lia.
Qed.

Lemma firstn_then_firstn l a c :
  firstn a l ++ firstn c (skipn a l) = firstn (a + c) l.
Proof.
  revert l. induction a as [|a IH]; intros l; simpl.
  - reflexivity.
  - destruct l as [|x l]; simpl.
    + now rewrite List.firstn_nil.
    + f_equal. apply IH.
Qed.

Lemma firstn_slice l a b :
  (a <= b)%nat -> firstn a l ++ slice a b l = firstn b l.
Proof.
  intros Hab. unfold slice. rewrite firstn_then_firstn. f_equal. lia.
Qed.

Lemma batch_start_S q r i :
  batch_start q r (S i) = (batch_start q r i + (q + (if (i <? r)%nat then 1 else 0)))%nat.
Proof.
  unfold batch_start. destruct (Nat.ltb_spec i r); lia.
Qed.

Lemma batch_start_mono q r i j :
  (i <= j)%nat -> (batch_start q r i <= batch_start q r j)%nat.
Proof. unfold batch_start. intros. nia. Qed.

Lemma batch_loop_state l (w q r k : nat) :
  (r < w)%nat -> length l = (w * q + r)%nat -> (k <= w)%nat ->
  fold_left (batch_step l q r) (seq 0 k) (0%nat, []) =
  (batch_start q r k,
   List.map (nth_batch l q r) (seq 0 (Nat.min k (kept_batches q r w)))).
Proof.
  intros Hr Hlen. induction k as [|k IH]; intros Hk.
  - reflexivity.
  - rewrite List.seq_S, List.fold_left_app, IH by lia.
    cbn [fold_left batch_step Nat.add].
    rewrite <- batch_start_S. f_equal.
    fold (nth_batch l q r k).
    assert (Hend : (batch_start q r (S k) <= length l)%nat).
    { rewrite Hlen. transitivity (batch_start q r w).
      - apply batch_start_mono; lia.
      - unfold batch_start. lia. }
    assert (Hlenb : length (nth_batch l q r k) = (q + (if (k <? r)%nat then 1 else 0))%nat).
    { unfold nth_batch. rewrite slice_length; auto.
      - rewrite batch_start_S. lia.
      - apply batch_start_mono; lia. }
    unfold kept_batches in *.
    destruct (Nat.eqb_spec q 0) as [Hq|Hq].
    + destruct (Nat.ltb_spec k r) as [Hkr|Hkr].
      * replace (Nat.min (S k) r) with (S (Nat.min k r)) by lia.
        replace (Nat.min k r) with k by lia.
        rewrite List.seq_S, List.map_app. simpl.
        destruct (nth_batch l q r k); [simpl in Hlenb; lia | reflexivity].
      * replace (Nat.min (S k) r) with (Nat.min k r) by lia.
        destruct (nth_batch l q r k); [reflexivity | simpl in Hlenb; lia].
    + replace (Nat.min (S k) w) with (S (Nat.min k w)) by lia.
      replace (Nat.min k w) with k by lia.
      rewrite List.seq_S, List.map_app. simpl.
      destruct (nth_batch l q r k); [|reflexivity].
      simpl in Hlenb. destruct (k <? r)%nat; lia.
Qed.

Lemma concat_nth_batches l q r k :
  concat (List.map (nth_batch l q r) (seq 0 k)) = firstn (batch_start q r k) l.
Proof.
  induction k as [|k IH].
  - reflexivity.
  - rewrite List.seq_S, List.map_app, List.concat_app, IH. simpl.
    rewrite List.app_nil_r. apply firstn_slice, batch_start_mono. lia.
Qed.

End BatchFacts.

Lemma ceil_div_bound n w i :
  (1 <= w)%nat ->
  (n / w + (if (i <? n mod w)%nat then 1 else 0) <= ceil_div n w)%nat.
Proof.
  intros Hw. unfold ceil_div.
  pose proof (Nat.div_mod_eq n w) as Hdm.
  pose proof (Nat.mod_upper_bound n w ltac:(lia)) as Hm.
  apply Nat.div_le_lower_bound; [lia|].
  destruct (Nat.ltb_spec i (n mod w)); nia.
Qed.

Lemma divide_into_batches_run {A} (elements : list A) (num_batches : nat) :
  (1 <= num_batches)%nat ->
  _divide_elements_into_batches elements num_batches =
  Some (List.map (nth_batch elements (length elements / num_batches)
                    (length elements mod num_batches))
          (seq 0 (kept_batches (length elements / num_batches)
                    (length elements mod num_batches) num_batches))).
Proof.
  intros Hw.
  assert (Hr : (length elements mod num_batches < num_batches)%nat)
    by (apply Nat.mod_upper_bound; lia).
  pose proof (Nat.div_mod_eq (length elements) num_batches) as Hlen.
  unfold _divide_elements_into_batches.
  destruct num_batches as [|w] eqn:Ew; [lia|]. rewrite <- Ew in *. cbv zeta.
  rewrite (batch_loop_state elements num_batches _ _ num_batches) by (auto; lia).
  simpl snd. do 3 f_equal.
  unfold kept_batches. destruct (_ =? 0)%nat; lia.
Qed.

(** C3.  For a positive number of workers the batches concatenate to the
    input list, none is longer than ceil(N/W), and batch [i] has
    floor(N/W) + 1 elements when [i < N mod W] and floor(N/W) otherwise. *)
Theorem divide_into_batches_partition {A} (elements : list A) (num_batches : nat) :
  (1 <= num_batches)%nat ->
  exists batches,
    _divide_elements_into_batches elements num_batches = Some batches /\
    concat batches = elements /\
    List.Forall (fun b => (length b <= ceil_div (length elements) num_batches)%nat) batches /\
    (forall i b, nth_error batches i = Some b ->
       length b = (length elements / num_batches
                   + (if (i <? length elements mod num_batches)%nat then 1 else 0))%nat).
Proof.
  intros Hw.
  pose proof (divide_into_batches_run elements num_batches Hw) as Hrun.
  set (n := length elements) in *.
  set (q := (n / num_batches)%nat) in *. set (r := (n mod num_batches)%nat) in *.
  assert (Hr : (r < num_batches)%nat) by (apply Nat.mod_upper_bound; lia).
  assert (Hlen : length elements = (num_batches * q + r)%nat) by (apply Nat.div_mod_eq).
  exists (List.map (nth_batch elements q r) (seq 0 (kept_batches q r num_batches))).
  assert (Hkept : (kept_batches q r num_batches <= num_batches)%nat).
  { unfold kept_batches. destruct (q =? 0)%nat; lia. }
  assert (Hsize : forall i, (i < kept_batches q r num_batches)%nat ->
            length (nth_batch elements q r i) = (q + (if (i <? r)%nat then 1 else 0))%nat).
  { intros i Hi. unfold nth_batch. rewrite slice_length.
    - rewrite batch_start_S. lia.
    - apply batch_start_mono. lia.
    - rewrite Hlen. transitivity (batch_start q r num_batches).
      + apply batch_start_mono. lia.
      + unfold batch_start. lia. }
  split; [exact Hrun|]. split; [|split].
  - rewrite concat_nth_batches.
    assert (Hall : batch_start q r (kept_batches q r num_batches) = length elements).
    { unfold kept_batches, batch_start. destruct (Nat.eqb_spec q 0); subst; nia. }
    rewrite Hall. apply List.firstn_all.
  - apply List.Forall_forall. intros b Hb.
    apply List.in_map_iff in Hb as (i & <- & Hi). apply List.in_seq in Hi.
    rewrite Hsize by lia. apply ceil_div_bound. lia.
  - intros i b Hb.
    rewrite List.nth_error_map in Hb.
    destruct (nth_error (seq 0 (kept_batches q r num_batches)) i) as [j|] eqn:Hj; [|discriminate].
    simpl in Hb. injection Hb as <-.
    pose proof (List.nth_error_Some (seq 0 (kept_batches q r num_batches)) i) as Hs.
    rewrite Hj in Hs. rewrite List.length_seq in Hs.
    assert (Hi : (i < kept_batches q r num_batches)%nat) by (apply Hs; discriminate).
    rewrite List.nth_error_nth' with (d := 0%nat) in Hj by (rewrite List.length_seq; lia).
    rewrite List.seq_nth in Hj by lia. injection Hj as <-.
    simpl. apply Hsize. lia.
Qed.

(** ** Running computations *)
Section Running.
Context {W H L : Type}.
Implicit Types (s : Session W H) (l : L).
Local Abbreviation M := (@Py.M W H).

Lemma run_bind_ok {A B} (m : M L A) (k : A -> M L B) l s a l' s' :
  m l s = (inr a, l', s') -> Py.bind m k l s = k a l' s'.
Proof. unfold Py.bind. now intros ->. Qed.

Lemma run_bind_raise {A B} (m : M L A) (k : A -> M L B) l s e l' s' :
  m l s = (inl e, l', s') -> Py.bind m k l s = (inl e, l', s').
Proof. unfold Py.bind. now intros ->. Qed.

Lemma run_try_ok {A} (m : M L A) handler l s a l' s' :
  m l s = (inr a, l', s') -> Py.try_except m handler l s = (inr a, l', s').
Proof. unfold Py.try_except. now intros ->. Qed.

Lemma run_try_raise {A} (m : M L A) handler l s e l' s' :
  m l s = (inl e, l', s') -> Py.try_except m handler l s = handler e l' s'.
Proof. unfold Py.try_except. now intros ->. Qed.

Lemma follows_run {A} R (m : M L A) l s r l' s' :
  follows R m -> m l s = (r, l', s') -> R (l, s) (l', s').
Proof. intros Hm Hrun. specialize (Hm l s). now rewrite Hrun in Hm. Qed.

Lemma never_raises_try {A} (m : M L A) handler :
  (forall e, never_raises (handler e)) -> never_raises (Py.try_except m handler).
Proof.
  intros Hh l s. unfold Py.try_except.
  destruct (m l s) as [[[e|a] l'] s']; [apply Hh|eauto].
Qed.

Lemma never_raises_ret {A} (a : A) : never_raises (@Py.ret W H L A a).
Proof. intros l s. unfold Py.ret. eauto. Qed.

(** *** The two relations are preorders *)

Lemma extends_quietly_refl s : extends_quietly s s.
Proof. exists []. split; [now rewrite List.app_nil_r | constructor]. Qed.

Lemma extends_quietly_trans s1 s2 s3 :
  extends_quietly s1 s2 -> extends_quietly s2 s3 -> extends_quietly s1 s3.
Proof.
  intros (n1 & E1 & Q1) (n2 & E2 & Q2). exists (n1 ++ n2). split.
  - now rewrite E2, E1, List.app_assoc.
  - apply List.Forall_app. split; assumption.
Qed.

Global Instance quietly_preorder : PreOrder (@quietly W H L).
Proof.
  split.
  - intros a. apply extends_quietly_refl.
  - intros a b c. apply extends_quietly_trans.
Qed.

Global Instance keeping_preorder (P : L -> Prop) : PreOrder (@keeping W H L P).
Proof. split; unfold keeping; [intros a|intros a b c]; auto. Qed.

(** *** Composition, for any preorder on states *)
Section Compose.
Variable R : L * Session W H -> L * Session W H -> Prop.
Context `{!PreOrder R}.

Lemma follows_ret {A} (a : A) : follows R (Py.ret a).
Proof. intros l s. reflexivity. Qed.

Lemma follows_raise {A} e : follows R (@Py.raise W H L A e).
Proof. intros l s. reflexivity. Qed.

Lemma follows_peek {A} (f : W -> A) : follows R (Py.peek f).
Proof. intros l s. reflexivity. Qed.

Lemma follows_bind {A B} (m : M L A) (k : A -> M L B) :
  follows R m -> (forall a, follows R (k a)) -> follows R (Py.bind m k).
Proof.
  intros Hm Hk l s. unfold Py.bind. specialize (Hm l s).
  destruct (m l s) as [[[e|a] l'] s']; simpl in *; [exact Hm|].
  etransitivity; [exact Hm|apply Hk].
Qed.

Lemma follows_try_except {A} (m : M L A) handler :
  follows R m -> (forall e, follows R (handler e)) ->
  follows R (Py.try_except m handler).
Proof.
  intros Hm Hh l s. unfold Py.try_except. specialize (Hm l s).
  destruct (m l s) as [[[e|a] l'] s']; simpl in *; [|exact Hm].
  etransitivity; [exact Hm|apply Hh].
Qed.

Lemma follows_if {A} (b : bool) (m1 m2 : M L A) :
  follows R m1 -> follows R m2 -> follows R (if b then m1 else m2).
Proof. now destruct b. Qed.
End Compose.

End Running.

(** ** What the code of the click verifier does to the state *)
Section ClickTesterSteps.
Context {W H L : Type}.
Variable driver : Driver W H.
Variable md5_hexdigest : string -> string.
Local Abbreviation M := (@Py.M W H).

(** A preorder on states that every call of an allowed kind, and every
    pause, respects. *)
Variable R : L * Session W H -> L * Session W H -> Prop.
Context `{!PreOrder R}.
Variable allowed : Call H -> Prop.
Hypothesis R_call :
  forall l s c w, allowed c -> R (l, s) (l, mkSession w (calls s ++ [c])).
Hypothesis allowed_quiet : forall c, is_click_call c = false -> allowed c.

Lemma follows_call {A} (c : Call H) (op : W -> (Exn + A) * W) :
  allowed c -> follows R (Py.call c op).
Proof.
  intros Hc l s. unfold Py.call. destruct (op (world s)) as [r w']. simpl.
  now apply R_call.
Qed.

Lemma follows_sleep ms : follows R (sleep driver ms).
Proof. intros l s. simpl. apply R_call, allowed_quiet. reflexivity. Qed.

Local Ltac plain_call := apply follows_call, allowed_quiet; reflexivity.

Lemma follows_is_displayed h : follows R (is_displayed driver h).
Proof. plain_call. Qed.
Lemma follows_is_enabled h : follows R (is_enabled driver h).
Proof. plain_call. Qed.
Lemma follows_tag_name h : follows R (handle_tag_name driver h).
Proof. plain_call. Qed.
Lemma follows_text h : follows R (handle_text driver h).
Proof. plain_call. Qed.
Lemma follows_find_element b v : follows R (find_element driver b v).
Proof. plain_call. Qed.
Lemma follows_find_elements b v : follows R (find_elements driver b v).
Proof. plain_call. Qed.
Lemma follows_current_url : follows R (current_url driver).
Proof. plain_call. Qed.
Lemma follows_title : follows R (title driver).
Proof. plain_call. Qed.
Lemma follows_get u : follows R (get driver u).
Proof. plain_call. Qed.
Lemma follows_execute_script script args :
  String.eqb script js_click_script = false ->
  follows R (execute_script driver script args).
Proof. intros Hs. apply follows_call, allowed_quiet. exact Hs. Qed.

Lemma follows_getitem k f : follows R (getitem (W:=W) (H:=H) k f).
Proof. destruct f; simpl; [apply follows_ret|apply follows_raise]; assumption. Qed.

Lemma follows_md5_of v : follows R (md5_of (W:=W) (H:=H) md5_hexdigest v).
Proof. destruct v; simpl; [apply follows_ret|apply follows_raise]; assumption. Qed.

Lemma follows_and_then (a b : M L bool) :
  follows R a -> follows R b -> follows R (and_then a b).
Proof.
  intros Ha Hb. unfold and_then. apply follows_bind; [assumption|exact Ha|].
  intros []; [exact Hb|now apply follows_ret].
Qed.

Lemma follows_displayed_and_enabled h : follows R (displayed_and_enabled driver h).
Proof. apply follows_and_then; [apply follows_is_displayed|apply follows_is_enabled]. Qed.

Lemma follows_first_such (cond : H -> M L bool) els :
  (forall h, follows R (cond h)) -> follows R (first_such cond els).
Proof.
  intros Hc. induction els as [|el rest IH]; simpl.
  - now apply follows_ret.
  - apply follows_bind; [assumption|apply Hc|].
    intros []; [now apply follows_ret|exact IH].
Qed.

Lemma follows_strategy (m : M L (option H)) : follows R m -> follows R (strategy m).
Proof.
  intros Hm. unfold strategy. apply follows_try_except; [assumption|exact Hm|].
  intros e. now apply follows_ret.
Qed.

Lemma follows_or_else (m k : M L (option H)) :
  follows R m -> follows R k -> follows R (or_else m k).
Proof.
  intros Hm Hk. unfold or_else. apply follows_bind; [assumption|exact Hm|].
  intros [el|]; [now apply follows_ret|exact Hk].
Qed.

Lemma follows_single_displayed b v : follows R (single_displayed driver b v).
Proof.
  unfold single_displayed.
  apply follows_bind; [assumption|apply follows_find_element|]. intros el.
  apply follows_bind; [assumption|apply follows_is_displayed|]. intros shown.
  now apply follows_ret.
Qed.

(** The steps of the locator chain share one shape. *)
Local Ltac chain :=
  repeat first
    [ assumption
    | apply follows_ret | apply follows_raise | apply follows_peek
    | apply follows_is_displayed | apply follows_is_enabled
    | apply follows_tag_name | apply follows_text
    | apply follows_find_element | apply follows_find_elements
    | apply follows_current_url | apply follows_title | apply follows_get
    | apply follows_getitem | apply follows_md5_of
    | apply follows_sleep | apply follows_displayed_and_enabled
    | apply follows_single_displayed
    | apply follows_strategy | apply follows_or_else | apply follows_and_then
    | apply follows_first_such | apply follows_if
    | apply follows_try_except | apply follows_bind
    | (apply follows_execute_script; reflexivity)
    | progress intros ].

Lemma follows_find_element_by_info info :
  follows R (_find_element_by_info_with_driver driver info).
Proof.
  unfold _find_element_by_info_with_driver.
  apply follows_try_except; [assumption| |chain].
  apply follows_or_else. { destruct (xpath info); chain. }
  apply follows_or_else. { destruct (css_selector info); chain. }
  apply follows_bind; [assumption|chain|]. intros tag.
  apply follows_bind; [assumption|chain|]. intros raw. cbv zeta.
  apply follows_or_else. { chain. }
  apply follows_or_else. { destruct (el_id info); chain. }
  chain.
Qed.

Lemma follows_relocate info n prev : follows R (relocate driver info n prev).
Proof.
  revert prev. induction n as [|n IH]; intros prev; simpl.
  - now apply follows_ret.
  - apply follows_bind; [assumption|apply follows_find_element_by_info|]. intros el.
    apply follows_bind; [assumption| |].
    + destruct el; chain.
    + intros []; chain. apply IH.
Qed.

Lemma follows_make_carousel_clickable el :
  follows R (_make_carousel_element_clickable_with_driver driver el).
Proof. unfold _make_carousel_element_clickable_with_driver. chain. Qed.

Lemma follows_prepare_click info el : follows R (prepare_click driver info el).
Proof.
  unfold prepare_click.
  apply follows_bind; [assumption| |].
  - apply follows_if; [apply follows_make_carousel_clickable|chain].
  - chain.
Qed.

Lemma follows_wait_until_loop (method : M L bool) n :
  follows R method -> follows R (wait_until_loop driver method n).
Proof.
  intros Hm. induction n as [|n IH]; simpl.
  - apply follows_bind; [assumption|chain|]. intros []; chain.
  - apply follows_bind; [assumption|chain|]. intros []; chain.
Qed.

Lemma follows_find_modals_and_dropdowns :
  follows R (find_modals_and_dropdowns driver).
Proof. unfold find_modals_and_dropdowns. chain. Qed.

End ClickTesterSteps.

(** ** What one click test does to its [result] and to the session *)
Section ResultSteps.
Context {W H : Type}.
Variable driver : Driver W H.
Variable md5_hexdigest : string -> string.
Local Abbreviation M := (@Py.M W H).

Variable R : TestResult * Session W H -> TestResult * Session W H -> Prop.
Context `{!PreOrder R}.
Variable allowed : Call H -> Prop.
Variable good : (TestResult -> TestResult) -> Prop.
Hypothesis R_call :
  forall l s c w, allowed c -> R (l, s) (l, mkSession w (calls s ++ [c])).
Hypothesis allowed_quiet : forall c, is_click_call c = false -> allowed c.
Hypothesis R_update : forall f l s, good f -> R (l, s) (f l, s).
Hypothesis good_setters :
  (forall v, good (set_click_status v)) /\ (forall v, good (set_error_message v))
  /\ (forall v, good (set_page_changed v)) /\ (forall v, good (set_url_before v))
  /\ (forall v, good (set_url_after v)) /\ (forall v, good (set_new_elements_appeared v))
  /\ (forall v, good (set_dom_hash_before v)) /\ (forall v, good (set_dom_hash_after v)).

Lemma follows_update f : good f -> follows R (Py.update f).
Proof. intros Hf l s. simpl. now apply R_update. Qed.

Local Ltac setter :=
  apply follows_update;
  destruct good_setters as (G1 & G2 & G3 & G4 & G5 & G6 & G7 & G8);
  first [apply G1|apply G2|apply G3|apply G4|apply G5|apply G6|apply G7|apply G8].

Local Ltac stage :=
  repeat first
    [ assumption
    | apply follows_ret | apply follows_raise | apply follows_peek
    | setter
    | eapply follows_current_url; eassumption
    | eapply follows_title; eassumption
    | eapply follows_md5_of
    | eapply follows_sleep; eassumption
    | eapply follows_displayed_and_enabled; eassumption
    | eapply follows_relocate; eassumption
    | eapply follows_prepare_click; eassumption
    | eapply follows_find_modals_and_dropdowns; eassumption
    | (eapply follows_execute_script; [eassumption..|reflexivity])
    | apply follows_if | apply follows_try_except | apply follows_bind
    | progress intros ].

Lemma follows_snapshot : follows R (snapshot driver md5_hexdigest).
Proof. unfold snapshot. stage. Qed.

(** From here on the code clicks. *)
Hypothesis allowed_all : forall c, allowed c.

Lemma follows_perform_click el : follows R (perform_click driver el).
Proof.
  unfold perform_click.
  apply follows_try_except; [assumption| |].
  - apply follows_bind; [assumption| |stage].
    eapply follows_call; eauto.
  - intros e. apply follows_if; [|stage].
    apply follows_try_except; [assumption| |stage].
    apply follows_bind; [assumption| |stage].
    eapply follows_call; eauto.
Qed.

Lemma follows_observe before : follows R (observe driver md5_hexdigest before).
Proof.
  unfold observe.
  apply follows_bind; [assumption| |stage].
  apply follows_try_except; [assumption| |stage].
  unfold wait_until. apply follows_bind; [assumption|stage|]. intros n.
  eapply follows_wait_until_loop; eauto. stage.
Qed.

Lemma follows_classify info o : follows R (classify info o).
Proof. unfold classify. stage. Qed.

Lemma follows_after_relocation info before el :
  follows R (after_relocation driver md5_hexdigest info before el).
Proof.
  unfold after_relocation. destruct el as [el|]; [|stage].
  apply follows_bind; [assumption|stage|]. intros _.
  apply follows_bind; [assumption|stage|]. intros clickable.
  apply follows_if; [stage|].
  apply follows_bind; [assumption|apply follows_perform_click|].
  intros [|]; [|stage].
  apply follows_bind; [assumption|apply follows_observe|]. stage.
Qed.

Lemma follows_click_and_observe info :
  follows R (click_and_observe driver md5_hexdigest info).
Proof.
  unfold click_and_observe.
  apply follows_bind; [assumption|apply follows_snapshot|]. intros before.
  apply follows_bind; [assumption|stage|]. intros el.
  apply follows_after_relocation.
Qed.

Lemma follows_guarded_body info :
  follows R (Py.try_except (click_test_body driver md5_hexdigest info) click_test_handler).
Proof.
  apply follows_try_except; [assumption| |].
  - unfold click_test_body.
    apply follows_bind; [assumption|apply follows_click_and_observe|].
    intros [o|]; [apply follows_classify|stage].
  - intros e. unfold click_test_handler. stage.
Qed.

End ResultSteps.

Section ClickTesterTheorems.
Context {W H : Type}.
Variable driver : Driver W H.
Variable md5_hexdigest : string -> string.
Local Abbreviation M := (@Py.M W H).

Local Abbreviation test := (_test_element_click_with_driver driver md5_hexdigest).
Local Abbreviation find := (_find_element_by_info_with_driver driver).

(** *** Quiet stages *)

Lemma quiet_call_step {L} (l : L) (s : Session W H) c w :
  is_click_call c = false -> quietly (l, s) (l, mkSession w (calls s ++ [c])).
Proof.
  intros Hc. exists [c]. split; [reflexivity|]. now repeat constructor.
Qed.

Lemma quiet_find {L} info : follows (@quietly W H L) (find info).
Proof.
  apply follows_find_element_by_info
    with (allowed := fun c => is_click_call c = false);
    [typeclasses eauto|intros; now apply quiet_call_step|auto].
Qed.

Lemma quiet_relocate {L} info n prev :
  follows (@quietly W H L) (relocate driver info n prev).
Proof.
  apply follows_relocate
    with (allowed := fun c => is_click_call c = false);
    [typeclasses eauto|intros; now apply quiet_call_step|auto].
Qed.

Lemma quiet_prepare_click {L} info el :
  follows (@quietly W H L) (prepare_click driver info el).
Proof.
  apply follows_prepare_click
    with (allowed := fun c => is_click_call c = false);
    [typeclasses eauto|intros; now apply quiet_call_step|auto].
Qed.

Lemma quiet_displayed_and_enabled {L} el :
  follows (@quietly W H L) (displayed_and_enabled driver el).
Proof.
  apply follows_displayed_and_enabled
    with (allowed := fun c => is_click_call c = false);
    [typeclasses eauto|intros; now apply quiet_call_step|auto].
Qed.

Lemma quiet_snapshot : follows quietly (snapshot driver md5_hexdigest).
Proof.
  apply follows_snapshot
    with (allowed := fun c => is_click_call c = false) (good := fun _ => True).
  - typeclasses eauto.
  - intros. now apply quiet_call_step.
  - auto.
  - intros f l s _. apply extends_quietly_refl.
  - repeat split.
Qed.

(** *** The [result] of a test stays the one of its element *)

Lemma guarded_body_keeps_element info :
  follows (keeping (fun r => element_info r = info))
    (Py.try_except (click_test_body driver md5_hexdigest info) click_test_handler).
Proof.
  apply follows_guarded_body
    with (allowed := fun _ => True)
         (good := fun f => forall r, element_info (f r) = element_info r).
  - typeclasses eauto.
  - intros l s c w _ Hl. exact Hl.
  - auto.
  - intros f l s Hf Hl. simpl in *. now rewrite Hf.
  - repeat split.
  - auto.
Qed.

(** *** How a test ends, given how [click_and_observe] ends *)

Lemma test_returns_early {L} info url (l0 : L) s0 r s :
  click_and_observe driver md5_hexdigest info
    (fresh_result info (now_isoformat driver (world s0))) s0 = (inr None, r, s) ->
  test info url l0 s0 = (inr r, l0, s).
Proof.
  intros Hrun. unfold _test_element_click_with_driver, click_test_body.
  unfold Py.bind at 1. unfold Py.peek at 1.
  unfold Py.bind at 1. unfold Py.with_local.
  erewrite run_try_ok; [reflexivity|].
  erewrite run_bind_ok by exact Hrun. reflexivity.
Qed.

Lemma classify_run info (o : @Observation H) r s :
  exists r',
    classify (W:=W) info o r s = (inr tt, r', s)
    /\ click_status r' = classified_status info o
    /\ error_message r' = default (error_message r) (classified_reason info o)
    /\ element_info r' = element_info r.
Proof.
  unfold classify, classified_status, classified_reason, priority_table, first_match.
  unfold url_changed, title_changed, ui_artifact_present.
  destruct (negb (String.eqb (final_url o) (initial_url o)));
    [eexists; split; [reflexivity|]; auto|].
  destruct (negb (String.eqb (final_title o) (initial_title o)));
    [eexists; split; [reflexivity|]; auto|].
  destruct (dom_changed o); [eexists; split; [reflexivity|]; auto|].
  destruct (nonempty (modals o) || nonempty (dropdowns o));
    [eexists; split; [reflexivity|]; auto|].
  destruct (is_dead_click_by_href info); eexists; (split; [reflexivity|]); auto.
Qed.

Lemma test_classifies {L} info url (l0 : L) s0 (o : @Observation H) r s :
  click_and_observe driver md5_hexdigest info
    (fresh_result info (now_isoformat driver (world s0))) s0 = (inr (Some o), r, s) ->
  exists result,
    test info url l0 s0 = (inr result, l0, s)
    /\ click_status result = classified_status info o
    /\ error_message result = default (error_message r) (classified_reason info o).
Proof.
  intros Hrun.
  destruct (classify_run info o r s) as (r' & Hc & Hst & Hmsg & _).
  exists r'. split; [|auto].
  unfold _test_element_click_with_driver, click_test_body.
  unfold Py.bind at 1. unfold Py.peek at 1.
  unfold Py.bind at 1. unfold Py.with_local.
  erewrite run_try_ok; [reflexivity|].
  erewrite run_bind_ok by exact Hrun. exact Hc.
Qed.

(** C1.  A test that gets as far as observing the page ends with the
    status of the first row of the priority table whose condition holds:
    URL changed, title changed, DOM changed, modal or dropdown present,
    suspicious href or onclick, and last the generic dead click.  In
    particular a changed URL gives active_navigation whatever the DOM
    did. *)
Theorem classification_priority {L} info url (l0 : L) s0 (o : @Observation H) r s :
  click_and_observe driver md5_hexdigest info
    (fresh_result info (now_isoformat driver (world s0))) s0 = (inr (Some o), r, s) ->
  exists result reason,
    test info url l0 s0 = (inr result, l0, s)
    /\ first_match (priority_table info) o = Some (click_status result, reason)
    /\ error_message result = default (error_message r) reason
    /\ (final_url o <> initial_url o -> click_status result = "active_navigation").
Proof.
  intros Hrun.
  destruct (test_classifies info url l0 s0 o r s Hrun) as (result & Ht & Hst & Hmsg).
  exists result, (classified_reason info o).
  split; [exact Ht|]. split; [|split; [exact Hmsg|]].
  - rewrite Hst. unfold classified_status, classified_reason.
    destruct (first_match (priority_table info) o) as [[status reason]|] eqn:Hfm;
      [reflexivity|].
    unfold priority_table, first_match in Hfm.
    repeat match type of Hfm with
           | (if ?b then _ else _) = _ => destruct b; try discriminate
           end.
  - intros Hne. rewrite Hst. unfold classified_status, priority_table, first_match.
    unfold url_changed. apply String.eqb_neq in Hne. now rewrite Hne.
Qed.

(** C6.  When the href, spaces removed and lower-cased, is
    javascript:void(0), and the click changed neither URL nor title nor
    DOM and left no modal or dropdown, the outcome is dead_click with
    the suspicious-href reason, not the generic one. *)
Theorem suspicious_href_dead_click {L} info url (l0 : L) s0 (o : @Observation H) r s :
  normalized (href info) = "javascript:void(0)" ->
  click_and_observe driver md5_hexdigest info
    (fresh_result info (now_isoformat driver (world s0))) s0 = (inr (Some o), r, s) ->
  final_url o = initial_url o ->
  final_title o = initial_title o ->
  dom_changed o = false ->
  modals o = [] -> dropdowns o = [] ->
  exists result,
    test info url l0 s0 = (inr result, l0, s)
    /\ click_status result = "dead_click"
    /\ error_message result
       = "Dead click: suspicious href or onclick and no visible effect"
    /\ error_message result <> "Dead click: no visible effect after click".
Proof.
  intros Hhref Hrun Hurl Htitle Hdom Hmod Hdrop.
  destruct (test_classifies info url l0 s0 o r s Hrun) as (result & Ht & Hst & Hmsg).
  assert (Hsusp : is_dead_click_by_href info = true).
  { unfold is_dead_click_by_href. now rewrite Hhref. }
  exists result. split; [exact Ht|].
  unfold classified_status, classified_reason, priority_table, first_match in Hst, Hmsg.
  unfold url_changed, title_changed, ui_artifact_present in Hst, Hmsg.
  rewrite Hurl, Htitle, Hdom, Hmod, Hdrop, Hsusp, !String.eqb_refl in Hst, Hmsg.
  simpl in Hst, Hmsg. rewrite Hst, Hmsg. repeat split. discriminate.
Qed.

Lemma relocate_three_misses info (r1 r2 r3 r4 : TestResult) s1 s2 s3 s4 :
  find info r1 s1 = (inr None, r2, s2) ->
  find info r2 (Py.slept driver 700 s2) = (inr None, r3, s3) ->
  find info r3 (Py.slept driver 700 s3) = (inr None, r4, s4) ->
  relocate driver info 3 None r1 s1 = (inr None, r4, Py.slept driver 700 s4).
Proof.
  intros H1 H2 H3. simpl relocate.
  erewrite run_bind_ok by exact H1. unfold Py.bind at 1, Py.ret at 1.
  unfold Py.bind at 1, sleep at 1, Py.sleep at 1.
  erewrite run_bind_ok by exact H2. unfold Py.bind at 1, Py.ret at 1.
  unfold Py.bind at 1, sleep at 1, Py.sleep at 1.
  erewrite run_bind_ok by exact H3. reflexivity.
Qed.

(** C5.  When each of the three attempts of the locator chain returns no
    element, the test ends with element_not_found and its message, and
    no click, pointer or script, has been made. *)
Theorem retry_exhaustion_not_found {L} info url (l0 : L) s0 before r1 s1 r2 s2 r3 s3 r4 s4 :
  snapshot driver md5_hexdigest
    (fresh_result info (now_isoformat driver (world s0))) s0 = (inr before, r1, s1) ->
  find info r1 s1 = (inr None, r2, s2) ->
  find info r2 (Py.slept driver 700 s2) = (inr None, r3, s3) ->
  find info r3 (Py.slept driver 700 s3) = (inr None, r4, s4) ->
  exists result,
    test info url l0 s0 = (inr result, l0, Py.slept driver 700 s4)
    /\ click_status result = "element_not_found"
    /\ error_message result
       = "Element could not be located for clicking (after retries)"
    /\ extends_quietly s0 (Py.slept driver 700 s4).
Proof.
  intros Hsnap H1 H2 H3.
  pose proof (relocate_three_misses info r1 r2 r3 r4 s1 s2 s3 s4 H1 H2 H3) as Hrel.
  eexists. split; [|split; [|split]].
  - apply test_returns_early. unfold click_and_observe.
    erewrite run_bind_ok by exact Hsnap.
    erewrite run_bind_ok by exact Hrel. reflexivity.
  - reflexivity.
  - reflexivity.
  - eapply extends_quietly_trans.
    + exact (follows_run _ _ _ _ _ _ _ quiet_snapshot Hsnap).
    + exact (follows_run _ _ _ _ _ _ _ (quiet_relocate info 3 None) Hrel).
Qed.

(** C10.  When the retries end with an element and, once it is scrolled
    into view, it is not displayed or not enabled, the test ends with
    not_clickable and its message, without any click; the status is
    neither element_not_found nor error. *)
Theorem not_clickable_after_scroll {L} info url (l0 : L) s0 before r1 s1 el r2 s2 r3 s3 r4 s4 :
  snapshot driver md5_hexdigest
    (fresh_result info (now_isoformat driver (world s0))) s0 = (inr before, r1, s1) ->
  relocate driver info 3 None r1 s1 = (inr (Some el), r2, s2) ->
  prepare_click driver info el r2 s2 = (inr tt, r3, s3) ->
  displayed_and_enabled driver el r3 s3 = (inr false, r4, s4) ->
  exists result,
    test info url l0 s0 = (inr result, l0, s4)
    /\ click_status result = "not_clickable"
    /\ error_message result = "Element is not displayed or enabled"
    /\ extends_quietly s0 s4
    /\ click_status result <> "element_not_found"
    /\ click_status result <> "error".
Proof.
  intros Hsnap Hrel Hprep Hchk.
  eexists. split; [|split; [|split; [|split; [|split]]]].
  - apply test_returns_early. unfold click_and_observe.
    erewrite run_bind_ok by exact Hsnap.
    erewrite run_bind_ok by exact Hrel.
    unfold after_relocation.
    erewrite run_bind_ok by exact Hprep.
    erewrite run_bind_ok by exact Hchk. reflexivity.
  - reflexivity.
  - reflexivity.
  - eapply extends_quietly_trans;
      [exact (follows_run _ _ _ _ _ _ _ quiet_snapshot Hsnap)|].
    eapply extends_quietly_trans;
      [exact (follows_run _ _ _ _ _ _ _ (quiet_relocate info 3 None) Hrel)|].
    eapply extends_quietly_trans;
      [exact (follows_run _ _ _ _ _ _ _ (quiet_prepare_click info el) Hprep)|].
    exact (follows_run _ _ _ _ _ _ _ (quiet_displayed_and_enabled el) Hchk).
  - discriminate.
  - discriminate.
Qed.


Lemma test_always_returns {L} info url (l0 : L) s0 :
  exists result s,
    test info url l0 s0 = (inr result, l0, s) /\ element_info result = info.
Proof.
  set (r0 := fresh_result info (now_isoformat driver (world s0))).
  destruct (never_raises_try (click_test_body driver md5_hexdigest info)
              click_test_handler) with (l := r0) (s := s0)
    as ([] & r & s & Hrun).
  { intros e l s. unfold click_test_handler, Py.bind, Py.update. eauto. }
  exists r, s. split.
  - unfold _test_element_click_with_driver.
    unfold Py.bind at 1. unfold Py.peek at 1.
    unfold Py.bind at 1. unfold Py.with_local. fold r0. now rewrite Hrun.
  - apply (follows_run _ _ _ _ _ _ _ (guarded_body_keeps_element info) Hrun).
    reflexivity.
Qed.

Lemma test_records_error {L} info url (l0 : L) s0 e r s :
  click_test_body driver md5_hexdigest info
    (fresh_result info (now_isoformat driver (world s0))) s0 = (inl e, r, s) ->
  test info url l0 s0
  = (inr (set_error_message (exn_str e) (set_click_status "error" r)), l0, s).
Proof.
  intros Hrun. unfold _test_element_click_with_driver.
  unfold Py.bind at 1. unfold Py.peek at 1.
  unfold Py.bind at 1. unfold Py.with_local.
  erewrite run_try_raise by exact Hrun. reflexivity.
Qed.


Lemma batch_iteration_appends_one url info rs s :
  exists result s',
    batch_iteration driver test url info rs s = (inr tt, rs ++ [result], s')
    /\ element_info result = info.
Proof.
  unfold batch_iteration, batch_guarded, Py.try_except.
  unfold Py.bind at 1. unfold current_url at 1, Py.call at 1.
  destruct (drv_current_url driver (world s)) as [[e|here] w1].
  { eexists _, _. split; reflexivity. }
  set (s1 := mkSession w1 (calls s ++ [CallCurrentUrl])).
  destruct (negb (String.eqb here url)).
  - unfold Py.bind at 1. unfold Py.bind at 1. unfold get at 1, Py.call at 1.
    simpl world. simpl calls.
    destruct (drv_get driver url w1) as [[e|[]] w2].
    { eexists _, _. split; reflexivity. }
    unfold sleep at 1, Py.sleep at 1.
    match goal with |- context [Py.bind (test info url) _ rs ?s2] =>
      destruct (test_always_returns info url rs s2) as (result & s3 & Ht & Hinfo)
    end.
    erewrite run_bind_ok by exact Ht.
    exists result, s3. split; [reflexivity|exact Hinfo].
  - unfold Py.bind at 1. unfold Py.ret at 1.
    destruct (test_always_returns info url rs s1) as (result & s3 & Ht & Hinfo).
    erewrite run_bind_ok by exact Ht.
    exists result, s3. split; [reflexivity|exact Hinfo].
Qed.

Lemma batch_loop_one_each url batch rs s :
  exists results s',
    batch_loop driver test url batch rs s = (inr tt, rs ++ results, s')
    /\ List.Forall2 (fun info r => element_info r = info) batch results.
Proof.
  revert rs s. induction batch as [|info rest IH]; intros rs s; simpl.
  - exists [], s. rewrite List.app_nil_r. split; [reflexivity|constructor].
  - destruct (batch_iteration_appends_one url info rs s) as (r & s1 & Hit & Hinfo).
    destruct (IH (rs ++ [r]) s1) as (results & s2 & Hloop & Hall).
    exists (r :: results), s2. split.
    + erewrite run_bind_ok by exact Hit. rewrite Hloop.
      rewrite <- List.app_assoc. reflexivity.
    + now constructor.
Qed.

(** *** An intercepted click whose script fallback fails too *)




End ClickTesterTheorems.

(** * Further properties of the code *)

(** ** Strings *)

Lemma count_app (a b : string) (c : ascii) :
  PyStr.count (a ++ b) c = (PyStr.count a c + PyStr.count b c)%nat.
Proof.
  induction a as [|x a IH]; simpl.
  - reflexivity.
  - rewrite IH. lia.
Qed.

Lemma prefix_one (c x : ascii) (s : string) :
  String.prefix (String c EmptyString) (String x s) = Ascii.eqb c x.
Proof.
  simpl. destruct (Ascii.eqb_spec c x) as [->|Hne].
  - destruct (ascii_dec x x); [now destruct s|contradiction].
  - destruct (ascii_dec c x); [contradiction|reflexivity].
Qed.

(** Replacing a character leaves none of it, when the replacement has
    none. *)
Lemma replace_char_gone (c : ascii) (new : string) (skip : nat) (s : string) :
  PyStr.count new c = 0%nat ->
  PyStr.count (PyStr2.replace_from (String c EmptyString) new skip s) c = 0%nat.
Proof.
  intros Hnew. revert skip. induction s as [|x s IH]; intros skip.
  - destruct skip; reflexivity.
  - destruct skip as [|k].
    + cbn [PyStr2.replace_from]. rewrite prefix_one.
      destruct (Ascii.eqb c x) eqn:Hcx.
      * rewrite count_app, Hnew. simpl. apply IH.
      * simpl. rewrite Ascii.eqb_sym, Hcx. simpl. apply IH.
    + simpl. apply IH.
Qed.

(** The two special replacements of the code are instances of the general
    one. *)
Lemma remove_spaces_is_replace (s : string) :
  PyStr.remove_spaces s = PyStr2.replace " " "" s.
Proof.
  unfold PyStr2.replace. induction s as [|x s IH].
  - reflexivity.
  - cbn [PyStr.remove_spaces PyStr2.replace_from]. rewrite prefix_one.
    rewrite (Ascii.eqb_sym " " x). destruct (Ascii.eqb x " ").
    + simpl. exact IH.
    + now rewrite IH.
Qed.

Lemma spaces_to_dots_is_replace (s : string) :
  PyStr.spaces_to_dots s = PyStr2.replace " " "." s.
Proof.
  unfold PyStr2.replace. induction s as [|x s IH].
  - reflexivity.
  - cbn [PyStr.spaces_to_dots PyStr2.replace_from]. rewrite prefix_one.
    rewrite (Ascii.eqb_sym " " x). destruct (Ascii.eqb x " ").
    + simpl. now rewrite IH.
    + now rewrite IH.
Qed.

(** ** The report file *)

(** X20.  When no file name is given, the report goes to
    clickability_test_<safe_url>_4.json where safe_url contains no '/', so
    the file name has no directory part; an empty url becomes
    unknown_url. *)
Theorem report_filename_in_working_directory (url : string) (filename : option string) :
  PyStr.truthy (default "" filename) = false ->
  exists safe_url,
    report_filename url filename = ("clickability_test_" ++ safe_url ++ "_4.json")%string
    /\ PyStr.count safe_url "/" = 0%nat
    /\ PyStr.count (report_filename url filename) "/" = 0%nat
    /\ (url = "" -> safe_url = "unknown_url").
Proof.
  intros Hno. unfold report_filename. rewrite Hno.
  eexists. split; [reflexivity|].
  assert (Hsafe : forall u, PyStr.count (PyStr2.replace "/" "_" u) "/" = 0%nat).
  { intros u. unfold PyStr2.replace. now apply replace_char_gone. }
  split; [apply Hsafe|]. split.
  - rewrite !count_app, Hsafe. reflexivity.
  - intros ->. reflexivity.
Qed.

(** ** The dead-pattern check *)

Lemma str_in_true_head (s : string) (l : list string) :
  str_in s (s :: l) = true.
Proof. unfold str_in. simpl. now rewrite String.eqb_refl. Qed.

(** X10.  [is_dead_click_by_href] returns [False] only for a descriptor
    with both a non-empty href and a non-empty onclick, spaces removed: a
    plain link without an onclick handler is always suspicious. *)
Theorem unsuspicious_needs_href_and_onclick (element_info : Descriptor) :
  is_dead_click_by_href element_info = false ->
  PyStr.truthy (normalized (href element_info)) = true
  /\ PyStr.truthy (normalized (onclick element_info)) = true.
Proof.
  unfold is_dead_click_by_href. intros Hf. split.
  - destruct (normalized (href element_info)) eqn:Hh; [|reflexivity].
    simpl in Hf. discriminate.
  - destruct (normalized (onclick element_info)) eqn:Ho; [|reflexivity].
    destruct (str_in (normalized (href element_info)) dead_patterns); [discriminate|].
    destruct (_ || _); [discriminate|].
    simpl in Hf. discriminate.
Qed.

(** ** [get_status_code] *)

(** X4.  [get_status_code] returns [None] without any request for an
    empty href and for one that starts with '#' or 'javascript:'.  A list
    it returns is the redirect history of one successful HEAD request
    followed by the final status code, and the request goes to the href
    itself unless the href starts with '/'. *)
Theorem get_status_code_result
    (urljoin : string -> string -> Exn + string)
    (requests_head : string -> Exn + (list Z * Z))
    (href : string) (base_url : option string) :
  (href = "" \/ PyStr.startswith href "#" = true
   \/ PyStr.startswith href "javascript:" = true ->
   forall urljoin' requests_head',
     get_status_code urljoin' requests_head' href base_url = None)
  /\ (forall codes,
        get_status_code urljoin requests_head href base_url = Some codes ->
        exists target history status_code,
          requests_head target = inr (history, status_code)
          /\ codes = history ++ [status_code]
          /\ last codes = Some status_code
          /\ (PyStr.startswith href "/" = false -> target = href)).
Proof.
  split.
  - intros Hskip uj rh. unfold get_status_code.
    destruct Hskip as [->|[Hs|Hs]]; [reflexivity| |].
    + rewrite Hs. now rewrite orb_true_r.
    + rewrite Hs. now rewrite orb_true_r.
  - intros codes. unfold get_status_code.
    destruct (_ || _ || _); [discriminate|].
    destruct (PyStr.startswith href "/" && PyStr.truthy (default "" base_url)) eqn:Hrel.
    + destruct (urljoin (default "" base_url) href) as [e|target]; [discriminate|].
      destruct (requests_head target) as [e|[history status_code]] eqn:Hhead; [discriminate|].
      intros [= <-]. exists target, history, status_code.
      split; [exact Hhead|]. split; [reflexivity|]. split; [apply last_snoc|].
      intros Hnot. rewrite Hnot in Hrel. discriminate.
    + destruct (requests_head href) as [e|[history status_code]] eqn:Hhead; [discriminate|].
      intros [= <-]. exists href, history, status_code.
      split; [exact Hhead|]. split; [reflexivity|]. split; [apply last_snoc|]. reflexivity.
Qed.

(** ** [is_duplicate_element] *)

Lemma same_element_keyed (existing element_info : Descriptor) :
  fully_keyed existing -> fully_keyed element_info ->
  exists b, same_element existing element_info = inr b
            /\ (b = true <-> same_by_keys existing element_info).
Proof.
  intros ([x1 Hx1] & [u1 Hu1] & [t1 Ht1] & [s1 Hs1])
         ([x2 Hx2] & [u2 Hu2] & [t2 Ht2] & [s2 Hs2]).
  unfold same_element, same_by_keys. rewrite Hx1, Hx2, Hu1, Hu2, Ht1, Ht2, Hs1, Hs2. simpl.
  destruct (String.eqb_spec x1 x2) as [->|Hx].
  { exists true. split; [reflexivity|]. split; auto. }
  destruct (Z.eqb_spec u1 u2) as [->|Hu]; simpl.
  2:{ exists false. split; [reflexivity|]. split; [discriminate|].
      intros [[=]|([=] & _)]; contradiction. }
  destruct (String.eqb_spec t1 t2) as [->|Ht]; simpl.
  2:{ exists false. split; [reflexivity|]. split; [discriminate|].
      intros [[=]|(_ & [=] & _)]; contradiction. }
  destruct (String.eqb_spec s1 s2) as [->|Hs].
  - exists true. split; [reflexivity|]. split; auto.
  - exists false. split; [reflexivity|]. split; [discriminate|].
    intros [[=]|(_ & _ & [=])]; contradiction.
Qed.

(** X9.  For dicts that all have the keys xpath, unique_id, tag_name and
    text, [is_duplicate_element] raises nothing and returns [True] exactly
    when some existing dict has the same xpath, or the same unique_id,
    tag_name and text; in particular for a dict that is itself in the
    list. *)
Theorem is_duplicate_element_keyed (element_info : Descriptor)
    (existing_elements : list Descriptor) :
  fully_keyed element_info ->
  List.Forall fully_keyed existing_elements ->
  exists b,
    is_duplicate_element element_info existing_elements = inr b
    /\ (b = true <-> exists existing, In existing existing_elements
                                      /\ same_by_keys existing element_info)
    /\ (In element_info existing_elements -> b = true).
Proof.
  intros Hinfo Hall.
  assert (Hmain : exists b,
    is_duplicate_element element_info existing_elements = inr b
    /\ (b = true <-> exists existing, In existing existing_elements
                                      /\ same_by_keys existing element_info)).
  { induction Hall as [|existing rest Hex Hrest IH]; simpl.
    - exists false. split; [reflexivity|]. split; [discriminate|]. intros (x & [] & _).
    - destruct (same_element_keyed existing element_info Hex Hinfo) as (b & Hb & Hiff).
      rewrite Hb. destruct b.
      + exists true. split; [reflexivity|]. split; [|reflexivity].
        intros _. exists existing. split; [now left|now apply Hiff].
      + destruct IH as (b' & Hb' & Hiff'). exists b'. split; [exact Hb'|].
        rewrite Hiff'. split.
        * intros (x & Hin & Hsame). exists x. split; [now right|exact Hsame].
        * intros (x & [<-|Hin] & Hsame).
          -- apply Hiff in Hsame. discriminate.
          -- exists x. auto. }
  destruct Hmain as (b & Hb & Hiff). exists b. split; [exact Hb|]. split; [exact Hiff|].
  intros Hin. apply Hiff. exists element_info. split; [exact Hin|]. now left.
Qed.

(** ** Counting dicts *)

Lemma counts_get_set (d : Counts) (k k' : string) (v : nat) :
  counts_get (counts_set d k v) k' = if String.eqb k k' then v else counts_get d k'.
Proof.
  induction d as [|[k0 n] d IH]; simpl.
  - reflexivity.
  - destruct (String.eqb_spec k0 k) as [->|Hne]; simpl.
    + destruct (String.eqb k k'); reflexivity.
    + rewrite IH. destruct (String.eqb_spec k0 k') as [->|Hne'].
      * destruct (String.eqb_spec k k'); [congruence|reflexivity].
      * reflexivity.
Qed.

Lemma counts_set_keys (d : Counts) (k : string) (v : nat) :
  List.map fst (counts_set d k v)
  = if existsb (String.eqb k) (List.map fst d) then List.map fst d
    else List.map fst d ++ [k].
Proof.
  induction d as [|[k0 n] d IH]; simpl.
  - reflexivity.
  - rewrite (String.eqb_sym k k0). destruct (String.eqb k0 k); simpl.
    + reflexivity.
    + rewrite IH. now destruct (existsb _ _).
Qed.

Lemma existsb_eqb_In (k : string) (l : list string) :
  existsb (String.eqb k) l = true <-> In k l.
Proof.
  rewrite List.existsb_exists. split.
  - intros (x & Hin & Heq). apply String.eqb_eq in Heq. now subst.
  - intros Hin. exists k. split; [exact Hin|apply String.eqb_refl].
Qed.

Lemma counts_set_nodup (d : Counts) (k : string) (v : nat) :
  List.NoDup (List.map fst d) -> List.NoDup (List.map fst (counts_set d k v)).
Proof.
  intros Hnd. rewrite counts_set_keys.
  destruct (existsb (String.eqb k) (List.map fst d)) eqn:Hin; [exact Hnd|].
  apply List.NoDup_app; [exact Hnd|repeat constructor; intros []|].
  intros x Hx [<-|[]].
  apply existsb_eqb_In in Hx. congruence.
Qed.

Lemma counts_weight_set (p : string -> bool) (d : Counts) (k : string) :
  counts_weight p (counts_incr d k)
  = (counts_weight p d + (if p k then 1 else 0))%nat.
Proof.
  unfold counts_incr. induction d as [|[k0 n] d IH]; simpl.
  - lia.
  - destruct (String.eqb_spec k0 k) as [->|Hne]; simpl.
    + destruct (p k); lia.
    + rewrite IH. lia.
Qed.

(** What a counting loop has counted. *)
Lemma counting_loop (tokens : list string) (d : Counts) :
  let d' := fold_left counts_incr tokens d in
  (forall k, counts_get d' k = (counts_get d k + occurrences k tokens)%nat)
  /\ (forall p, counts_weight p d'
                = (counts_weight p d + length (List.filter p tokens))%nat)
  /\ (List.NoDup (List.map fst d) -> List.NoDup (List.map fst d'))
  /\ (forall k, In k (List.map fst d') <-> In k (List.map fst d) \/ In k tokens).
Proof.
  revert d. induction tokens as [|t tokens IH]; intros d; simpl.
  - split; [intros; unfold occurrences; simpl; lia|].
    split; [intros; lia|]. split; [auto|]. intros k. tauto.
  - destruct (IH (counts_incr d t)) as (Hget & Hw & Hnd & Hkeys).
    split; [|split; [|split]].
    + intros k. rewrite Hget. unfold counts_incr at 1. rewrite counts_get_set.
      unfold occurrences. simpl. rewrite (String.eqb_sym k t).
      destruct (String.eqb_spec t k) as [->|Hne]; simpl; lia.
    + intros p. rewrite Hw, counts_weight_set. destruct (p t); simpl; lia.
    + intros H0. apply Hnd. now apply counts_set_nodup.
    + intros k. rewrite Hkeys. unfold counts_incr. rewrite counts_set_keys.
      destruct (existsb (String.eqb t) (List.map fst d)) eqn:Hin.
      * apply existsb_eqb_In in Hin. split; [tauto|].
        intros [H0|[<-|H0]]; tauto.
      * rewrite List.in_app_iff. simpl. tauto.
Qed.

Lemma counts_entry_get (d : Counts) (k : string) (n : nat) :
  List.NoDup (List.map fst d) -> In (k, n) d -> counts_get d k = n.
Proof.
  induction d as [|[k0 n0] d IH]; simpl; intros Hnd Hin; [contradiction|].
  inversion Hnd as [|? ? Hnot Hnd']; subst.
  destruct Hin as [[= -> ->]|Hin].
  - now rewrite String.eqb_refl.
  - destruct (String.eqb_spec k0 k) as [->|Hne]; [|auto].
    exfalso. apply Hnot. apply List.in_map_iff. exists (k, n). auto.
Qed.

(** ** [_get_click_status_breakdown] *)

Lemma breakdown_is_counting (results : list TestResult) :
  _get_click_status_breakdown results
  = fold_left counts_incr (List.map click_status results) [].
Proof.
  unfold _get_click_status_breakdown. generalize (@nil (string * nat)) as d.
  induction results as [|r rest IH]; intros d; simpl; [reflexivity|apply IH].
Qed.

Lemma filter_map_length {A B} (f : A -> B) (p : B -> bool) (l : list A) :
  length (List.filter p (List.map f l)) = length (List.filter (fun a => p (f a)) l).
Proof.
  induction l as [|a l IH]; simpl; [reflexivity|].
  destruct (p (f a)); simpl; now rewrite IH.
Qed.

(** X17.  The breakdown maps every status to the number of results with
    that status: the keys are distinct, every listed count is at least one
    and belongs to a status that occurs, and the counts add up to the
    number of results. *)
Theorem click_status_breakdown_counts (results : list TestResult) :
  let breakdown := _get_click_status_breakdown results in
  (forall status,
      counts_get breakdown status
      = count_where (fun r => String.eqb status (click_status r)) results)
  /\ List.NoDup (List.map fst breakdown)
  /\ (forall status n, In (status, n) breakdown ->
        (1 <= n)%nat /\ exists r, In r results /\ click_status r = status)
  /\ counts_total breakdown = length results.
Proof.
  cbv zeta. rewrite breakdown_is_counting.
  destruct (counting_loop (List.map click_status results) []) as (Hget & Hw & Hnd & Hkeys).
  split; [|split; [|split]].
  - intros status. rewrite Hget. simpl. unfold occurrences, count_where.
    apply filter_map_length.
  - apply Hnd. constructor.
  - intros status n Hin.
    assert (Hn : counts_get (fold_left counts_incr (List.map click_status results) []) status = n).
    { apply counts_entry_get; [apply Hnd; constructor|exact Hin]. }
    assert (Hk : In status (List.map click_status results)).
    { assert (Hkey : In status (List.map fst
                (fold_left counts_incr (List.map click_status results) []))).
      { apply List.in_map_iff. exists (status, n). auto. }
      apply Hkeys in Hkey as [[]|Hkey]. exact Hkey. }
    split.
    + rewrite <- Hn, Hget. simpl. unfold occurrences.
      apply List.in_split in Hk as (l1 & l2 & ->).
      rewrite List.filter_app, List.length_app. simpl. rewrite String.eqb_refl. simpl. lia.
    + apply List.in_map_iff in Hk as (r & Hr & Hin'). eauto.
  - unfold counts_total. rewrite Hw. simpl.
    rewrite filter_map_length. rewrite List.length_map || idtac.
    clear. induction results as [|r rest IH]; simpl; [reflexivity|now f_equal].
Qed.

(** X18.  The tallies of the report agree with the status breakdown:
    [active_clicks] is the sum of the counts of the statuses that start
    with 'active', [dead_clicks] is the count of 'dead_click', and
    [errors] is the sum of all other counts. *)
Theorem tallies_from_breakdown (url : string) (clickable_elements : list Descriptor)
    (batches : list (list Descriptor)) (completed : list (Exn + list TestResult)) :
  let report := aggregate url clickable_elements batches completed in
  let breakdown := _get_click_status_breakdown (results report) in
  active_clicks report = counts_weight (fun k => PyStr.startswith k "active") breakdown
  /\ dead_clicks report = counts_get breakdown "dead_click"
  /\ errors report
     = counts_weight (fun k => negb (PyStr.startswith k "active")
                               && negb (String.eqb k "dead_click")) breakdown.
Proof.
  cbv zeta. unfold aggregate.
  set (rep0 := empty_report url clickable_elements batches).
  destruct (collect_fold completed rep0) as (Hr & Ht & Ha & Hd & He).
  set (rep1 := fold_left collect_batch completed rep0) in *.
  destruct (tally_fold (results rep1) rep1) as (Ha' & Hd' & He' & Hr' & Ht').
  set (rep2 := fold_left tally_result (results rep1) rep1) in *.
  simpl in Ha, Hd, He.
  rewrite Ha', Hd', He', Hr', Ha, Hd, He. simpl.
  rewrite breakdown_is_counting.
  destruct (counting_loop (List.map click_status (results rep1)) [])
    as (Hget & Hw & _ & _).
  rewrite !Hw, Hget. simpl. unfold count_where, occurrences.
  rewrite !filter_map_length.
  split; [reflexivity|]. split.
  - f_equal. apply List.filter_ext. intros r. unfold is_dead. apply String.eqb_sym.
  - reflexivity.
Qed.

(** ** [_get_most_common_classes] *)

Lemma insert_by_count_perm x l : Permutation (insert_by_count x l) (x :: l).
Proof.
  induction l as [|y l IH]; simpl.
  - reflexivity.
  - destruct (snd y <=? snd x)%nat.
    + reflexivity.
    + rewrite IH. apply perm_swap.
Qed.

Lemma sorted_by_count_perm l : Permutation (sorted_by_count l) l.
Proof.
  induction l as [|x l IH]; simpl.
  - reflexivity.
  - rewrite insert_by_count_perm. now constructor.
Qed.

Lemma insert_by_count_sorted x l :
  StronglySorted count_ge l -> StronglySorted count_ge (insert_by_count x l).
Proof.
  induction 1 as [|y l Hs IH Hall]; simpl.
  - repeat constructor.
  - destruct (Nat.leb_spec (snd y) (snd x)) as [Hle|Hgt].
    + constructor; [now constructor|].
      constructor; [exact Hle|].
      eapply List.Forall_impl; [|exact Hall].
      unfold count_ge. intros; lia.
    + constructor; [exact IH|].
      eapply Permutation_Forall; [symmetry; apply insert_by_count_perm|].
      constructor; [unfold count_ge; lia | exact Hall].
Qed.

Lemma sorted_by_count_sorted l : StronglySorted count_ge (sorted_by_count l).
Proof.
  induction l as [|x l IH]; simpl.
  - constructor.
  - now apply insert_by_count_sorted.
Qed.

Lemma strongly_sorted_across {A} (R : A -> A -> Prop) (l1 l2 : list A) :
  StronglySorted R (l1 ++ l2) ->
  StronglySorted R l1 /\ forall a b, In a l1 -> In b l2 -> R a b.
Proof.
  induction l1 as [|x l1 IH]; simpl; intros Hs.
  - split; [constructor|]. intros a b [].
  - inversion Hs as [|? ? Hs' Hall]; subst.
    destruct (IH Hs') as [Hs1 Hacross]. split.
    + constructor; [exact Hs1|].
      apply List.Forall_app in Hall. apply Hall.
    + intros a b [<-|Ha] Hb.
      * rewrite List.Forall_forall in Hall. apply Hall.
        apply List.in_or_app. now right.
      * now apply Hacross.
Qed.

Lemma count_classes_all_keyed (results : list TestResult) (d : Counts) :
  List.Forall (fun r => is_Some (class_names (element_info r))) results ->
  count_classes results d = inr (fold_left counts_incr (class_tokens results) d).
Proof.
  intros Hall. revert d. induction Hall as [|r rest [c Hc] Hrest IH]; intros d; simpl.
  - reflexivity.
  - unfold class_tokens. simpl. rewrite Hc. simpl.
    rewrite List.fold_left_app. rewrite IH. unfold class_tokens.
    destruct c; simpl; reflexivity.
Qed.

Lemma count_classes_missing_key (results : list TestResult) (d : Counts) :
  List.Exists (fun r => class_names (element_info r) = None) results ->
  exists e, count_classes results d = inl e /\ exn_class e = KeyError.
Proof.
  intros Hex. revert d. induction results as [|r rest IH]; intros d.
  - inversion Hex.
  - simpl. destruct (class_names (element_info r)) as [c|] eqn:Hc.
    + apply IH. inversion Hex as [? ? Hhere|? ? Hlater]; subst; [congruence|exact Hlater].
    + eexists. split; reflexivity.
Qed.

(** X19.  When every result's descriptor has a class_names key, the
    function returns at most ten (class, count) pairs with distinct
    classes, in descending order of count, each count being the number of
    occurrences of the class token over all results; a class that is left
    out occurs no more often than any listed one, and only when ten are
    listed.  A descriptor without class_names makes it raise KeyError. *)
Theorem most_common_classes_top_ten (results : list TestResult) :
  (List.Forall (fun r => is_Some (class_names (element_info r))) results ->
   exists top,
     _get_most_common_classes results = inr top
     /\ (length top <= 10)%nat
     /\ StronglySorted count_ge top
     /\ List.NoDup (List.map fst top)
     /\ (forall c n, In (c, n) top ->
           n = occurrences c (class_tokens results) /\ (1 <= n)%nat)
     /\ (forall c, In c (class_tokens results) -> ~ In c (List.map fst top) ->
           length top = 10%nat
           /\ forall c' n', In (c', n') top ->
                (occurrences c (class_tokens results) <= n')%nat))
  /\ (List.Exists (fun r => class_names (element_info r) = None) results ->
      exists e, _get_most_common_classes results = inl e /\ exn_class e = KeyError).
Proof.
  split.
  - intros Hall. unfold _get_most_common_classes.
    rewrite (count_classes_all_keyed results [] Hall).
    set (tokens := class_tokens results).
    destruct (counting_loop tokens []) as (Hget & _ & Hnd & Hkeys).
    set (d := fold_left counts_incr tokens []) in *.
    assert (Hndd : List.NoDup (List.map fst d)) by (apply Hnd; constructor).
    pose proof (sorted_by_count_perm d) as Hperm.
    pose proof (sorted_by_count_sorted d) as Hsorted.
    set (sorted := sorted_by_count d) in *.
    assert (Hsplit : sorted = firstn 10 sorted ++ skipn 10 sorted)
      by (symmetry; apply List.firstn_skipn).
    rewrite Hsplit in Hsorted. apply strongly_sorted_across in Hsorted as [Htop Hacross].
    assert (Hndsorted : List.NoDup (List.map fst sorted)).
    { eapply Permutation_NoDup; [|exact Hndd]. symmetry. now apply Permutation_map. }
    assert (Hentry : forall c n, In (c, n) sorted -> n = occurrences c tokens).
    { intros c n Hin. eapply Permutation_in in Hin; [|exact Hperm].
      rewrite <- (counts_entry_get d c n Hndd Hin). rewrite Hget. reflexivity. }
    exists (firstn 10 sorted). split; [reflexivity|].
    split; [apply List.firstn_le_length|]. split; [exact Htop|]. split.
    { rewrite Hsplit, List.map_app in Hndsorted.
      now apply List.NoDup_app_remove_r in Hndsorted. }
    split.
    + intros c n Hin.
      assert (Hin' : In (c, n) sorted) by (rewrite Hsplit; apply List.in_or_app; now left).
      split; [now apply Hentry|].
      assert (Hkey : In c (List.map fst d)).
      { apply List.in_map_iff. exists (c, n). split; [reflexivity|].
        eapply Permutation_in; [exact Hperm|exact Hin']. }
      apply Hkeys in Hkey as [[]|Hkey].
      rewrite (Hentry c n Hin'). unfold occurrences.
      apply List.in_split in Hkey as (l1 & l2 & ->).
      rewrite List.filter_app, List.length_app. simpl. rewrite String.eqb_refl. simpl. lia.
    + intros c Hc Hnot.
      assert (Hkey : In c (List.map fst d)) by (apply Hkeys; now right).
      apply List.in_map_iff in Hkey as ([c0 n] & Hfst & Hin). simpl in Hfst. subst c0.
      assert (Hin' : In (c, n) sorted).
      { eapply Permutation_in; [symmetry; exact Hperm|exact Hin]. }
      rewrite Hsplit in Hin'. apply List.in_app_or in Hin' as [Hin'|Hin'].
      { exfalso. apply Hnot. apply List.in_map_iff. exists (c, n). auto. }
      split.
      * destruct (Nat.le_gt_cases 10 (length sorted)) as [Hlen|Hlen].
        -- apply List.firstn_length_le. exact Hlen.
        -- rewrite List.skipn_all2 in Hin' by lia. contradiction.
      * intros c' n' Hin''. specialize (Hacross (c', n') (c, n) Hin'' Hin').
        unfold count_ge in Hacross. simpl in Hacross.
        assert (Hn : n = occurrences c tokens).
        { apply Hentry. rewrite Hsplit. apply List.in_or_app. now right. }
        lia.
  - intros Hex. unfold _get_most_common_classes.
    destruct (count_classes_missing_key results [] Hex) as (e & He & Hk).
    rewrite He. eauto.
Qed.

(** ** The number of batches *)

Lemma divide_into_batches_shape {A} (elements : list A) (num_batches : nat) :
  (1 <= num_batches)%nat ->
  exists batches,
    _divide_elements_into_batches elements num_batches = Some batches
    /\ concat batches = elements
    /\ length batches = Nat.min (length elements) num_batches
    /\ List.Forall (fun b => b <> []) batches
    /\ (forall b b', In b batches -> In b' batches -> (length b <= length b' + 1)%nat).
Proof.
  intros Hw.
  pose proof (divide_into_batches_run elements num_batches Hw) as Hrun.
  set (n := length elements) in *.
  set (q := (n / num_batches)%nat) in *. set (r := (n mod num_batches)%nat) in *.
  assert (Hr : (r < num_batches)%nat) by (apply Nat.mod_upper_bound; lia).
  assert (Hlen : length elements = (num_batches * q + r)%nat) by (apply Nat.div_mod_eq).
  set (k := kept_batches q r num_batches) in *.
  assert (Hkept : (k <= num_batches)%nat).
  { unfold k, kept_batches. destruct (q =? 0)%nat; lia. }
  assert (Hsize : forall i, (i < k)%nat ->
            length (nth_batch elements q r i) = (q + (if (i <? r)%nat then 1 else 0))%nat).
  { intros i Hi. unfold nth_batch. rewrite slice_length.
    - rewrite batch_start_S. lia.
    - apply batch_start_mono. lia.
    - rewrite Hlen. transitivity (batch_start q r num_batches).
      + apply batch_start_mono. lia.
      + unfold batch_start. lia. }
  eexists. split; [exact Hrun|]. split; [|split; [|split]].
  - rewrite concat_nth_batches.
    assert (Hall : batch_start q r k = length elements).
    { unfold k, kept_batches, batch_start. destruct (Nat.eqb_spec q 0); subst; nia. }
    rewrite Hall. apply List.firstn_all.
  - rewrite List.length_map, List.length_seq. fold n in Hlen.
    unfold k, kept_batches. destruct (Nat.eqb_spec q 0) as [Hq|Hq]; nia.
  - apply List.Forall_forall. intros b Hb.
    apply List.in_map_iff in Hb as (i & <- & Hi). apply List.in_seq in Hi.
    intros Hnil. assert (Hl := Hsize i ltac:(lia)). rewrite Hnil in Hl. simpl in Hl.
    unfold k, kept_batches in Hi.
    destruct (Nat.eqb_spec q 0) as [Hq|Hq]; destruct (Nat.ltb_spec i r); lia.
  - intros b b' Hb Hb'.
    apply List.in_map_iff in Hb as (i & <- & Hi). apply List.in_seq in Hi.
    apply List.in_map_iff in Hb' as (j & <- & Hj). apply List.in_seq in Hj.
    rewrite !Hsize by lia.
    destruct (i <? r)%nat, (j <? r)%nat; lia.
Qed.

(** X11.  For a positive number of workers W there are min(N, W)
    batches for N elements, none of them empty, and any two batch sizes
    differ by at most one. *)
Theorem divide_into_batches_count {A} (elements : list A) (num_batches : nat) :
  (1 <= num_batches)%nat ->
  exists batches,
    _divide_elements_into_batches elements num_batches = Some batches
    /\ length batches = Nat.min (length elements) num_batches
    /\ List.Forall (fun b => b <> []) batches
    /\ (forall b b', In b batches -> In b' batches -> (length b <= length b' + 1)%nat).
Proof.
  intros Hw. destruct (divide_into_batches_shape elements num_batches Hw)
    as (batches & Hrun & _ & Hlen & Hne & Hbal).
  exists batches. auto.
Qed.

(** ** The concurrent run *)

Section ConcurrentRun.
Context {W H : Type}.
Variable driver : Driver W H.
Variable md5_hexdigest : string -> string.

Lemma test_element_batch_one_each {L} batch batch_id url (l0 : L) (s0 : Session W H) :
  exists results s,
    _test_element_batch driver md5_hexdigest batch batch_id url l0 s0 = (inr results, l0, s)
    /\ List.map element_info results = batch.
Proof.
  destruct (batch_loop_one_each driver md5_hexdigest url batch [] s0)
    as (results & s & Hloop & Hall).
  exists results, s. split.
  - unfold _test_element_batch. unfold Py.bind at 1. unfold Py.with_local.
    rewrite Hloop. reflexivity.
  - clear Hloop. induction Hall as [|info r batch results Hr Hall IH]; simpl.
    + reflexivity.
    + now rewrite Hr, IH.
Qed.

Lemma submit_batches_runs url (batches : list (list Descriptor))
    (driver_pool : list (Session W H)) (i : nat) :
  (i + length batches <= length driver_pool)%nat ->
  exists futures,
    submit_batches driver md5_hexdigest url batches driver_pool i = Some futures
    /\ List.Forall2 (fun batch future =>
         exists results, future = inr results /\ List.map element_info results = batch)
       batches futures.
Proof.
  revert i. induction batches as [|batch rest IH]; intros i Hlen; simpl in *.
  - exists []. split; [reflexivity|constructor].
  - destruct (driver_pool !! i) as [s|] eqn:Hs.
    2:{ apply lookup_ge_None in Hs. lia. }
    destruct (IH (S i)) as (futures & Hrun & Hall); [lia|].
    rewrite Hrun.
    destruct (test_element_batch_one_each batch (i + 1) url tt s) as (results & s' & Ht & Hm).
    eexists. split; [reflexivity|].
    constructor; [|exact Hall].
    exists results. rewrite Ht. auto.
Qed.

End ConcurrentRun.

Lemma omap_lookup_from {A} (pre l : list A) :
  omap (fun i => (pre ++ l) !! i) (seq (length pre) (length l)) = l.
Proof.
  revert pre. induction l as [|x l IH]; intros pre; simpl.
  - reflexivity.
  - rewrite lookup_app_r by lia. rewrite Nat.sub_diag. simpl. f_equal.
    specialize (IH (pre ++ [x])).
    rewrite <- List.app_assoc, List.length_app in IH. simpl in IH.
    rewrite Nat.add_1_r in IH. exact IH.
Qed.

Lemma omap_lookup_seq {A} (l : list A) :
  omap (fun i => l !! i) (seq 0 (length l)) = l.
Proof. apply (omap_lookup_from [] l). Qed.

Lemma count_classes_error (results : list TestResult) (d : Counts) e :
  count_classes results d = inl e -> exn_str e = "'class_names'".
Proof.
  revert d. induction results as [|r rest IH]; intros d; simpl.
  - discriminate.
  - destruct (class_names (element_info r)).
    + apply IH.
    + intros [= <-]. reflexivity.
Qed.

Lemma breakdown_total (results : list TestResult) :
  counts_total (_get_click_status_breakdown results) = length results.
Proof.
  rewrite breakdown_is_counting.
  destruct (counting_loop (List.map click_status results) []) as (_ & Hw & _ & _).
  unfold counts_total. rewrite Hw. simpl.
  rewrite filter_map_length.
  clear. induction results as [|r rest IH]; simpl; [reflexivity|now f_equal].
Qed.

Lemma collected_results_of_futures (batches : list (list Descriptor))
    (futures : list (Exn + list TestResult)) :
  List.Forall2 (fun batch future =>
     exists results, future = inr results /\ List.map element_info results = batch)
    batches futures ->
  List.map element_info (collected_results futures) = concat batches.
Proof.
  induction 1 as [|batch future batches futures (results & -> & Hm) Hall IH]; simpl.
  - reflexivity.
  - unfold collected_results in *. simpl. rewrite List.map_app, Hm, IH. reflexivity.
Qed.

Section ConcurrentReport.
Context {W H : Type}.
Variable driver : Driver W H.
Variable md5_hexdigest : string -> string.

(** X16.  With a non-empty driver pool, whatever the order in which the
    batches complete: if every discovered descriptor has a class_names
    key, the run returns a report whose results are the discovered
    elements, each tested exactly once, with elements_tested =
    total_elements_found = active + dead + errors and min(N, W) batches;
    the only error the run can end in is the KeyError 'class_names' of the
    summary, and only when some descriptor lacks that key. *)
Theorem concurrent_run_tests_every_element (url : string)
    (clickable_elements : list Descriptor) (driver_pool : list (Session W H))
    (completion_order : list nat) :
  driver_pool <> [] ->
  Permutation completion_order
    (seq 0 (Nat.min (length clickable_elements) (length driver_pool))) ->
  (List.Forall (fun d => is_Some (class_names d)) clickable_elements ->
   exists report summary,
     concurrent_test_report driver md5_hexdigest url clickable_elements driver_pool
       completion_order = inr (report, summary)
     /\ Permutation (List.map element_info (results report)) clickable_elements
     /\ total_elements_found report = length clickable_elements
     /\ elements_tested report = length clickable_elements
     /\ (active_clicks report + dead_clicks report + errors report)%nat
        = length clickable_elements
     /\ batches_created report = Nat.min (length clickable_elements) (length driver_pool)
     /\ total_tested summary = length clickable_elements
     /\ counts_total (click_status_breakdown summary) = length clickable_elements)
  /\ (forall message,
        concurrent_test_report driver md5_hexdigest url clickable_elements driver_pool
          completion_order = inl message ->
        message = "'class_names'"
        /\ List.Exists (fun d => class_names d = None) clickable_elements).
Proof.
  intros Hpool Hperm.
  assert (Hw : (1 <= length driver_pool)%nat).
  { destruct driver_pool; [contradiction|simpl; lia]. }
  destruct (divide_into_batches_shape clickable_elements (length driver_pool) Hw)
    as (batches & Hdiv & Hconcat & Hlen & _ & _).
  destruct (submit_batches_runs driver md5_hexdigest url batches driver_pool 0)
    as (futures & Hsub & Hall); [simpl; lia|].
  assert (Hflen : length futures = length batches)
    by (symmetry; eapply List.Forall2_length; exact Hall).
  set (completed := omap (fun i => futures !! i) completion_order).
  assert (Hcompleted : Permutation completed futures).
  { unfold completed. rewrite Hperm, <- Hlen, <- Hflen. now rewrite omap_lookup_seq. }
  set (report := aggregate url clickable_elements batches completed).
  assert (Hrun : concurrent_test_report driver md5_hexdigest url clickable_elements
                   driver_pool completion_order
                 = match generate_summary report with
                   | inl e => inl (exn_str e)
                   | inr summary => inr (report, summary)
                   end).
  { unfold concurrent_test_report. destruct driver_pool; [contradiction|].
    rewrite Hdiv, Hsub. reflexivity. }
  assert (Hreport : results report = collected_results completed
                    /\ elements_tested report = length (results report)
                    /\ (active_clicks report + dead_clicks report + errors report)%nat
                       = length (results report)
                    /\ total_elements_found report = length clickable_elements
                    /\ batches_created report = length batches).
  { unfold report, aggregate.
    set (rep0 := empty_report url clickable_elements batches).
    destruct (collect_fold completed rep0) as (Hr & Ht & Ha & Hd & He).
    set (rep1 := fold_left collect_batch completed rep0) in *.
    destruct (tally_fold (results rep1) rep1) as (Ha' & Hd' & He' & Hr' & Ht').
    set (rep2 := fold_left tally_result (results rep1) rep1) in *.
    simpl in Hr, Ht, Ha, Hd, He.
    pose proof (count_partition (results rep1)) as Hsum.
    rewrite Hr', Ha', Hd', He', Ht', Ha, Hd, He, Ht, Hr.
    split; [reflexivity|]. split; [reflexivity|]. split; [rewrite <- Hr; lia|].
    assert (Hkeep : forall l rep,
              total_elements_found (fold_left tally_result l rep) = total_elements_found rep
              /\ batches_created (fold_left tally_result l rep) = batches_created rep).
    { clear. induction l as [|r l IH]; intros rep; simpl; [auto|].
      destruct (IH (tally_result rep r)) as [-> ->]. unfold tally_result.
      destruct (PyStr.startswith _ _); [auto|]. destruct (String.eqb _ _); auto. }
    assert (Hkeep' : forall l rep,
              total_elements_found (fold_left collect_batch l rep) = total_elements_found rep
              /\ batches_created (fold_left collect_batch l rep) = batches_created rep).
    { clear. induction l as [|o l IH]; intros rep; simpl; [auto|].
      destruct (IH (collect_batch rep o)) as [-> ->]. destruct o; auto. }
    unfold rep2. destruct (Hkeep (results rep1) rep1) as [-> ->].
    unfold rep1. destruct (Hkeep' completed rep0) as [-> ->]. auto. }
  destruct Hreport as (Hres & Htested & Hsum & Hfound & Hcreated).
  assert (Hinfos : Permutation (List.map element_info (results report)) clickable_elements).
  { rewrite Hres. rewrite <- Hconcat.
    rewrite <- (collected_results_of_futures batches futures Hall).
    apply Permutation_map. unfold collected_results.
    apply Permutation_flat_map. exact Hcompleted. }
  assert (Hn : length (results report) = length clickable_elements).
  { rewrite <- (List.length_map element_info). now apply Permutation_length. }
  split.
  - intros Hkeyed.
    assert (Hkeyed' : List.Forall (fun r => is_Some (class_names (element_info r)))
                        (results report)).
    { apply List.Forall_forall. intros r Hr.
      rewrite List.Forall_forall in Hkeyed. apply Hkeyed.
      eapply Permutation_in; [exact Hinfos|]. now apply List.in_map. }
    rewrite Hrun. unfold generate_summary, _get_most_common_classes.
    rewrite (count_classes_all_keyed _ [] Hkeyed').
    eexists _, _. split; [reflexivity|]. simpl.
    rewrite breakdown_total. repeat split; try lia; auto.
  - intros message. rewrite Hrun. unfold generate_summary, _get_most_common_classes.
    destruct (count_classes (results report) []) as [e|d] eqn:Hc; [|discriminate].
    intros [= <-]. split; [eapply count_classes_error; exact Hc|].
    destruct (List.Forall_Exists_dec (fun d => is_Some (class_names d))
                (fun d => match class_names d as o return {is_Some o} + {~ is_Some o} with
                          | Some c => left (ex_intro _ c eq_refl)
                          | None => right (fun H0 => is_Some_None H0)
                          end) clickable_elements) as [Hall'|Hex].
    + exfalso.
      assert (Hkeyed' : List.Forall (fun r => is_Some (class_names (element_info r)))
                          (results report)).
      { apply List.Forall_forall. intros r Hr.
        rewrite List.Forall_forall in Hall'. apply Hall'.
        eapply Permutation_in; [exact Hinfos|]. now apply List.in_map. }
      rewrite (count_classes_all_keyed _ [] Hkeyed') in Hc. discriminate.
    + eapply List.Exists_impl; [|exact Hex]. intros d Hd. simpl in Hd.
      destruct (class_names d); [|reflexivity]. exfalso. apply Hd. eauto.
Qed.

End ConcurrentReport.

(** ** Extraction *)

Lemma take_length (n : nat) (s : string) : (String.length (PyStr.take n s) <= n)%nat.
Proof.
  unfold PyStr.take. revert s. induction n as [|n IH]; intros s.
  - destruct s; simpl; lia.
  - destruct s as [|c s]; simpl; [lia|]. specialize (IH s). lia.
Qed.

Lemma and_next_ok {A B} (e : Exn + A) (k : A -> Exn + B) b :
  and_next e k = inr b -> exists a, e = inr a /\ k a = inr b.
Proof. destruct e as [err|a]; simpl; [discriminate|eauto]. Qed.

Lemma read_text_length (rd : ElementReadings) t :
  read_text rd = inr t -> (String.length t <= 100)%nat.
Proof.
  unfold read_text. intros Hr. apply and_next_ok in Hr as (t0 & _ & Hr).
  destruct (PyStr.truthy t0).
  - apply and_next_ok in Hr as (t1 & _ & [= <-]). apply take_length.
  - injection Hr as <-. simpl. lia.
Qed.

Section ExtractionFacts.
Variable py_hash : string -> Z.
Variable urljoin : string -> string -> Exn + string.
Variable requests_head : string -> Exn + (list Z * Z).

(** The shape of a described element. *)
Lemma describe_element_shape rd url info :
  describe_element py_hash urljoin requests_head rd url = inr (Some info) ->
  exists tag text class_names element_id xpath css data_testid aria_label,
    let d := mkDescriptor (Some (PyStr.lower tag)) (Some text) (Some class_names)
               (Some element_id) None None (Some xpath) (Some css) (Some data_testid)
               (Some aria_label) None None in
    info_descriptor info = set_unique_id (create_unique_id py_hash d) d
    /\ rd_tag_name rd = inr tag
    /\ read_text rd = inr text
    /\ attr_or_empty (rd_class rd) = inr class_names
    /\ attr_or_empty (rd_id rd) = inr element_id
    /\ xpath = get_element_xpath (rd_xpath_script rd).
Proof.
  unfold describe_element. intros Hd.
  apply and_next_ok in Hd as (tag & Htag & Hd).
  apply and_next_ok in Hd as (text & Htext & Hd).
  apply and_next_ok in Hd as (class_names & Hclass & Hd).
  apply and_next_ok in Hd as (href & Hhref & Hd).
  apply and_next_ok in Hd as (element_id & Hid & Hd).
  apply and_next_ok in Hd as (role & Hrole & Hd).
  apply and_next_ok in Hd as (tabindex & Htab & Hd).
  apply and_next_ok in Hd as (onclick & Honclick & Hd).
  apply and_next_ok in Hd as (cursor & Hcursor & Hd).
  apply and_next_ok in Hd as (data_testid & Htestid & Hd).
  destruct (negb (is_clickable _ _ _ _ _)); [discriminate|].
  apply and_next_ok in Hd as (aria_label & Haria & Hd).
  apply and_next_ok in Hd as (alt & Halt & Hd).
  apply and_next_ok in Hd as (is_displayed & Hdisp & Hd).
  apply and_next_ok in Hd as (is_enabled & Hen & Hd).
  injection Hd as <-.
  exists tag, text, class_names, element_id, (get_element_xpath (rd_xpath_script rd)),
    (get_element_css_selector (rd_css_script rd)), data_testid, aria_label.
  cbv zeta. simpl. auto 10.
Qed.

Lemma extract_element_info_cases rd url (seen : gset Z) :
  (extract_element_info py_hash urljoin requests_head rd url seen = (None, seen))
  \/ exists info uid,
       extract_element_info py_hash urljoin requests_head rd url seen = (Some info, {[ uid ]} ∪ seen)
       /\ describe_element py_hash urljoin requests_head rd url = inr (Some info)
       /\ unique_id (info_descriptor info) = Some uid
       /\ uid ∉ seen.
Proof.
  unfold extract_element_info.
  destruct (describe_element py_hash urljoin requests_head rd url) as [e|[info|]] eqn:Hd; auto.
  destruct (unique_id (info_descriptor info)) as [uid|] eqn:Hu; auto.
  destruct (bool_decide (uid ∈ seen)) eqn:Hin; auto.
  right. exists info, uid. apply bool_decide_eq_false in Hin. auto.
Qed.

Lemma extracted_fingerprint_is_new rd url (seen seen' : gset Z) info :
  extract_element_info py_hash urljoin requests_head rd url seen = (Some info, seen') ->
  unique_id (info_descriptor info)
  = Some (create_unique_id py_hash (info_descriptor info))
  /\ (create_unique_id py_hash (info_descriptor info) ∉ seen)
  /\ seen' = {[ create_unique_id py_hash (info_descriptor info) ]} ∪ seen.
Proof.
  intros Hex.
  destruct (extract_element_info_cases rd url seen) as [Hnone|(info' & uid & Hsome & Hd & Hu & Hnew)].
  { rewrite Hnone in Hex. discriminate. }
  rewrite Hsome in Hex. injection Hex as -> <-.
  destruct (describe_element_shape rd url info Hd)
    as (tag & text & class_names & element_id & xpath & css & data_testid & aria_label & Hshape).
  cbv zeta in Hshape. destruct Hshape as (Hdesc & _).
  rewrite Hdesc in *. simpl in *. injection Hu as <-. auto.
Qed.

(** X1.  A dict returned by [extract_element_info] has no 'href' and no
    'onclick' key, so [is_dead_click_by_href] holds of it.  Its tag name is
    lower-cased, its text has at most 100 characters, and its fingerprint
    is [create_unique_id] of the dict, was not in [seen_elements] before
    and is the one value added to it. *)
Theorem extracted_descriptor_is_suspicious rd url (seen seen' : gset Z) info :
  extract_element_info py_hash urljoin requests_head rd url seen = (Some info, seen') ->
  let d := info_descriptor info in
  href d = None /\ onclick d = None
  /\ is_dead_click_by_href d = true
  /\ unique_id d = Some (create_unique_id py_hash d)
  /\ (create_unique_id py_hash d ∉ seen)
  /\ seen' = {[ create_unique_id py_hash d ]} ∪ seen
  /\ (exists tag, rd_tag_name rd = inr tag /\ tag_name d = Some (PyStr.lower tag))
  /\ (exists t, text d = Some t /\ (String.length t <= 100)%nat).
Proof.
  intros Hex.
  destruct (extract_element_info_cases rd url seen) as [Hnone|(info' & uid & Hsome & Hd & Hu & Hnew)].
  { rewrite Hnone in Hex. discriminate. }
  rewrite Hsome in Hex. injection Hex as -> <-.
  destruct (describe_element_shape rd url info Hd)
    as (tag & text & class_names & element_id & xpath & css & data_testid & aria_label & Hshape).
  cbv zeta in Hshape. destruct Hshape as (Hdesc & Htag & Htext & _).
  cbv zeta. rewrite Hdesc in *. simpl in *. injection Hu as <-.
  repeat split; try reflexivity; auto.
  - exists tag. auto.
  - exists text. split; [reflexivity|]. eapply read_text_length; eauto.
Qed.

(** X2.  Over a run of [extract_element_info] calls that share one set of
    seen fingerprints, the returned dicts carry pairwise different
    fingerprints, none of which was in the set before; afterwards the set
    is the old one plus exactly these fingerprints, and at most one dict is
    returned per element. *)
Theorem extract_all_fingerprints (rds : list ElementReadings) url (seen : gset Z) :
  let infos := (extract_all py_hash urljoin requests_head rds url seen).1 in
  let seen' := (extract_all py_hash urljoin requests_head rds url seen).2 in
  let ids := List.map (fun i => create_unique_id py_hash (info_descriptor i)) infos in
  List.Forall (fun i => unique_id (info_descriptor i)
                        = Some (create_unique_id py_hash (info_descriptor i))) infos
  /\ List.NoDup ids
  /\ (forall u, In u ids -> u ∉ seen)
  /\ (forall u, u ∈ seen' <-> u ∈ seen \/ In u ids)
  /\ (length infos <= length rds)%nat.
Proof.
  cbv zeta. revert seen. induction rds as [|rd rest IH]; intros seen.
  - simpl. split; [constructor|]. split; [constructor|]. split; [intros u []|].
    split; [tauto|lia].
  - cbn [extract_all].
    destruct (extract_element_info py_hash urljoin requests_head rd url seen) as [o seen1] eqn:Hone.
    specialize (IH seen1).
    destruct (extract_all py_hash urljoin requests_head rest url seen1) as [more seen2] eqn:Hrest.
    simpl in IH. destruct IH as (Hids & Hnd & Hfresh & Hseen & Hlen).
    destruct o as [info|].
    + pose proof (extracted_fingerprint_is_new rd url seen seen1 info Hone)
        as (Hu & Hnew & ->).
      simpl. split; [constructor; assumption|]. split.
      * constructor; [|exact Hnd]. intros Hin. apply Hfresh in Hin.
        apply Hin, elem_of_union. left. now apply elem_of_singleton.
      * split; [|split; [|lia]].
        -- intros u [<-|Hin]; [exact Hnew|]. apply Hfresh in Hin.
           intros Hs. apply Hin, elem_of_union. now right.
        -- intros u. rewrite Hseen, elem_of_union, elem_of_singleton.
           split; intros Hu'; intuition congruence.
    + assert (seen1 = seen) as ->.
      { destruct (extract_element_info_cases rd url seen)
          as [Hnone|(info' & uid & Hsome & _)]; congruence. }
      simpl. split; [exact Hids|]. split; [exact Hnd|]. split; [exact Hfresh|].
      split; [exact Hseen|lia].
Qed.

(** The shape of a hidden element's dict. *)
Lemma hidden_shape rd url info :
  extract_element_info_for_hidden py_hash urljoin requests_head rd url = Some info ->
  exists tag text class_names element_id href onclick data_testid aria_label,
    let d := mkDescriptor (Some tag) (Some text) (Some class_names)
               (Some element_id) (Some href) (Some onclick)
               (Some (get_element_xpath (rd_xpath_script rd))) None (Some data_testid)
               (Some aria_label) (Some true) None in
    info_descriptor info = set_unique_id (create_unique_id py_hash d) d
    /\ info_is_displayed info = true
    /\ rd_tag_name rd = inr tag
    /\ read_text rd = inr text
    /\ attr_or_empty (rd_class rd) = inr class_names
    /\ attr_or_empty (rd_id rd) = inr element_id
    /\ rd_save_style rd = inr tt
    /\ rd_restore_style rd = inr tt.
Proof.
  unfold extract_element_info_for_hidden. cbv zeta.
  match goal with |- match ?b with _ => _ end = _ -> _ => destruct b as [e|i] eqn:Hd end;
    [discriminate|].
  intros [= ->].
  apply and_next_ok in Hd as ([] & Hsave & Hd).
  apply and_next_ok in Hd as (href & Hhref & Hd).
  apply and_next_ok in Hd as (tag & Htag & Hd).
  apply and_next_ok in Hd as (text & Htext & Hd).
  apply and_next_ok in Hd as (class_names & Hclass & Hd).
  apply and_next_ok in Hd as (element_id & Hid & Hd).
  apply and_next_ok in Hd as (onclick & Honclick & Hd).
  apply and_next_ok in Hd as (role & Hrole & Hd).
  apply and_next_ok in Hd as (type & Htype & Hd).
  apply and_next_ok in Hd as (data_testid & Htestid & Hd).
  apply and_next_ok in Hd as (aria_label & Haria & Hd).
  apply and_next_ok in Hd as (size & Hsize & Hd).
  apply and_next_ok in Hd as (is_enabled & Hen & Hd).
  apply and_next_ok in Hd as ([] & Hrestore & Hd).
  injection Hd as <-.
  exists tag, text, class_names, element_id, href, onclick, data_testid, aria_label.
  cbv zeta. simpl. auto 10.
Qed.

Lemma lower_differs_components (tag : string) (rest : list string) :
  PyStr.lower tag <> tag ->
  tag :: rest <> PyStr.lower tag :: rest.
Proof. intros Hne [= Heq]. congruence. Qed.

(** X3.  When both extractors return a dict for the same element, the
    dicts agree on xpath, text, class names and id, and the hidden one is
    marked displayed and as a carousel element.  The fingerprints agree
    when the element's tag name is already lower case; otherwise the
    fingerprint components differ, because only [extract_element_info]
    lower-cases the tag name. *)
Theorem hidden_and_regular_fingerprints rd url (seen seen' : gset Z) hidden regular tag :
  extract_element_info_for_hidden py_hash urljoin requests_head rd url = Some hidden ->
  extract_element_info py_hash urljoin requests_head rd url seen = (Some regular, seen') ->
  rd_tag_name rd = inr tag ->
  let h := info_descriptor hidden in
  let r := info_descriptor regular in
  xpath h = xpath r /\ text h = text r /\ class_names h = class_names r /\ el_id h = el_id r
  /\ info_is_displayed hidden = true
  /\ is_carousel_element h = Some true /\ is_carousel_element r = None
  /\ (PyStr.lower tag = tag -> unique_id h = unique_id r)
  /\ (PyStr.lower tag <> tag ->
      fingerprint_components h <> fingerprint_components r).
Proof.
  intros Hh Hr Htag.
  destruct (hidden_shape rd url hidden Hh)
    as (tag1 & text1 & class1 & id1 & href1 & onclick1 & testid1 & aria1 & Hshape).
  cbv zeta in Hshape.
  destruct Hshape as (Hd1 & Hdisp & Htag1 & Htext1 & Hclass1 & Hid1 & _).
  destruct (extract_element_info_cases rd url seen)
    as [Hnone|(info' & uid & Hsome & Hd & Hu & Hnew)]; [congruence|].
  rewrite Hsome in Hr. injection Hr as -> <-.
  destruct (describe_element_shape rd url regular Hd)
    as (tag2 & text2 & class2 & id2 & xpath2 & css2 & testid2 & aria2 & Hshape).
  cbv zeta in Hshape. destruct Hshape as (Hd2 & Htag2 & Htext2 & Hclass2 & Hid2 & ->).
  assert (tag1 = tag) by congruence. assert (tag2 = tag) by congruence.
  assert (text1 = text2) by congruence. assert (class1 = class2) by congruence.
  assert (id1 = id2) by congruence. subst.
  cbv zeta. rewrite Hd1, Hd2. simpl.
  repeat split; auto.
  - intros Hlow. unfold create_unique_id, fingerprint_components. simpl.
    now rewrite Hlow.
  - intros Hne. unfold fingerprint_components. simpl.
    now apply lower_differs_components.
Qed.

End ExtractionFacts.

(** ** The xpath script and the nesting rule *)

Lemma prefix_append (p s : string) : String.prefix p (p ++ s) = true.
Proof.
  induction p as [|c p IH]; simpl.
  - now destruct s.
  - destruct (ascii_dec c c); [exact IH|contradiction].
Qed.

Lemma append_length (a b : string) :
  String.length (a ++ b) = (String.length a + String.length b)%nat.
Proof. induction a as [|c a IH]; simpl; [reflexivity|now rewrite IH]. Qed.

Lemma lower_ascii_slash (a : ascii) :
  Ascii.eqb (PyStr.lower_ascii a) "/" = Ascii.eqb a "/".
Proof. destruct a as [[] [] [] [] [] [] [] []]; reflexivity. Qed.

Lemma count_lower_slash (s : string) :
  PyStr.count (PyStr.lower s) "/" = PyStr.count s "/".
Proof.
  induction s as [|a s IH]; simpl; [reflexivity|].
  now rewrite lower_ascii_slash, IH.
Qed.

Lemma count_digits_slash (d : Decimal.uint) :
  PyStr.count (NilEmpty.string_of_uint d) "/" = 0%nat.
Proof. induction d; simpl; auto. Qed.

Lemma count_decimal_slash (n : nat) : PyStr.count (decimal n) "/" = 0%nat.
Proof.
  unfold decimal, NilZero.string_of_uint.
  destruct (Nat.to_uint n) eqn:Hd; try reflexivity; rewrite <- Hd || idtac;
    apply count_digits_slash.
Qed.

Lemma getXPath_nonempty (element : Located) : PyStr.truthy (getXPath element) = true.
Proof.
  destruct element as [id|tagName id before parentNode]; simpl.
  - destruct (negb (String.eqb id "")); reflexivity.
  - destruct (negb (String.eqb id "")); [reflexivity|].
    destruct (getXPath parentNode); reflexivity.
Qed.

Lemma getXPath_by_path (element : Located) :
  located_by_path element = true ->
  exists rest, getXPath element = String "/" (String "h" rest).
Proof.
  induction element as [id|tagName id before parentNode IH]; simpl.
  - intros ->. simpl. eauto.
  - intros Hp. apply andb_true_iff in Hp as [-> Hp]. simpl.
    destruct (IH Hp) as (rest & ->). simpl. eauto.
Qed.

(** X5.  For an element without an id, the xpath the script computes is
    the parent's xpath plus one segment: it starts with the parent's xpath,
    differs from it and has exactly one more '/'.  For such a pair the
    nesting test of [advanced_deduplication] reduces to: special container
    class on the parent, or same non-empty text, or same non-empty class
    string. *)
Theorem xpath_of_child_extends_parent (tagName : string) (before : list Sibling)
    (parentNode : Located) :
  PyStr.count tagName "/" = 0%nat ->
  let child_xpath := getXPath (Child tagName "" before parentNode) in
  let parent_xpath := getXPath parentNode in
  PyStr.startswith child_xpath parent_xpath = true
  /\ child_xpath <> parent_xpath
  /\ PyStr.count child_xpath "/" = (PyStr.count parent_xpath "/" + 1)%nat
  /\ forall parent child : Descriptor,
       xpath parent = Some parent_xpath -> xpath child = Some child_xpath ->
       nested_duplicate parent child
       = PyStr.contains special_container_class (get_str (class_names parent))
         || same_nonempty (text parent) (text child)
         || same_nonempty (class_names parent) (class_names child).
Proof.
  intros Htag. cbv zeta. cbn [getXPath String.eqb negb].
  set (p := getXPath parentNode).
  set (step := ("/" ++ PyStr.lower tagName ++ "["
                  ++ decimal (same_tag_before tagName before + 1) ++ "]")%string).
  assert (Hstarts : PyStr.startswith (p ++ step)%string p = true) by apply prefix_append.
  assert (Hne : (p ++ step)%string <> p).
  { intros Heq. apply (f_equal String.length) in Heq.
    rewrite append_length in Heq. unfold step in Heq. simpl in Heq. lia. }
  assert (Hcount : PyStr.count (p ++ step)%string "/" = (PyStr.count p "/" + 1)%nat).
  { rewrite count_app. f_equal. unfold step. simpl.
    rewrite !count_app, count_lower_slash, Htag, count_decimal_slash. reflexivity. }
  split; [exact Hstarts|]. split; [exact Hne|]. split; [exact Hcount|].
  intros parent child Hp Hc. unfold nested_duplicate. rewrite Hp, Hc. simpl.
  fold p. fold step. rewrite Hstarts, Hcount, Nat.eqb_refl.
  assert (Hpt : PyStr.truthy p = true) by apply getXPath_nonempty.
  assert (Hct : PyStr.truthy (p ++ step)%string = true).
  { destruct p; [discriminate|reflexivity]. }
  rewrite Hpt, Hct.
  destruct (String.eqb_spec (p ++ step)%string p) as [Heq|_]; [contradiction|].
  simpl. rewrite !andb_true_r.
  now rewrite orb_assoc.
Qed.

(** X6.  An element with a non-empty id gets an xpath by id, which does
    not start with the path of a parent located by position from
    /html/body: such a child is never a nested duplicate of that parent,
    whatever their texts and classes. *)
Theorem child_with_id_is_not_nested (tagName id : string) (before : list Sibling)
    (parentNode : Located) (parent child : Descriptor) :
  id <> "" ->
  located_by_path parentNode = true ->
  xpath parent = Some (getXPath parentNode) ->
  xpath child = Some (getXPath (Child tagName id before parentNode)) ->
  nested_duplicate parent child = false.
Proof.
  intros Hid Hpath Hp Hc.
  destruct (getXPath_by_path parentNode Hpath) as (rest & Hrest).
  unfold nested_duplicate. rewrite Hp, Hc. cbn [getXPath].
  destruct (String.eqb_spec id "") as [->|_]; [contradiction|].
  cbn [negb]. rewrite Hrest. simpl.
  rewrite !andb_false_r. reflexivity.
Qed.

(** ** Flags and statuses of a click test *)

Section FlagFacts.
Context {W H : Type}.
Variable driver : Driver W H.
Variable md5_hexdigest : string -> string.

Local Abbreviation flags_kept := (@keeping W H TestResult unflagged).

Lemma flags_kept_call (l : TestResult) (s : Session W H) (c : Call H) (w : W) :
  True -> flags_kept (l, s) (l, mkSession w (calls s ++ [c])).
Proof. intros _ Hl. exact Hl. Qed.

Lemma flags_kept_update (f : TestResult -> TestResult) :
  (forall r, unflagged r -> unflagged (f r)) -> follows flags_kept (Py.update f).
Proof. intros Hf l s Hl. simpl in *. now apply Hf. Qed.

Local Ltac kept_by_steps lemma :=
  apply lemma with (allowed := fun _ => True);
  first [typeclasses eauto | apply flags_kept_call | (intros; exact I)].

Local Ltac kept :=
  repeat first
    [ apply follows_ret; typeclasses eauto
    | apply follows_raise; typeclasses eauto
    | apply follows_peek; typeclasses eauto
    | (apply flags_kept_update; intros r Hr; exact Hr)
    | kept_by_steps (@follows_current_url W H TestResult driver)
    | kept_by_steps (@follows_title W H TestResult driver)
    | kept_by_steps (@follows_sleep W H TestResult driver)
    | (apply follows_md5_of; typeclasses eauto)
    | kept_by_steps (@follows_displayed_and_enabled W H TestResult driver)
    | kept_by_steps (@follows_relocate W H TestResult driver)
    | kept_by_steps (@follows_prepare_click W H TestResult driver)
    | kept_by_steps (@follows_find_modals_and_dropdowns W H TestResult driver)
    | (apply follows_call with (allowed := fun _ => True);
         first [typeclasses eauto | apply flags_kept_call | exact I])
    | (apply follows_if)
    | (apply follows_try_except; [typeclasses eauto| |])
    | (apply follows_bind; [typeclasses eauto| |])
    | progress intros ].

Lemma flags_kept_snapshot : follows flags_kept (snapshot driver md5_hexdigest).
Proof. unfold snapshot, execute_script. kept. Qed.

Lemma flags_kept_perform_click el : follows flags_kept (perform_click driver el).
Proof. unfold perform_click, move_and_click, execute_script. kept. Qed.

Lemma flags_kept_observe before : follows flags_kept (observe driver md5_hexdigest before).
Proof.
  unfold observe.
  apply follows_bind; [typeclasses eauto| |unfold execute_script; kept].
  apply follows_try_except; [typeclasses eauto| |kept].
  unfold wait_until. apply follows_bind; [typeclasses eauto|kept|]. intros n.
  apply follows_wait_until_loop with (allowed := fun _ => True);
    [typeclasses eauto|apply flags_kept_call|auto|].
  unfold execute_script. kept.
Qed.

Lemma flags_kept_click_and_observe info :
  follows flags_kept (click_and_observe driver md5_hexdigest info).
Proof.
  unfold click_and_observe.
  apply follows_bind; [typeclasses eauto|apply flags_kept_snapshot|]. intros before.
  apply follows_bind; [typeclasses eauto|kept|]. intros el.
  unfold after_relocation. destruct el as [el|]; [|kept].
  apply follows_bind; [typeclasses eauto|kept|]. intros _.
  apply follows_bind; [typeclasses eauto|kept|]. intros clickable.
  apply follows_if; [kept|].
  apply follows_bind; [typeclasses eauto|apply flags_kept_perform_click|].
  intros [|]; [|kept].
  apply follows_bind; [typeclasses eauto|apply flags_kept_observe|]. kept.
Qed.

Lemma perform_click_returned el (r r' : TestResult) (s s' : Session W H) out :
  perform_click driver el r s = (out, r', s') ->
  out = inr Clicked \/ (out = inr Returned /\ In (click_status r') early_statuses).
Proof.
  unfold perform_click, Py.try_except, Py.bind, move_and_click, execute_script, Py.call,
    Py.update, Py.ret.
  destruct (drv_move_and_click driver el (world s)) as [[e|[]] w1]; simpl.
  - destruct (bool_decide (exn_class e = ElementClickInterceptedException)); simpl.
    + destruct (drv_execute_script driver js_click_script [el] w1) as [[e'|v] w2]; simpl.
      * intros [= <- <- <-]. right. split; [reflexivity|]. simpl. auto.
      * intros [= <- <- <-]. now left.
    + intros [= <- <- <-]. right. split; [reflexivity|]. simpl. auto.
  - intros [= <- <- <-]. now left.
Qed.

Lemma after_relocation_none info before el (r r' : TestResult) (s s' : Session W H) :
  after_relocation driver md5_hexdigest info before el r s = (inr None, r', s') ->
  In (click_status r') early_statuses.
Proof.
  unfold after_relocation. destruct el as [el|].
  2:{ unfold Py.bind, Py.update, Py.ret. intros [= <- <-]. simpl. auto. }
  unfold Py.bind at 1.
  destruct (prepare_click driver info el r s) as [[[e|[]] r1] s1]; [discriminate|].
  unfold Py.bind at 1.
  destruct (displayed_and_enabled driver el r1 s1) as [[[e|clickable] r2] s2]; [discriminate|].
  destruct clickable; simpl.
  - unfold Py.bind at 1.
    destruct (perform_click driver el r2 s2) as [[out r3] s3] eqn:Hclick.
    apply perform_click_returned in Hclick as [->|[-> Hst]].
    + unfold Py.bind.
      destruct (observe driver md5_hexdigest before r3 s3) as [[[e|o] r4] s4]; discriminate.
    + unfold Py.ret. intros [= <- <-]. exact Hst.
  - unfold Py.bind, Py.update, Py.ret. intros [= <- <-]. simpl. auto.
Qed.

Lemma click_and_observe_none info (r r' : TestResult) (s s' : Session W H) :
  click_and_observe driver md5_hexdigest info r s = (inr None, r', s') ->
  In (click_status r') early_statuses.
Proof.
  unfold click_and_observe. unfold Py.bind at 1.
  destruct (snapshot driver md5_hexdigest r s) as [[[e|before] r1] s1]; [discriminate|].
  unfold Py.bind at 1.
  destruct (relocate driver info 3 None r1 s1) as [[[e|el] r2] s2]; [discriminate|].
  apply after_relocation_none.
Qed.

Local Ltac flags :=
  repeat split; auto 6; try discriminate; try (intros [|]; discriminate).

Lemma classify_flags info (o : @Observation H) (r : TestResult) (s : Session W H) :
  unflagged r ->
  exists r',
    classify (W:=W) info o r s = (inr tt, r', s)
    /\ In (click_status r') classified_statuses
    /\ (page_changed r' = true <->
        click_status r' = "active_navigation" \/ click_status r' = "active_title_change")
    /\ (new_elements_appeared r' = true <-> click_status r' = "active_ui_change")
    /\ dom_hash_before r' = Some (hash_before o)
    /\ dom_hash_after r' = Some (hash_after o).
Proof.
  intros (Hp & Hn & _ & _). unfold classify.
  destruct (negb (String.eqb (final_url o) (initial_url o))).
  { eexists. split; [reflexivity|]. simpl. rewrite Hn.
    flags. }
  destruct (negb (String.eqb (final_title o) (initial_title o))).
  { eexists. split; [reflexivity|]. simpl. rewrite Hn.
    flags. }
  destruct (dom_changed o).
  { eexists. split; [reflexivity|]. simpl. rewrite Hn, Hp.
    flags. }
  destruct (nonempty (modals o) || nonempty (dropdowns o)).
  { eexists. split; [reflexivity|]. simpl. rewrite Hp.
    flags. }
  destruct (is_dead_click_by_href info).
  - eexists. split; [reflexivity|]. simpl. rewrite Hn, Hp.
    flags.
  - eexists. split; [reflexivity|]. simpl. rewrite Hn, Hp.
    flags.
Qed.

(** X13.  A click test always returns a result whose status is one of
    the five classification statuses or element_not_found, not_clickable,
    click_intercepted, error; never 'unknown'.  [page_changed] is set
    exactly for active_navigation and active_title_change,
    [new_elements_appeared] exactly for active_ui_change, and the two DOM
    hashes are present exactly when the status is one of the five
    classification statuses. *)
Theorem test_result_flags {L} (info : Descriptor) (url : string) (l0 : L)
    (s0 : Session W H) :
  exists result s,
    _test_element_click_with_driver driver md5_hexdigest info url l0 s0
    = (inr result, l0, s)
    /\ In (click_status result) (classified_statuses ++ early_statuses)
    /\ (page_changed result = true <->
        click_status result = "active_navigation"
        \/ click_status result = "active_title_change")
    /\ (new_elements_appeared result = true <-> click_status result = "active_ui_change")
    /\ (is_Some (dom_hash_after result) <-> In (click_status result) classified_statuses)
    /\ (is_Some (dom_hash_before result) <-> is_Some (dom_hash_after result)).
Proof.
  set (r0 := fresh_result info (now_isoformat driver (world s0))).
  assert (H0 : unflagged r0) by (repeat split).
  destruct (click_and_observe driver md5_hexdigest info r0 s0) as [[out r] s] eqn:Hrun.
  pose proof (follows_run _ _ _ _ _ _ _ (flags_kept_click_and_observe info) Hrun H0)
    as (Hp & Hn & Hb & Ha).
  simpl in Hp, Hn, Hb, Ha.
  assert (Hearly : forall st, In st early_statuses ->
            st <> "active_navigation" /\ st <> "active_title_change"
            /\ st <> "active_ui_change" /\ ~ In st classified_statuses).
  { intros st Hst. simpl in Hst.
    destruct Hst as [<-|[<-|[<-|[<-|[]]]]]; repeat split; try discriminate;
      simpl; intros Hin; repeat (destruct Hin as [Hin|Hin]; try discriminate);
      contradiction. }
  destruct out as [e|[o|]].
  - exists (set_error_message (exn_str e) (set_click_status "error" r)), s. split.
    { apply test_records_error. unfold click_test_body.
      erewrite run_bind_raise by exact Hrun. reflexivity. }
    simpl. rewrite Hp, Hn, Hb, Ha.
    destruct (Hearly "error") as (N1 & N2 & N3 & N4); [simpl; auto|].
    split; [auto 10|]. split; [split; [discriminate|intros [|]; congruence]|].
    split; [split; [discriminate|congruence]|].
    split; [split; [intros []; discriminate|intros Hin; contradiction]|].
    split; intros []; discriminate.
  - destruct (classify_flags info o r s) as (r' & Hc & Hst & Hpage & Hnew & Hhb & Hha).
    { repeat split; assumption. }
    exists r', s. split.
    { unfold _test_element_click_with_driver, click_test_body.
      unfold Py.bind at 1. unfold Py.peek at 1.
      unfold Py.bind at 1. unfold Py.with_local. fold r0.
      erewrite run_try_ok; [reflexivity|].
      erewrite run_bind_ok by exact Hrun. exact Hc. }
    split; [apply List.in_or_app; now left|]. split; [exact Hpage|]. split; [exact Hnew|].
    rewrite Hhb, Hha. split; split; eauto.
  - exists r, s. split; [now apply test_returns_early|].
    pose proof (click_and_observe_none info r0 r s0 s Hrun) as Hst.
    destruct (Hearly _ Hst) as (N1 & N2 & N3 & N4).
    rewrite Hp, Hn, Hb, Ha.
    split; [apply List.in_or_app; now right|].
    split; [split; [discriminate|intros [|]; contradiction]|].
    split; [split; [discriminate|contradiction]|].
    split; [split; [intros []; discriminate|contradiction]|].
    split; intros []; discriminate.
Qed.

End FlagFacts.

(** ** The locator chain only looks *)

Section LocatorFacts.
Context {W H L : Type}.
Variable driver : Driver W H.
Local Abbreviation M := (@Py.M W H).

Lemma reports_ret {A} (a : A) (Q : Exn + A -> list (Call H) -> Prop) :
  Q (inr a) [] -> reports (@Py.ret W H L A a) Q.
Proof. intros HQ l s. exists []. simpl. now rewrite List.app_nil_r. Qed.

Lemma reports_raise {A} e (Q : Exn + A -> list (Call H) -> Prop) :
  Q (inl e) [] -> reports (@Py.raise W H L A e) Q.
Proof. intros HQ l s. exists []. simpl. now rewrite List.app_nil_r. Qed.

Lemma reports_call {A} (c : Call H) (op : W -> (Exn + A) * W)
    (Q : Exn + A -> list (Call H) -> Prop) :
  (forall w, Q (op w).1 [c]) -> reports (@Py.call W H L A c op) Q.
Proof.
  intros HQ l s. exists [c]. unfold Py.call. specialize (HQ (world s)).
  destruct (op (world s)) as [r w']. simpl. auto.
Qed.

Lemma reports_bind {A B} (m : M L A) (k : A -> M L B) Q1 Q2
    (Q : Exn + B -> list (Call H) -> Prop) :
  reports m Q1 -> (forall a, reports (k a) (Q2 a)) ->
  (forall e n, Q1 (inl e) n -> Q (inl e) n) ->
  (forall a n1 r n2, Q1 (inr a) n1 -> Q2 a r n2 -> Q r (n1 ++ n2)) ->
  reports (Py.bind m k) Q.
Proof.
  intros Hm Hk Hraise Hseq l s. unfold Py.bind.
  destruct (Hm l s) as (n1 & Hl1 & Hc1 & HQ1).
  destruct (m l s) as [[[e|a] l1] s1]; simpl in *.
  - exists n1. auto.
  - destruct (Hk a l1 s1) as (n2 & Hl2 & Hc2 & HQ2).
    exists (n1 ++ n2). split; [congruence|]. split.
    + rewrite Hc2, Hc1. now rewrite List.app_assoc.
    + eapply Hseq; eauto.
Qed.

Lemma reports_try_except {A} (m : M L A) handler Q1 Q2
    (Q : Exn + A -> list (Call H) -> Prop) :
  reports m Q1 -> (forall e, reports (handler e) (Q2 e)) ->
  (forall a n, Q1 (inr a) n -> Q (inr a) n) ->
  (forall e n1 r n2, Q1 (inl e) n1 -> Q2 e r n2 -> Q r (n1 ++ n2)) ->
  reports (Py.try_except m handler) Q.
Proof.
  intros Hm Hh Hok Hseq l s. unfold Py.try_except.
  destruct (Hm l s) as (n1 & Hl1 & Hc1 & HQ1).
  destruct (m l s) as [[[e|a] l1] s1]; simpl in *.
  - destruct (Hh e l1 s1) as (n2 & Hl2 & Hc2 & HQ2).
    exists (n1 ++ n2). split; [congruence|]. split.
    + rewrite Hc2, Hc1. now rewrite List.app_assoc.
    + eapply Hseq; eauto.
  - exists n1. auto.
Qed.

Lemma only_looks_app (n1 n2 : list (Call H)) :
  only_looks n1 -> only_looks n2 -> only_looks (n1 ++ n2).
Proof. intros H1 H2. apply List.Forall_app. now split. Qed.

Lemma seen_displayed_later h (n1 n2 : list (Call H)) :
  seen_displayed driver h n2 -> seen_displayed driver h (n1 ++ n2).
Proof. intros [Hin Hcan]. split; [apply List.in_or_app; now right|exact Hcan]. Qed.

Lemma seen_displayed_earlier h (n1 n2 : list (Call H)) :
  seen_displayed driver h n1 -> seen_displayed driver h (n1 ++ n2).
Proof. intros [Hin Hcan]. split; [apply List.in_or_app; now left|exact Hcan]. Qed.

(** *** Computations that only look *)

Lemma looks_ret {A} (a : A) : reports (@Py.ret W H L A a) looks.
Proof. apply reports_ret. constructor. Qed.

Lemma looks_raise {A} e : reports (@Py.raise W H L A e) looks.
Proof. apply reports_raise. constructor. Qed.

Lemma looks_call {A} (c : Call H) (op : W -> (Exn + A) * W) :
  is_lookup_call c = true -> reports (@Py.call W H L A c op) looks.
Proof. intros Hc. apply reports_call. intros w. now repeat constructor. Qed.

Lemma looks_bind {A B} (m : M L A) (k : A -> M L B) :
  reports m looks -> (forall a, reports (k a) looks) -> reports (Py.bind m k) looks.
Proof.
  intros Hm Hk. apply reports_bind with (Q1 := looks) (Q2 := fun _ => looks); auto.
  intros a n1 r n2. apply only_looks_app.
Qed.

Lemma looks_getitem key f : reports (@getitem W H L key f) looks.
Proof. destruct f; [apply looks_ret|apply looks_raise]. Qed.

(** *** Conditions that say yes only for a displayed element *)

Lemma shows_is_displayed h : reports (@is_displayed W H driver L h) (shows driver h).
Proof.
  apply reports_call. intros w. split; [now repeat constructor|].
  intros Hyes. split; [now left|]. exists w. exact Hyes.
Qed.

Lemma shows_and_then h (b : M L bool) :
  reports b looks -> reports (and_then (is_displayed driver h) b) (shows driver h).
Proof.
  intros Hb. unfold and_then.
  apply reports_bind
    with (Q1 := shows driver h)
         (Q2 := fun x r n => only_looks n /\ (r = inr true -> x = true)).
  - apply shows_is_displayed.
  - intros [|].
    + intros l s. destruct (Hb l s) as (n & Hl & Hc & Hn). exists n. auto.
    + apply reports_ret. split; [constructor|discriminate].
  - intros e n [Hn _]. split; [exact Hn|discriminate].
  - intros a n1 r n2 [Hn1 Hyes1] [Hn2 Hyes2]. split; [now apply only_looks_app|].
    intros Hr. apply seen_displayed_earlier, Hyes1. f_equal. auto.
Qed.

(** *** Searches that return only a displayed element *)

Lemma finds_none : reports (@Py.ret W H L (option H) None) (finds driver).
Proof. apply reports_ret. split; [constructor|discriminate]. Qed.

Lemma finds_first_such (cond : H -> M L bool) (elements : list H) :
  (forall h, reports (cond h) (shows driver h)) ->
  reports (first_such cond elements) (finds driver).
Proof.
  intros Hcond. induction elements as [|el rest IH]; simpl.
  - apply finds_none.
  - apply reports_bind
      with (Q1 := shows driver el)
           (Q2 := fun ok r n => only_looks n /\
                    forall h, r = inr (Some h) ->
                      (ok = true /\ h = el /\ n = []) \/ seen_displayed driver h n).
    + apply Hcond.
    + intros [|].
      * apply reports_ret. split; [constructor|]. intros h [= <-]. now left.
      * intros l s. destruct (IH l s) as (n & Hl & Hc & Hn & Hf). exists n.
        split; [exact Hl|]. split; [exact Hc|]. split; [exact Hn|].
        intros h Hh. right. now apply Hf.
    + intros e n [Hn _]. split; [exact Hn|discriminate].
    + intros ok n1 r n2 [Hn1 Hyes] [Hn2 Hf]. split; [now apply only_looks_app|].
      intros h Hr. destruct (Hf h Hr) as [(-> & -> & ->)|Hseen].
      * apply seen_displayed_earlier. now apply Hyes.
      * now apply seen_displayed_later.
Qed.

Lemma finds_after_looking {A} (m : M L A) (k : A -> M L (option H)) :
  reports m looks -> (forall a, reports (k a) (finds driver)) ->
  reports (Py.bind m k) (finds driver).
Proof.
  intros Hm Hk.
  apply reports_bind with (Q1 := looks) (Q2 := fun _ => finds driver); auto.
  - intros e n Hn. split; [exact Hn|discriminate].
  - intros a n1 r n2 Hn1 [Hn2 Hf]. split; [now apply only_looks_app|].
    intros h Hr. now apply seen_displayed_later, Hf.
Qed.

Lemma finds_single_displayed by_ value :
  reports (@single_displayed W H driver L by_ value) (finds driver).
Proof.
  unfold single_displayed. apply finds_after_looking; [now apply looks_call|].
  intros element.
  apply reports_bind
    with (Q1 := shows driver element)
         (Q2 := fun shown r n => n = [] /\ forall h, r = inr (Some h) ->
                                           shown = true /\ h = element).
  - apply shows_is_displayed.
  - intros shown. apply reports_ret. split; [reflexivity|].
    intros h. destruct shown; [intros [= <-]; auto|discriminate].
  - intros e n [Hn _]. split; [exact Hn|discriminate].
  - intros shown n1 r n2 [Hn1 Hyes] [-> Hf]. rewrite List.app_nil_r.
    split; [exact Hn1|]. intros h Hr. destruct (Hf h Hr) as [-> ->]. now apply Hyes.
Qed.

Lemma finds_strategy (m : M L (option H)) :
  reports m (finds driver) -> reports (strategy m) (finds driver).
Proof.
  intros Hm. unfold strategy.
  apply reports_try_except
    with (Q1 := finds driver) (Q2 := fun _ r n => n = [] /\ r = inr None).
  - exact Hm.
  - intros e. apply reports_ret. auto.
  - auto.
  - intros e n1 r n2 [Hn1 _] [-> ->]. rewrite List.app_nil_r.
    split; [exact Hn1|discriminate].
Qed.

Lemma finds_or_else (m k : M L (option H)) :
  reports m (finds driver) -> reports k (finds driver) ->
  reports (or_else m k) (finds driver).
Proof.
  intros Hm Hk. unfold or_else.
  apply reports_bind
    with (Q1 := finds driver)
         (Q2 := fun first r n => only_looks n /\
                  forall h, r = inr (Some h) ->
                    (first = Some h /\ n = []) \/ seen_displayed driver h n).
  - exact Hm.
  - intros [el|].
    + apply reports_ret. split; [constructor|]. intros h [= <-]. now left.
    + intros l s. destruct (Hk l s) as (n & Hl & Hc & Hn & Hf). exists n.
      split; [exact Hl|]. split; [exact Hc|]. split; [exact Hn|].
      intros h Hh. right. now apply Hf.
  - intros e n [Hn _]. split; [exact Hn|discriminate].
  - intros first n1 r n2 [Hn1 Hf1] [Hn2 Hf2]. split; [now apply only_looks_app|].
    intros h Hr. destruct (Hf2 h Hr) as [(-> & ->)|Hseen].
    + now apply seen_displayed_earlier, Hf1.
    + now apply seen_displayed_later.
Qed.

Local Ltac looking :=
  repeat first
    [ apply looks_ret | apply looks_raise | apply looks_getitem
    | (apply looks_call; reflexivity)
    | apply looks_bind
    | match goal with
      | |- reports (if ?b then _ else _) looks => destruct b
      end
    | progress intros ].

Local Ltac finding :=
  repeat first
    [ apply finds_none
    | apply finds_single_displayed
    | apply finds_strategy
    | apply finds_or_else
    | (apply finds_first_such; intros)
    | apply shows_is_displayed
    | (apply shows_and_then; looking)
    | (apply finds_after_looking; [looking|intros])
    | match goal with
      | |- reports (if ?b then _ else _) _ => destruct b
      | |- reports (match ?o with Some _ => _ | None => _ end) _ => destruct o
      end ].

Lemma finds_locator_chain (info : Descriptor) :
  reports (@_find_element_by_info_with_driver W H driver L info)
    (fun r new => finds driver r new /\ exists found, r = inr found).
Proof.
  unfold _find_element_by_info_with_driver.
  apply reports_try_except
    with (Q1 := finds driver) (Q2 := fun _ r n => n = [] /\ r = inr None).
  - finding.
  - intros e. apply reports_ret. auto.
  - intros a n Hf. split; [exact Hf|eauto].
  - intros e n1 r n2 [Hn1 _] [-> ->]. rewrite List.app_nil_r.
    split; [|eauto]. split; [exact Hn1|discriminate].
Qed.

(** X12.  The locator chain never raises and leaves the caller's data
    alone.  The only driver calls it makes are find_element,
    find_elements, is_displayed, tag_name and text.  An element it returns
    is one for which it has asked is_displayed during this call and got
    the answer [True]. *)
Theorem locator_chain_only_looks (info : Descriptor) (l : L) (s : Session W H) :
  exists found new s',
    _find_element_by_info_with_driver driver info l s = (inr found, l, s')
    /\ calls s' = calls s ++ new
    /\ only_looks new
    /\ (forall h, found = Some h ->
          In (CallIsDisplayed h) new /\ can_be_displayed driver h).
Proof.
  destruct (finds_locator_chain info l s) as (new & Hl & Hc & [Hn Hf] & found & Hr).
  destruct (_find_element_by_info_with_driver driver info l s) as [[r l'] s'].
  simpl in *. subst. exists found, new, s'. split; [reflexivity|].
  split; [exact Hc|]. split; [exact Hn|].
  intros h ->. now apply Hf.
Qed.

End LocatorFacts.

(** ** A pointer click that fails *)

Section ClickFailure.
Context {W H : Type}.
Variable driver : Driver W H.
Variable md5_hexdigest : string -> string.

Lemma perform_click_fails el (r : TestResult) (s : Session W H) e w' :
  drv_move_and_click driver el (world s) = (inl e, w') ->
  exn_class e <> ElementClickInterceptedException ->
  perform_click driver el r s
  = (inr Returned,
     set_error_message ("Error during click: " ++ exn_str e) (set_click_status "error" r),
     mkSession w' (calls s ++ [CallMoveAndClick el])).
Proof.
  intros Hclick Hclass.
  unfold perform_click, Py.try_except, Py.bind at 1, move_and_click, Py.call.
  rewrite Hclick. simpl.
  destruct (bool_decide_reflect (exn_class e = ElementClickInterceptedException));
    [contradiction|reflexivity].
Qed.

(** X14.  When the pointer click raises an exception other than
    ElementClickInterceptedException, the test ends at once with status
    error and the message 'Error during click: ' followed by the exception
    text; no script click is tried, nothing before the pointer click has
    clicked, [page_changed] stays [False] and no DOM hash is recorded. *)
Theorem click_exception_recorded {L} info url (l0 : L) s0 before r1 s1 el r2 s2 r3 s3 r4 s4
    e w' :
  snapshot driver md5_hexdigest
    (fresh_result info (now_isoformat driver (world s0))) s0 = (inr before, r1, s1) ->
  relocate driver info 3 None r1 s1 = (inr (Some el), r2, s2) ->
  prepare_click driver info el r2 s2 = (inr tt, r3, s3) ->
  displayed_and_enabled driver el r3 s3 = (inr true, r4, s4) ->
  drv_move_and_click driver el (world s4) = (inl e, w') ->
  exn_class e <> ElementClickInterceptedException ->
  exists result,
    _test_element_click_with_driver driver md5_hexdigest info url l0 s0
    = (inr result, l0, mkSession w' (calls s4 ++ [CallMoveAndClick el]))
    /\ click_status result = "error"
    /\ error_message result = ("Error during click: " ++ exn_str e)%string
    /\ extends_quietly s0 s4
    /\ page_changed result = false
    /\ dom_hash_after result = None.
Proof.
  intros Hsnap Hrel Hprep Hchk Hclick Hclass.
  pose proof (perform_click_fails el r4 s4 e w' Hclick Hclass) as Hperf.
  assert (Hrun : click_and_observe driver md5_hexdigest info
                   (fresh_result info (now_isoformat driver (world s0))) s0
                 = (inr None,
                    set_error_message ("Error during click: " ++ exn_str e)
                      (set_click_status "error" r4),
                    mkSession w' (calls s4 ++ [CallMoveAndClick el]))).
  { unfold click_and_observe.
    erewrite run_bind_ok by exact Hsnap.
    erewrite run_bind_ok by exact Hrel.
    unfold after_relocation.
    erewrite run_bind_ok by exact Hprep.
    erewrite run_bind_ok by exact Hchk. simpl.
    erewrite run_bind_ok by exact Hperf. reflexivity. }
  eexists. split; [apply test_returns_early; exact Hrun|].
  split; [reflexivity|]. split; [reflexivity|].
  assert (Hflags : unflagged
            (set_error_message ("Error during click: " ++ exn_str e)
               (set_click_status "error" r4))).
  { refine (follows_run _ _ _ _ _ _ _
              (flags_kept_click_and_observe driver md5_hexdigest info) Hrun _).
    repeat split. }
  split.
  - eapply extends_quietly_trans;
      [exact (follows_run _ _ _ _ _ _ _ (quiet_snapshot driver md5_hexdigest) Hsnap)|].
    eapply extends_quietly_trans;
      [exact (follows_run _ _ _ _ _ _ _ (quiet_relocate driver info 3 None) Hrel)|].
    eapply extends_quietly_trans;
      [exact (follows_run _ _ _ _ _ _ _ (quiet_prepare_click driver info el) Hprep)|].
    exact (follows_run _ _ _ _ _ _ _ (quiet_displayed_and_enabled driver el) Hchk).
  - destruct Hflags as (Hp & _ & _ & Ha). auto.
Qed.

End ClickFailure.

(** ** Nested pairs anywhere in the input *)

Lemma prefix_shorter (p c : string) :
  String.prefix p c = true -> c <> p -> (String.length p < String.length c)%nat.
Proof.
  revert c. induction p as [|a p IH]; intros c Hpre Hne.
  - destruct c; [contradiction|simpl; lia].
  - destruct c as [|b c]; [discriminate|]. simpl in Hpre.
    destruct (ascii_dec a b) as [->|]; [|discriminate].
    simpl. apply -> Nat.succ_lt_mono. apply IH; [exact Hpre|congruence].
Qed.

Lemma nested_duplicate_longer (parent child : Descriptor) :
  nested_duplicate parent child = true -> (xpath_len parent < xpath_len child)%nat.
Proof.
  unfold nested_duplicate, xpath_len. cbv zeta. intros Hdup.
  apply andb_true_iff in Hdup as [_ Hdup].
  apply orb_true_iff in Hdup as [Hdup|Hdup].
  - apply andb_true_iff in Hdup as [Hdup Hne]. apply andb_true_iff in Hdup as [_ Hpre].
    apply prefix_shorter; [exact Hpre|].
    apply negb_true_iff, String.eqb_neq in Hne. exact Hne.
  - apply andb_true_iff in Hdup as [Hdup _]. apply andb_true_iff in Hdup as [Hpre Hcount].
    apply prefix_shorter; [exact Hpre|].
    apply Nat.eqb_eq in Hcount. intros Heq. rewrite Heq in Hcount. lia.
Qed.

Lemma sorted_positions {A} (key : A -> nat) (l : list A) (a b : A) :
  StronglySorted (fun x y => (key x <= key y)%nat) l ->
  In a l -> In b l -> (key a < key b)%nat ->
  exists i j, (i < j)%nat /\ l !! i = Some a /\ l !! j = Some b.
Proof.
  induction 1 as [|x l Hs IH Hall]; intros Ha Hb Hlt; [contradiction|].
  rewrite List.Forall_forall in Hall.
  destruct Ha as [<-|Ha], Hb as [<-|Hb].
  - lia.
  - apply list_elem_of_In, list_elem_of_lookup in Hb as [j Hj].
    exists 0%nat, (S j). split; [lia|]. auto.
  - specialize (Hall a Ha). lia.
  - destruct (IH Ha Hb Hlt) as (i & j & Hij & Hi & Hj).
    exists (S i), (S j). split; [lia|]. auto.
Qed.

Lemma nested_pair_discards (elements : list Descriptor) (parent child : Descriptor) :
  In parent elements -> In child elements ->
  nested_duplicate parent child = true ->
  unique_id parent ∈ elements_to_discard elements
  \/ unique_id child ∈ elements_to_discard elements.
Proof.
  intros Hp Hc Hdup.
  pose proof (nested_duplicate_longer parent child Hdup) as Hlen.
  assert (Hperm : Permutation (sorted_elements elements) elements)
    by apply sorted_by_key_perm.
  destruct (sorted_positions xpath_len (sorted_elements elements) parent child)
    as (i & j & Hij & Hi & Hj); auto.
  - apply sorted_by_key_sorted.
  - eapply Permutation_in; [symmetry; exact Hperm|exact Hp].
  - eapply Permutation_in; [symmetry; exact Hperm|exact Hc].
  - unfold elements_to_discard. eapply dedup_outer_complete; eauto.
Qed.

(** X7.  Whenever two descriptors anywhere in the input satisfy the
    nesting test, every descriptor with the parent's fingerprint or every
    descriptor with the child's fingerprint is removed, so the output is
    strictly shorter.  When parent and child share one fingerprint, both
    are removed. *)
Theorem nested_pair_loses_a_fingerprint (elements : list Descriptor)
    (parent child : Descriptor) :
  In parent elements -> In child elements ->
  nested_duplicate parent child = true ->
  let kept := advanced_deduplication elements in
  ((forall e, In e kept -> unique_id e <> unique_id parent)
   \/ (forall e, In e kept -> unique_id e <> unique_id child))
  /\ (unique_id parent = unique_id child -> ~ In parent kept /\ ~ In child kept)
  /\ (length kept < length elements)%nat.
Proof.
  intros Hp Hc Hdup. cbv zeta.
  pose proof (nested_pair_discards elements parent child Hp Hc Hdup) as Hdisc.
  assert (Hkept : forall e, In e (advanced_deduplication elements) ->
                    In e elements /\ unique_id e ∉ elements_to_discard elements).
  { intros e. unfold advanced_deduplication. rewrite List.filter_In.
    rewrite negb_true_iff, bool_decide_eq_false. auto. }
  assert (Hone : (forall e, In e (advanced_deduplication elements) ->
                    unique_id e <> unique_id parent)
                 \/ (forall e, In e (advanced_deduplication elements) ->
                       unique_id e <> unique_id child)).
  { destruct Hdisc as [Hd|Hd]; [left|right]; intros e He Heq;
      apply Hkept in He as [_ Hnot]; apply Hnot; now rewrite Heq. }
  split; [exact Hone|]. split.
  - intros Heq. split; intros Hin.
    + destruct Hone as [Hn|Hn]; apply (Hn parent Hin); congruence.
    + destruct Hone as [Hn|Hn]; apply (Hn child Hin); congruence.
  - unfold advanced_deduplication.
    set (f := fun elem : Descriptor =>
                negb (bool_decide (unique_id elem ∈ elements_to_discard elements))).
    assert (Hgone : exists x, In x elements /\ f x = false).
    { unfold f. destruct Hdisc as [Hd|Hd]; [exists parent|exists child];
        (split; [assumption|]); now rewrite negb_false_iff, bool_decide_eq_true. }
    destruct Hgone as (x & Hx & Hfx). clearbody f. clear -Hx Hfx.
    induction elements as [|y l IH]; [contradiction|].
    simpl. destruct Hx as [->|Hx].
    + rewrite Hfx. pose proof (List.filter_length_le f l). lia.
    + specialize (IH Hx). destruct (f y); simpl; lia.
Qed.

(** X8.  [advanced_deduplication] returns its input unchanged when no
    two descriptors of the input satisfy its nesting test. *)
Theorem advanced_deduplication_without_nesting (elements : list Descriptor) :
  (forall parent child, In parent elements -> In child elements ->
     nested_duplicate parent child = false) ->
  advanced_deduplication elements = elements.
Proof.
  intros Hnone.
  assert (Hempty : forall x, x ∉ elements_to_discard elements).
  { intros x Hx. unfold elements_to_discard in Hx.
    apply dedup_outer_sound in Hx as [Hx|(i & j & p & c & _ & Hi & Hj & _ & Hdup)].
    - now apply not_elem_of_empty in Hx.
    - assert (Hperm : Permutation (sorted_elements elements) elements)
        by apply sorted_by_key_perm.
      rewrite (Hnone p c) in Hdup; [discriminate| |].
      + eapply Permutation_in; [exact Hperm|].
        apply list_elem_of_In, list_elem_of_lookup. eauto.
      + eapply Permutation_in; [exact Hperm|].
        apply list_elem_of_In, list_elem_of_lookup. eauto. }
  unfold advanced_deduplication.
  induction elements as [|e l IH] in Hempty |- *; [reflexivity|].
  simpl.
  destruct (bool_decide_reflect (unique_id e ∈ elements_to_discard (e :: l))) as [Hin|_].
  { now apply Hempty in Hin. }
  simpl. f_equal.
  clear IH. generalize dependent (elements_to_discard (e :: l)). intros D HD.
  induction l as [|y l IH]; [reflexivity|]. simpl.
  destruct (bool_decide_reflect (unique_id y ∈ D)) as [Hin|_]; [now apply HD in Hin|].
  simpl. now f_equal.
Qed.

(** ** The header and footer test *)

Lemma append_assoc (a b c : string) : ((a ++ b) ++ c = a ++ (b ++ c))%string.
Proof.
  induction a as [|x a IH]; [reflexivity|].
  change (String x ((a ++ b) ++ c) = String x (a ++ (b ++ c)))%string.
  now rewrite IH.
Qed.

Lemma prefix_iff (p s : string) :
  String.prefix p s = true <-> exists post, s = (p ++ post)%string.
Proof.
  split.
  - revert s. induction p as [|a p IH]; intros s Hp.
    + exists s. reflexivity.
    + destruct s as [|b s]; [discriminate|]. simpl in Hp.
      destruct (ascii_dec a b) as [->|]; [|discriminate].
      destruct (IH s Hp) as (post & ->). exists post. reflexivity.
  - intros (post & ->). apply prefix_append.
Qed.

Lemma contains_iff (sub s : string) :
  PyStr.contains sub s = true <-> exists pre post, s = (pre ++ sub ++ post)%string.
Proof.
  split.
  - induction s as [|c s IH]; cbn [PyStr.contains]; intros Hc.
    + rewrite orb_false_r in Hc. apply prefix_iff in Hc as (post & Hs).
      exists "", post. exact Hs.
    + apply orb_true_iff in Hc as [Hp|Hc].
      * apply prefix_iff in Hp as (post & Hs). exists "", post. exact Hs.
      * destruct (IH Hc) as (pre & post & ->). exists (String c pre), post. reflexivity.
  - intros (pre & post & ->). induction pre as [|c pre IH].
    + change ("" ++ sub ++ post)%string with (sub ++ post)%string.
      destruct (sub ++ post)%string eqn:Hs; cbn [PyStr.contains].
      * rewrite orb_false_r. rewrite <- Hs. apply prefix_append.
      * apply orb_true_iff. left. rewrite <- Hs. apply prefix_append.
    + change (String c pre ++ sub ++ post)%string
        with (String c (pre ++ sub ++ post))%string.
      cbn [PyStr.contains]. apply orb_true_iff. right. exact IH.
Qed.

Lemma contains_trans (a b s : string) :
  PyStr.contains a b = true -> PyStr.contains b s = true -> PyStr.contains a s = true.
Proof.
  intros Hab Hbs. apply contains_iff in Hab as (p1 & q1 & ->).
  apply contains_iff in Hbs as (p2 & q2 & ->).
  apply contains_iff. exists (p2 ++ p1)%string, (q1 ++ q2)%string.
  now rewrite !append_assoc.
Qed.

Lemma keywords_collapse (attrs : string) :
  existsb (fun keyword => PyStr.contains keyword attrs) header_footer_keywords
  = PyStr.contains "header" attrs || PyStr.contains "nav" attrs
    || PyStr.contains "footer" attrs || PyStr.contains "breadcrumb" attrs.
Proof.
  assert (Hno : forall sub k, PyStr.contains sub k = true ->
            PyStr.contains sub attrs = false -> PyStr.contains k attrs = false).
  { intros sub k Hk Hs. destruct (PyStr.contains k attrs) eqn:Hc; [|reflexivity].
    rewrite (contains_trans sub k attrs Hk Hc) in Hs. discriminate. }
  unfold header_footer_keywords. cbn [existsb].
  destruct (PyStr.contains "header" attrs) eqn:Hh; [reflexivity|].
  destruct (PyStr.contains "nav" attrs) eqn:Hn; [reflexivity|].
  rewrite (Hno "nav" "navigation"), (Hno "nav" "navbar"), (Hno "nav" "nav-bar")
    by (reflexivity || assumption).
  destruct (PyStr.contains "footer" attrs) eqn:Hf; [reflexivity|].
  rewrite (Hno "header" "site-header"), (Hno "footer" "site-footer"),
    (Hno "header" "page-header"), (Hno "footer" "page-footer"),
    (Hno "header" "main-header"), (Hno "footer" "main-footer"),
    (Hno "nav" "top-nav"), (Hno "nav" "bottom-nav"), (Hno "nav" "primary-nav"),
    (Hno "nav" "secondary-nav") by (reflexivity || assumption).
  cbn [orb]. now rewrite orb_false_r.
Qed.

(** X15.  When the tag name and the attributes can be read, the test is
    true exactly when the tag is header, nav or footer, or the lower-cased
    'class id' string contains 'header', 'nav', 'footer' or 'breadcrumb'
    (the other thirteen keywords add nothing), or the role is banner,
    navigation or contentinfo, or the ancestor script answers true.  When
    the tag name cannot be read it is false. *)
Theorem header_or_footer_by_substring (rd : RegionReadings) :
  (forall tag element_class element_id element_role,
     rg_tag_name rd = inr tag -> rg_class rd = inr element_class ->
     rg_id rd = inr element_id -> rg_role rd = inr element_role ->
     let attrs := PyStr.lower (default "" element_class ++ " " ++ default "" element_id) in
     _is_in_header_or_footer rd
     = str_in (PyStr.lower tag) ["header"; "nav"; "footer"]
       || PyStr.contains "header" attrs || PyStr.contains "nav" attrs
       || PyStr.contains "footer" attrs || PyStr.contains "breadcrumb" attrs
       || str_in (default "" element_role) ["banner"; "navigation"; "contentinfo"]
       || match rg_ancestor_script rd with inr b => b | inl _ => false end)
  /\ (forall e, rg_tag_name rd = inl e -> _is_in_header_or_footer rd = false).
Proof.
  split.
  - intros tag element_class element_id element_role Ht Hc Hi Hr. cbv zeta.
    unfold _is_in_header_or_footer, attr_or_empty. rewrite Ht, Hc, Hi, Hr.
    cbn [and_next].
    set (attrs := PyStr.lower (default "" element_class ++ " " ++ default "" element_id)).
    destruct (str_in (PyStr.lower tag) ["header"; "nav"; "footer"]); [reflexivity|].
    rewrite keywords_collapse.
    destruct (PyStr.contains "header" attrs); [reflexivity|].
    destruct (PyStr.contains "nav" attrs); [reflexivity|].
    destruct (PyStr.contains "footer" attrs); [reflexivity|].
    destruct (PyStr.contains "breadcrumb" attrs); [reflexivity|].
    cbn [orb].
    destruct (str_in (default "" element_role) ["banner"; "navigation"; "contentinfo"]);
      reflexivity.
  - intros e He. unfold _is_in_header_or_footer. now rewrite He.
Qed.

(** * Closed examples on the scripted driver *)

Lemma create_unique_id_same_components_example :
  text long_text_a <> text long_text_b
  /\ create_unique_id fake_hash long_text_a = create_unique_id fake_hash long_text_b.
Proof.
  split; [discriminate|].
  apply (create_unique_id_same_components fake_hash long_text_a long_text_b);
    vm_compute; reflexivity.
Defined.

Lemma divide_into_batches_partition_example :
  exists batches,
    _divide_elements_into_batches [1; 2; 3; 4; 5; 6; 7]%nat 3 = Some batches /\
    concat batches = [1; 2; 3; 4; 5; 6; 7]%nat /\
    List.Forall (fun b => (length b <= ceil_div 7 3)%nat) batches /\
    (forall i b, nth_error batches i = Some b ->
       length b = (7 / 3 + (if (i <? 7 mod 3)%nat then 1 else 0))%nat).
Proof.
  apply (divide_into_batches_partition [1; 2; 3; 4; 5; 6; 7]%nat 3). lia.
Defined.

Lemma classification_priority_example :
  exists o r s,
    click_and_observe fake_driver fake_md5 about_link
      (fresh_result about_link "2024-01-01T00:00:00") (start_session home_page)
    = (inr (Some o), r, s)
    /\ final_url o <> initial_url o /\ dom_changed o = true
    /\ exists result reason,
         _test_element_click_with_driver fake_driver fake_md5 about_link
           "http://site.test/" tt (start_session home_page) = (inr result, tt, s)
         /\ first_match (priority_table about_link) o = Some (click_status result, reason)
         /\ error_message result = default (error_message r) reason
         /\ (final_url o <> initial_url o -> click_status result = "active_navigation").
Proof.
  eexists _, _, _. split; [vm_compute; reflexivity|].
  split; [discriminate|]. split; [reflexivity|].
  apply (classification_priority fake_driver fake_md5 about_link "http://site.test/" tt
           (start_session home_page)).
  vm_compute. reflexivity.
Defined.

Lemma suspicious_href_dead_click_example :
  exists s result,
    _test_element_click_with_driver fake_driver fake_md5 void_link
      "http://site.test/" tt (start_session inert_page) = (inr result, tt, s)
    /\ click_status result = "dead_click"
    /\ error_message result
       = "Dead click: suspicious href or onclick and no visible effect"
    /\ error_message result <> "Dead click: no visible effect after click".
Proof.
  eexists.
  eapply (suspicious_href_dead_click fake_driver fake_md5 void_link "http://site.test/" tt
            (start_session inert_page)); vm_compute; reflexivity.
Defined.

Lemma retry_exhaustion_not_found_example :
  exists s result,
    _test_element_click_with_driver fake_driver fake_md5 about_link
      "http://site.test/" tt (start_session empty_page) = (inr result, tt, s)
    /\ click_status result = "element_not_found"
    /\ error_message result
       = "Element could not be located for clicking (after retries)"
    /\ extends_quietly (start_session empty_page) s.
Proof.
  eexists.
  eapply (retry_exhaustion_not_found fake_driver fake_md5 about_link "http://site.test/" tt
            (start_session empty_page)); vm_compute; reflexivity.
Defined.

Lemma not_clickable_after_scroll_example :
  exists s result,
    _test_element_click_with_driver fake_driver fake_md5 about_link
      "http://site.test/" tt (start_session disabled_page) = (inr result, tt, s)
    /\ click_status result = "not_clickable"
    /\ error_message result = "Element is not displayed or enabled"
    /\ extends_quietly (start_session disabled_page) s
    /\ click_status result <> "element_not_found"
    /\ click_status result <> "error".
Proof.
  eexists.
  eapply (not_clickable_after_scroll fake_driver fake_md5 about_link "http://site.test/" tt
            (start_session disabled_page)); vm_compute; reflexivity.
Defined.



(** * The model on small inputs *)

Example strip_and_dots : PyStr.spaces_to_dots (PyStr.strip "  btn btn-primary ") = "btn.btn-primary".
Proof. reflexivity. Qed.

Example normalized_href : normalized (Some "JavaScript: Void(0)") = "javascript:void(0)".
Proof. reflexivity. Qed.

Example hash_link_is_suspicious :
  is_dead_click_by_href
    (mkDescriptor (Some "a") None None None (Some "#") (Some "go()") None None None None None None)
  = true.
Proof. reflexivity. Qed.

Example real_link_with_handler_is_not_suspicious :
  is_dead_click_by_href
    (mkDescriptor (Some "a") None None None (Some "/about") (Some "go()") None None None None
       None None)
  = false.
Proof. reflexivity. Qed.

Example nested_card_keeps_one : final_elements [card_link; card] = [card].
Proof. vm_compute. reflexivity. Qed.

Example seven_over_three :
  _divide_elements_into_batches [1; 2; 3; 4; 5; 6; 7]%nat 3
  = Some [[1; 2; 3]; [4; 5]; [6; 7]]%nat.
Proof. reflexivity. Qed.

Example two_over_three :
  _divide_elements_into_batches [1; 2]%nat 3 = Some [[1]; [2]]%nat.
Proof. reflexivity. Qed.

Example no_workers : _divide_elements_into_batches [1; 2]%nat 0 = None.
Proof. reflexivity. Qed.

(** The calls of a test that finds nothing: the snapshot, then three runs
    of the chain, each followed by its pause. *)
Example calls_when_nothing_is_found :
  calls (_test_element_click_with_driver fake_driver fake_md5 about_link
           "http://site.test/" tt (start_session empty_page)).2
  = [ CallCurrentUrl; CallTitle; CallExecuteScript inner_html_script [];
      CallFindElement XPATH "/html/body/a[1]";
      CallFindElements CSS_SELECTOR "html > body > a";
      CallFindElements CSS_SELECTOR "a.nav-link";
      CallFindElements XPATH
        ("//a[contains(normalize-space(), " ++ dquote ++ "About" ++ dquote ++ ")]")%string;
      CallFindElements CSS_SELECTOR ".nav-link";
      CallSleep 700;
      CallFindElement XPATH "/html/body/a[1]";
      CallFindElements CSS_SELECTOR "html > body > a";
      CallFindElements CSS_SELECTOR "a.nav-link";
      CallFindElements XPATH
        ("//a[contains(normalize-space(), " ++ dquote ++ "About" ++ dquote ++ ")]")%string;
      CallFindElements CSS_SELECTOR ".nav-link";
      CallSleep 700;
      CallFindElement XPATH "/html/body/a[1]";
      CallFindElements CSS_SELECTOR "html > body > a";
      CallFindElements CSS_SELECTOR "a.nav-link";
      CallFindElements XPATH
        ("//a[contains(normalize-space(), " ++ dquote ++ "About" ++ dquote ++ ")]")%string;
      CallFindElements CSS_SELECTOR ".nav-link";
      CallSleep 700 ].
Proof. vm_compute. reflexivity. Qed.

(** * Closed examples for the further properties *)

Lemma extracted_descriptor_is_suspicious_example :
  exists info seen',
    extract_element_info fake_hash fake_urljoin no_network anchor_readings
      "http://site.test/" ∅ = (Some info, seen')
    /\ let d := info_descriptor info in
       href d = None /\ onclick d = None
       /\ is_dead_click_by_href d = true
       /\ unique_id d = Some (create_unique_id fake_hash d)
       /\ (create_unique_id fake_hash d ∉ (∅ : gset Z))
       /\ seen' = {[ create_unique_id fake_hash d ]} ∪ ∅
       /\ (exists tag, rd_tag_name anchor_readings = inr tag
                       /\ tag_name d = Some (PyStr.lower tag))
       /\ (exists t, text d = Some t /\ (String.length t <= 100)%nat).
Proof.
  eexists _, _. split; [vm_compute; reflexivity|].
  eapply (extracted_descriptor_is_suspicious fake_hash fake_urljoin no_network
            anchor_readings "http://site.test/" ∅).
  vm_compute. reflexivity.
Defined.

Lemma hidden_and_regular_fingerprints_example :
  exists hidden regular seen',
    extract_element_info_for_hidden fake_hash fake_urljoin no_network anchor_readings
      "http://site.test/" = Some hidden
    /\ extract_element_info fake_hash fake_urljoin no_network anchor_readings
         "http://site.test/" ∅ = (Some regular, seen')
    /\ PyStr.lower "A" <> "A"
    /\ let h := info_descriptor hidden in
       let r := info_descriptor regular in
       xpath h = xpath r /\ text h = text r /\ class_names h = class_names r
       /\ el_id h = el_id r
       /\ info_is_displayed hidden = true
       /\ is_carousel_element h = Some true /\ is_carousel_element r = None
       /\ (PyStr.lower "A" = "A" -> unique_id h = unique_id r)
       /\ (PyStr.lower "A" <> "A" ->
           fingerprint_components h <> fingerprint_components r).
Proof.
  eexists _, _, _. split; [vm_compute; reflexivity|].
  split; [vm_compute; reflexivity|]. split; [discriminate|].
  eapply (hidden_and_regular_fingerprints fake_hash fake_urljoin no_network
            anchor_readings "http://site.test/" ∅); vm_compute; reflexivity.
Defined.

Lemma xpath_of_child_extends_parent_example :
  getXPath (Child "LI" "" [SiblingElement "LI"] list_node) = "/html/body/ul[1]/li[2]"
  /\ let child_xpath := getXPath (Child "LI" "" [SiblingElement "LI"] list_node) in
     let parent_xpath := getXPath list_node in
     PyStr.startswith child_xpath parent_xpath = true
     /\ child_xpath <> parent_xpath
     /\ PyStr.count child_xpath "/" = (PyStr.count parent_xpath "/" + 1)%nat
     /\ forall parent child : Descriptor,
          xpath parent = Some parent_xpath -> xpath child = Some child_xpath ->
          nested_duplicate parent child
          = PyStr.contains special_container_class (get_str (class_names parent))
            || same_nonempty (text parent) (text child)
            || same_nonempty (class_names parent) (class_names child).
Proof.
  split; [vm_compute; reflexivity|].
  apply (xpath_of_child_extends_parent "LI" [SiblingElement "LI"] list_node).
  reflexivity.
Defined.

Lemma child_with_id_is_not_nested_example :
  same_nonempty (text list_descriptor) (text named_item_descriptor) = true
  /\ nested_duplicate list_descriptor named_item_descriptor = false.
Proof.
  split; [vm_compute; reflexivity|].
  apply (child_with_id_is_not_nested "LI" "promo" [] list_node
           list_descriptor named_item_descriptor).
  - discriminate.
  - reflexivity.
  - vm_compute. reflexivity.
  - vm_compute. reflexivity.
Defined.

Lemma nested_pair_loses_a_fingerprint_example :
  advanced_deduplication [badge; inner_badge] = []
  /\ let kept := advanced_deduplication [badge; inner_badge] in
     ((forall e, In e kept -> unique_id e <> unique_id badge)
      \/ (forall e, In e kept -> unique_id e <> unique_id inner_badge))
     /\ (unique_id badge = unique_id inner_badge ->
         ~ In badge kept /\ ~ In inner_badge kept)
     /\ (length kept < length [badge; inner_badge])%nat.
Proof.
  split; [vm_compute; reflexivity|].
  apply (nested_pair_loses_a_fingerprint [badge; inner_badge] badge inner_badge).
  - simpl. auto.
  - simpl. auto.
  - vm_compute. reflexivity.
Defined.

Lemma advanced_deduplication_without_nesting_example :
  advanced_deduplication [about_link; card] = [about_link; card].
Proof.
  apply (advanced_deduplication_without_nesting [about_link; card]).
  intros parent child [<-|[<-|[]]] [<-|[<-|[]]]; vm_compute; reflexivity.
Defined.

Lemma is_duplicate_element_keyed_example :
  exists b,
    is_duplicate_element about_link [card; about_link] = inr b
    /\ (b = true <-> exists existing, In existing [card; about_link]
                                      /\ same_by_keys existing about_link)
    /\ (In about_link [card; about_link] -> b = true).
Proof.
  apply (is_duplicate_element_keyed about_link [card; about_link]).
  - repeat split; eexists; reflexivity.
  - repeat constructor; eexists; reflexivity.
Defined.

Lemma unsuspicious_needs_href_and_onclick_example :
  is_dead_click_by_href tracked_link = false
  /\ PyStr.truthy (normalized (href tracked_link)) = true
  /\ PyStr.truthy (normalized (onclick tracked_link)) = true.
Proof.
  split; [reflexivity|].
  apply (unsuspicious_needs_href_and_onclick tracked_link). reflexivity.
Defined.

Lemma divide_into_batches_count_example :
  exists batches,
    _divide_elements_into_batches [1; 2]%nat 3 = Some batches
    /\ length batches = Nat.min (length [1; 2]%nat) 3
    /\ List.Forall (fun b => b <> []) batches
    /\ (forall b b', In b batches -> In b' batches -> (length b <= length b' + 1)%nat).
Proof.
  apply (divide_into_batches_count [1; 2]%nat 3). lia.
Defined.

Lemma click_exception_recorded_example :
  exists s4 w' result,
    _test_element_click_with_driver stale_driver fake_md5 about_link
      "http://site.test/" tt (start_session home_page)
    = (inr result, tt, mkSession w' (calls s4 ++ [CallMoveAndClick 0%nat]))
    /\ click_status result = "error"
    /\ error_message result = ("Error during click: " ++ exn_str stale)%string
    /\ extends_quietly (start_session home_page) s4
    /\ page_changed result = false
    /\ dom_hash_after result = None.
Proof.
  eexists _, _.
  eapply (click_exception_recorded stale_driver fake_md5 about_link "http://site.test/" tt
            (start_session home_page)).
  - vm_compute. reflexivity.
  - vm_compute. reflexivity.
  - vm_compute. reflexivity.
  - vm_compute. reflexivity.
  - vm_compute. reflexivity.
  - discriminate.
Defined.

Lemma concurrent_run_tests_every_element_example :
  let clickable_elements := [about_link; void_link] in
  let driver_pool := [start_session home_page; start_session inert_page] in
  let run := concurrent_test_report fake_driver fake_md5 "http://site.test/"
               clickable_elements driver_pool [1; 0]%nat in
  (exists report summary,
     run = inr (report, summary)
     /\ List.map click_status (results report) = ["dead_click"; "active_navigation"])
  /\ (List.Forall (fun d => is_Some (class_names d)) clickable_elements ->
      exists report summary,
        run = inr (report, summary)
        /\ Permutation (List.map element_info (results report)) clickable_elements
        /\ total_elements_found report = length clickable_elements
        /\ elements_tested report = length clickable_elements
        /\ (active_clicks report + dead_clicks report + errors report)%nat
           = length clickable_elements
        /\ batches_created report
           = Nat.min (length clickable_elements) (length driver_pool)
        /\ total_tested summary = length clickable_elements
        /\ counts_total (click_status_breakdown summary) = length clickable_elements)
  /\ (forall message,
        run = inl message ->
        message = "'class_names'"
        /\ List.Exists (fun d => class_names d = None) clickable_elements).
Proof.
  cbv zeta. split; [eexists _, _; split; vm_compute; reflexivity|].
  apply (concurrent_run_tests_every_element fake_driver fake_md5 "http://site.test/"
           [about_link; void_link]
           [start_session home_page; start_session inert_page] [1; 0]%nat).
  - discriminate.
  - simpl. apply perm_swap.
Defined.

Lemma report_filename_in_working_directory_example :
  report_filename "https://site.test/a/b" None = "clickability_test_site.test_a_b_4.json"
  /\ exists safe_url,
       report_filename "https://site.test/a/b" None
       = ("clickability_test_" ++ safe_url ++ "_4.json")%string
       /\ PyStr.count safe_url "/" = 0%nat
       /\ PyStr.count (report_filename "https://site.test/a/b" None) "/" = 0%nat
       /\ ("https://site.test/a/b" = "" -> safe_url = "unknown_url").
Proof.
  split; [vm_compute; reflexivity|].
  apply (report_filename_in_working_directory "https://site.test/a/b" None). reflexivity.
Defined.
